(** * AgroMate backend: cart pricing, checkout and order queries

    A shallow embedding of the cart, checkout and order controllers of the
    AgroMate backend (Express + Mongoose), with the properties of its
    specification stated over it.

    Conventions of the embedding:
    - a JavaScript [number] is a rational ([Q]); [NaN] and the infinities
      are left out. The controllers are first given with exact arithmetic;
      the pricing path (the delivery fee and the totals of the cart) is
      given again in module [Ieee] with every product and sum rounded to
      binary64 as the engine rounds it, and the two are shown to agree on
      whole amounts;
    - an [ObjectId] is the 96-bit value it holds ([N]);
    - the document store is a record of collections that every handler
      receives and returns ([handler : DB -> Response * DB]);
    - an exception caught by a handler's [try { ... } catch] is the
      handler's 500 response. *)

From Stdlib Require Import QArith Qround ZArith NArith Ascii String List Lia Sorted.
From stdpp Require Import gmap strings.
Import ListNotations.

Local Open Scope Q_scope.

(** ** Numbers *)

Module Num.

(** [a >= b] and [a < b], [a <= b] on JavaScript numbers. *)
Definition geb (a b : Q) : bool := Qle_bool b a.
Definition ltb (a b : Q) : bool := negb (Qle_bool b a).
Definition leb (a b : Q) : bool := Qle_bool a b.

(** [x || 0] on a number: [0] is the only falsy rational. *)
Definition or_zero (x : Q) : Q := if Qeq_bool x 0 then 0 else x.

End Num.

(** ** utils/cartUtils.ts *)

Module CartUtils.

(** [calculateDeliveryFee(subtotal)]: free from 500 on, otherwise a tenth of
    the subtotal, rounded down and clamped to [10, 50]. *)
Definition calculateDeliveryFee (subtotal : Q) : Q :=
  if Num.geb subtotal 500 then 0
  else
    let fee := Qfloor (subtotal * (1 # 10)) in
    inject_Z (Z.min 50 (Z.max 10 fee)).

End CartUtils.

(** ** Documents *)

(** A Mongo [ObjectId], as the 96-bit number it holds. *)
Definition ObjectId := N.
Bind Scope N_scope with ObjectId.

(** models/productModel.ts *)
Module Product.

Inductive Status := draft | active | inactive | out_of_stock.

Definition status_eqb (a b : Status) : bool :=
  match a, b with
  | draft, draft | active, active | inactive, inactive
  | out_of_stock, out_of_stock => true
  | _, _ => false
  end.

Record t := mk {
  _id : ObjectId;
  name : string;
  price : Q;
  stock : Q;
  status : Status;
  farmer : ObjectId;
  totalSold : Q;
  totalValue : Q
}.

(** [productSchema.pre('save')]: recompute [totalValue], then align the
    status with the stock. *)
Definition preSave (this : t) : t :=
  let totalValue' := price this * stock this in
  let status' :=
    if Num.leb (stock this) 0 then out_of_stock
    else if status_eqb (status this) out_of_stock && Num.ltb 0 (stock this)
         then active
         else status this in
  mk (_id this) (name this) (price this) (stock this) status'
     (farmer this) (totalSold this) totalValue'.

End Product.

(** models/userModel.ts, as far as the order controllers read it. *)
Module User.

Record t := mk {
  _id : ObjectId;
  name : string;
  role : string
}.

End User.

(** models/orderModel.ts *)
Module OrderItem.

Record t := mk {
  product : ObjectId;
  quantity : Q;
  price : Q
}.

(** [orderItemSchema]: [quantity] has [min: 1], [price] has [min: 0]. *)
Definition valid (i : t) : bool :=
  Num.geb (quantity i) 1 && Num.geb (price i) 0.

End OrderItem.

Module Order.

Record t := mk {
  _id : ObjectId;
  user : ObjectId;
  items : list OrderItem.t;
  subtotal : Q;
  deliveryFee : Q;
  total : Q;
  status : string;
  createdAt : N
}.

(** The [enum] of [orderSchema.status]. *)
Definition statusEnum : list string :=
  ["placed"; "shipped"; "delivered"; "cancelled"]%string.

Definition includes (l : list string) (s : string) : bool :=
  existsb (String.eqb s) l.

(** Schema validation, as it runs before every [save] and [create]. *)
Definition valid (o : t) : bool :=
  forallb OrderItem.valid (items o) && includes statusEnum (status o).

Definition set_status (s : string) (o : t) : t :=
  mk (_id o) (user o) (items o) (subtotal o) (deliveryFee o) (total o) s
     (createdAt o).

End Order.

Module CartItem.

Record t := mk {
  product : ObjectId;
  quantity : Q
}.

(** Modelled from the spec: models/cartModel.ts is not among the sources;
    the data model gives a cart line as {product reference, quantity >= 1},
    which is the schema's [min: 1] on [quantity]. *)
Definition valid (i : t) : bool := Num.geb (quantity i) 1.

End CartItem.

Module Cart.

Record t := mk {
  user : ObjectId;
  items : list CartItem.t
}.

Definition valid (c : t) : bool := forallb CartItem.valid (items c).

End Cart.

(** ** The document store *)

Record DB := mkDB {
  products : gmap ObjectId Product.t;
  users : gmap ObjectId User.t;
  carts : gmap ObjectId Cart.t;     (* one cart per user, keyed by the user *)
  orders : list Order.t
}.

Definition set_products (ps : gmap ObjectId Product.t) (db : DB) : DB :=
  mkDB ps (users db) (carts db) (orders db).
Definition set_carts (cs : gmap ObjectId Cart.t) (db : DB) : DB :=
  mkDB (products db) (users db) cs (orders db).
Definition set_orders (os : list Order.t) (db : DB) : DB :=
  mkDB (products db) (users db) (carts db) os.

(** What a request cannot choose: the id given to a created document and
    the time of the request. *)
Record Env := mkEnv { newId : ObjectId; now : N }.

(** ** Populated documents *)

(** A cart line after [populate('items.product')]: the product document, or
    [null] when the reference dangles. *)
Record PopulatedCartItem := mkPCI {
  pci_product : option Product.t;
  pci_quantity : Q
}.

Definition populateCartItem (db : DB) (i : CartItem.t) : PopulatedCartItem :=
  mkPCI (products db !! CartItem.product i) (CartItem.quantity i).

Definition populateCart (db : DB) (c : Cart.t) : list PopulatedCartItem :=
  map (populateCartItem db) (Cart.items c).

(** ** Responses *)

Inductive Message :=
| Text (s : string)
  (** [`Product ${item.product} not available`] *)
| ProductNotAvailable (product : option Product.t)
  (** [`Insufficient stock for ${product.name}. Available: ${product.stock}`] *)
| InsufficientStock (name : string) (available : Q).

Record PopulatedOrderItem := mkPOI {
  poi_product : option Product.t;
  poi_quantity : Q;
  poi_price : Q
}.

Record PopulatedOrder := mkPO {
  po_id : ObjectId;
  po_user : option User.t;
  po_items : list PopulatedOrderItem;
  po_subtotal : Q;
  po_deliveryFee : Q;
  po_total : Q;
  po_status : string;
  po_createdAt : N
}.

Inductive Body :=
| JMessage (m : Message)                       (* { message } *)
| JError (m : Message)                         (* { status: 'error', message } *)
| JOrder (o : Order.t)
| JOrderData (o : Order.t)                     (* { status: 'success', data: { order } } *)
| JPopulatedOrder (o : PopulatedOrder)
| JPopulatedOrders (os : list PopulatedOrder)
| JCart (c : Cart.t)
| JCartSummary (items : list PopulatedCartItem) (subtotal deliveryFee total : Q).

Record Response := mkResponse { code : nat; body : Body }.

Definition serverError : Response :=
  mkResponse 500 (JMessage (Text "Server error")).

(** ** ObjectId as text *)

Module ObjectIdText.

Definition hexDigit (n : N) : ascii :=
  match n with
  | 0 => "0" | 1 => "1" | 2 => "2" | 3 => "3" | 4 => "4" | 5 => "5"
  | 6 => "6" | 7 => "7" | 8 => "8" | 9 => "9" | 10 => "a" | 11 => "b"
  | 12 => "c" | 13 => "d" | 14 => "e" | _ => "f"
  end%N%char.

Fixpoint hexDigits (k : nat) (n : N) (acc : string) : string :=
  match k with
  | O => acc
  | S k' => hexDigits k' (n / 16)%N (String (hexDigit (n mod 16)%N) acc)
  end.

(** [id.toString()]: the 24 lowercase hexadecimal digits of the id. *)
Definition toString (id : ObjectId) : string := hexDigits 24 id EmptyString.

Definition hexValue (c : ascii) : option N :=
  let n := N_of_ascii c in
  if (48 <=? n)%N && (n <=? 57)%N then Some (n - 48)%N
  else if (97 <=? n)%N && (n <=? 102)%N then Some (n - 87)%N
  else if (65 <=? n)%N && (n <=? 70)%N then Some (n - 55)%N
  else None.

Fixpoint parseHex (s : string) (acc : N) : option N :=
  match s with
  | EmptyString => Some acc
  | String c s' =>
      match hexValue c with
      | Some d => parseHex s' (16 * acc + d)%N
      | None => None
      end
  end.

(** The reading of a 24-digit hexadecimal string as an id, in either
    letter case. *)
Definition ofHex (s : string) : option ObjectId :=
  if (String.length s =? 24)%nat then parseHex s 0%N else None.

Definition isHex24 (s : string) : bool :=
  match ofHex s with Some _ => true | None => false end.

(** [doc.toString()] on a populated user document: Mongoose's
    [Document.prototype.toString] prints the document through [inspect];
    the layout is immaterial here, the text opens with a brace. *)
Definition inspectUser (u : User.t) : string :=
  ("{ _id: new ObjectId('" ++ toString (User._id u) ++ "'), name: '"
   ++ User.name u ++ "', role: '" ++ User.role u ++ "' }")%string.

End ObjectIdText.

(** ** controllers/orderController.ts *)

Module OrderController.

Definition populateOrderItem (db : DB) (i : OrderItem.t) : PopulatedOrderItem :=
  mkPOI (products db !! OrderItem.product i) (OrderItem.quantity i)
        (OrderItem.price i).

(** [.populate('items.product user', '-password')] *)
Definition populateOrder (db : DB) (o : Order.t) : PopulatedOrder :=
  mkPO (Order._id o) (users db !! Order.user o)
       (map (populateOrderItem db) (Order.items o))
       (Order.subtotal o) (Order.deliveryFee o) (Order.total o)
       (Order.status o) (Order.createdAt o).

Definition findById (id : ObjectId) (os : list Order.t) : option Order.t :=
  List.find (fun o => (Order._id o =? id)%N) os.

(** [getOrderById]: the order with its products and user populated, for
    its owner or an admin. [order.user] is the populated document here, so
    [order.user.toString()] is its printed form, and throws when the user
    no longer exists. *)
Definition getOrderById (requester : User.t) (id : ObjectId) (db : DB)
  : Response :=
  match findById id (orders db) with
  | None => mkResponse 404 (JMessage (Text "Order not found"))
  | Some o =>
      let order := populateOrder db o in
      match po_user order with
      | None => serverError
      | Some owner =>
          if negb (String.eqb (ObjectIdText.inspectUser owner)
                              (ObjectIdText.toString (User._id requester)))
             && negb (String.eqb (User.role requester) "admin")
          then mkResponse 403
                 (JMessage (Text "Not authorized to view this order"))
          else mkResponse 200 (JPopulatedOrder order)
      end
  end.

(** [.sort({ createdAt: -1 })]: newest first. *)
Fixpoint insertNewest (o : Order.t) (sorted : list Order.t) : list Order.t :=
  match sorted with
  | [] => [o]
  | o' :: rest =>
      if (Order.createdAt o' <=? Order.createdAt o)%N then o :: sorted
      else o' :: insertNewest o rest
  end.

Definition sortNewestFirst (os : list Order.t) : list Order.t :=
  fold_right insertNewest [] os.

(** [.populate({ path: 'items.product', match: { farmer } })]: a product of
    another farmer is left [null]. *)
Definition populateOrderItemMatching (farmer : ObjectId) (db : DB)
    (i : OrderItem.t) : PopulatedOrderItem :=
  mkPOI (match products db !! OrderItem.product i with
         | Some p => if (Product.farmer p =? farmer)%N then Some p else None
         | None => None
         end)
        (OrderItem.quantity i) (OrderItem.price i).

Definition populateOrderMatching (farmer : ObjectId) (db : DB) (o : Order.t)
  : PopulatedOrder :=
  mkPO (Order._id o) (users db !! Order.user o)
       (map (populateOrderItemMatching farmer db) (Order.items o))
       (Order.subtotal o) (Order.deliveryFee o) (Order.total o)
       (Order.status o) (Order.createdAt o).

(** The query [{ 'items.product': { $exists: true } }]: some line carries a
    product reference, which every line does. *)
Definition hasItemProduct (o : Order.t) : bool :=
  match Order.items o with [] => false | _ :: _ => true end.

Definition belongsTo (farmer : ObjectId) (item : PopulatedOrderItem) : bool :=
  match poi_product item with
  | Some prod => (Product.farmer prod =? farmer)%N
  | None => false
  end.

Definition getFarmerOrders (requester : User.t) (db : DB) : Response :=
  let orders :=
    map (populateOrderMatching (User._id requester) db)
        (sortNewestFirst (List.filter hasItemProduct (orders db))) in
  let filteredOrders :=
    List.filter (fun order =>
                   existsb (belongsTo (User._id requester)) (po_items order))
                orders in
  mkResponse 200 (JPopulatedOrders filteredOrders).

(** The [for] loop of [checkout]: validate each line in turn and collect
    the order lines; the first failing line ends the request. *)
Fixpoint buildOrderItems (items : list PopulatedCartItem) (subtotal : Q)
    (orderItems : list OrderItem.t) : Message + (Q * list OrderItem.t) :=
  match items with
  | [] => inr (subtotal, orderItems)
  | item :: rest =>
      match pci_product item with
      | None => inl (ProductNotAvailable None)
      | Some product =>
          if negb (Product.status_eqb (Product.status product) Product.active)
          then inl (ProductNotAvailable (Some product))
          else if Num.ltb (Product.stock product) (pci_quantity item)
          then inl (InsufficientStock (Product.name product)
                                      (Product.stock product))
          else buildOrderItems rest
                 (subtotal + Product.price product * pci_quantity item)
                 (orderItems ++ [OrderItem.mk (Product._id product)
                                              (pci_quantity item)
                                              (Product.price product)])
      end
  end.

(** One [updateOne] of the bulk write. *)
Record BulkOp := mkOp {
  filter_id : ObjectId;
  inc_stock : Q;
  inc_totalSold : Q;
  set_status : Product.Status
}.

(** [item.product._id] throws on a [null] product. *)
Definition bulkOp (item : PopulatedCartItem) : option BulkOp :=
  match pci_product item with
  | None => None
  | Some p =>
      Some (mkOp (Product._id p) (- pci_quantity item) (pci_quantity item)
                 (if Num.leb (Product.stock p - pci_quantity item) 0
                  then Product.out_of_stock else Product.active))
  end.

Definition applyUpdate (op : BulkOp) (p : Product.t) : Product.t :=
  Product.mk (Product._id p) (Product.name p) (Product.price p)
             (Product.stock p + inc_stock op) (set_status op)
             (Product.farmer p) (Product.totalSold p + inc_totalSold op)
             (Product.totalValue p).

(** [Product.bulkWrite]: the updates run in order, each on the stored
    document with the filter's id; no [save] middleware runs. *)
Definition bulkWrite (ops : list BulkOp) (ps : gmap ObjectId Product.t)
  : gmap ObjectId Product.t :=
  fold_left (fun ps op => alter (applyUpdate op) (filter_id op) ps) ops ps.

Definition checkout (env : Env) (user : User.t) (db : DB) : Response * DB :=
  match carts db !! User._id user with
  | None => (mkResponse 400 (JMessage (Text "Cart is empty")), db)
  | Some cart =>
      let items := populateCart db cart in
      if (length items =? 0)%nat
      then (mkResponse 400 (JMessage (Text "Cart is empty")), db)
      else
        match buildOrderItems items 0 [] with
        | inl m => (mkResponse 400 (JMessage m), db)
        | inr (subtotal, orderItems) =>
            let deliveryFee := CartUtils.calculateDeliveryFee subtotal in
            let total := subtotal + deliveryFee in
            let order :=
              Order.mk (newId env) (User._id user) orderItems subtotal
                       deliveryFee total "placed" (now env) in
            if negb (Order.valid order) then (serverError, db)
            else
              let db1 := set_orders (orders db ++ [order]) db in
              match mapM bulkOp items with
              | None => (serverError, db1)
              | Some bulkOps =>
                  let db2 :=
                    if (length bulkOps =? 0)%nat then db1
                    else set_products (bulkWrite bulkOps (products db1)) db1 in
                  let cart' := Cart.mk (Cart.user cart) [] in
                  let db3 :=
                    set_carts (<[User._id user := cart']> (carts db2)) db2 in
                  (mkResponse 201 (JOrder order), db3)
              end
        end
  end.

End OrderController.

(** ** controllers/cartController.ts

    (the second file of src/backend/src/controllers/adminOrderController.ts) *)

Module CartController.

(** The [productId] field of a request body: absent, an id as text, or an
    embedded product object with its [_id] and [id] fields. *)
Inductive ProductIdField :=
| PidAbsent
| PidString (s : string)
| PidObject (_id id : option string).

Record AddBody := mkAddBody {
  productId : ProductIdField;
  quantity : option Q
}.

(** [a || b] on optional strings: the empty string is falsy. *)
Definition truthy (s : option string) : option string :=
  match s with
  | Some EmptyString | None => None
  | Some s' => Some s'
  end.

Definition orElse (a b : option string) : option string :=
  match truthy a with Some s => Some s | None => truthy b end.

(** [productId = productId._id || productId.id || undefined] for an object,
    followed by the test [!productId]. *)
Definition normalizeProductId (f : ProductIdField) : option string :=
  match f with
  | PidAbsent => None
  | PidString s => truthy (Some s)
  | PidObject _id id => orElse _id id
  end.

(** [cart.items.find(...)] followed by [existingItem.quantity += quantity]:
    the first line whose product prints as [productId] is increased;
    [None] when no line matches. *)
Fixpoint increaseExisting (productId : string) (quantity : Q)
    (items : list CartItem.t) : option (list CartItem.t) :=
  match items with
  | [] => None
  | item :: rest =>
      if String.eqb (ObjectIdText.toString (CartItem.product item)) productId
      then Some (CartItem.mk (CartItem.product item)
                             (CartItem.quantity item + quantity) :: rest)
      else option_map (cons item) (increaseExisting productId quantity rest)
  end.

Section Driver.

(** The driver's part: [mongoose.Types.ObjectId.isValid], and the cast of
    a textual id that [findById] and the subdocument constructor apply
    ([None] when the cast throws). *)
Variable isValid : string -> bool.
Variable castObjectId : string -> option ObjectId.

Definition addToCart (reqUser : option User.t) (reqBody : AddBody) (db : DB)
  : Response * DB :=
  match reqUser with
  | None => (mkResponse 401 (JMessage (Text "Not authenticated")), db)
  | Some user =>
      let quantity :=
        match quantity reqBody with Some q => q | None => 1 end in
      match normalizeProductId (productId reqBody) with
      | None => (mkResponse 400 (JMessage (Text "productId is required")), db)
      | Some productId =>
          if negb (isValid productId)
          then (mkResponse 400 (JMessage (Text "Invalid productId")), db)
          else
            match castObjectId productId with
            | None => (serverError, db)
            | Some pid =>
                match products db !! pid with
                | None =>
                    (mkResponse 404
                       (JMessage (Text "Product not found or inactive")), db)
                | Some product =>
                    if negb (Product.status_eqb (Product.status product)
                                                Product.active)
                    then (mkResponse 404
                            (JMessage (Text "Product not found or inactive")),
                          db)
                    else
                      (* findOneAndUpdate with upsert *)
                      let cart :=
                        match carts db !! User._id user with
                        | Some c => c
                        | None => Cart.mk (User._id user) []
                        end in
                      let db1 :=
                        set_carts (<[User._id user := cart]> (carts db)) db in
                      let items' :=
                        match increaseExisting productId quantity
                                               (Cart.items cart) with
                        | Some items' => items'
                        | None =>
                            Cart.items cart ++ [CartItem.mk pid quantity]
                        end in
                      let cart' := Cart.mk (Cart.user cart) items' in
                      (* cart.save() *)
                      if negb (Cart.valid cart') then (serverError, db1)
                      else
                        (mkResponse 200 (JCart cart'),
                         set_carts (<[User._id user := cart']> (carts db1)) db1)
                end
            end
      end
  end.

End Driver.

(** The [reduce] of [getCart]: the running sum of price times quantity;
    reading [price] off a [null] product throws. *)
Fixpoint reduceSubtotal (items : list PopulatedCartItem) (sum : Q) : option Q :=
  match items with
  | [] => Some sum
  | item :: rest =>
      match pci_product item with
      | None => None
      | Some product =>
          let productPrice := Num.or_zero (Product.price product) in
          reduceSubtotal rest (sum + productPrice * pci_quantity item)
      end
  end.

Definition getCart (reqUser : option User.t) (db : DB) : Response :=
  match reqUser with
  | None => mkResponse 401 (JMessage (Text "Not authenticated"))
  | Some user =>
      match carts db !! User._id user with
      | None => mkResponse 200 (JCartSummary [] 0 0 0)
      | Some cart =>
          let items := populateCart db cart in
          match reduceSubtotal items 0 with
          | None => serverError
          | Some subtotal =>
              let deliveryFee := CartUtils.calculateDeliveryFee subtotal in
              let total := subtotal + deliveryFee in
              mkResponse 200 (JCartSummary items subtotal deliveryFee total)
          end
      end
  end.

Definition removeFromCart (reqUser : option User.t) (productId : string)
    (db : DB) : Response * DB :=
  match reqUser with
  | None => (mkResponse 401 (JMessage (Text "Not authenticated")), db)
  | Some user =>
      match carts db !! User._id user with
      | None => (mkResponse 404 (JMessage (Text "Cart not found")), db)
      | Some cart =>
          let items' :=
            List.filter
              (fun item =>
                 negb (String.eqb (ObjectIdText.toString (CartItem.product item))
                                  productId))
              (Cart.items cart) in
          let cart' := Cart.mk (Cart.user cart) items' in
          if negb (Cart.valid cart') then (serverError, db)
          else (mkResponse 200 (JCart cart'),
                set_carts (<[User._id user := cart']> (carts db)) db)
      end
  end.

End CartController.

(** ** controllers/adminOrderController.ts *)

Module AdminOrderController.

Definition allowedStatuses : list string :=
  ["processing"; "in_transit"; "delivered"; "cancelled"]%string.

(** [order.save()]: the stored document with this id is replaced. *)
Fixpoint saveOrder (o : Order.t) (os : list Order.t) : list Order.t :=
  match os with
  | [] => []
  | o' :: rest =>
      if (Order._id o' =? Order._id o)%N then o :: rest
      else o' :: saveOrder o rest
  end.

(** [updateOrderStatus]: [status] is the body's field, any text; the schema
    validation of [save] rejects with a validation error, which the handler
    catches. *)
Definition updateOrderStatus (id : ObjectId) (status : string) (db : DB)
  : Response * DB :=
  if negb (Order.includes allowedStatuses status)
  then (mkResponse 400 (JMessage (Text "Invalid status")), db)
  else
    match OrderController.findById id (orders db) with
    | None => (mkResponse 404 (JMessage (Text "Order not found")), db)
    | Some order =>
        let order' := Order.set_status status order in
        if negb (Order.valid order')
        then (mkResponse 500 (JError (Text "Failed to update order")), db)
        else (mkResponse 200 (JOrderData order'),
              set_orders (saveOrder order' (orders db)) db)
    end.

End AdminOrderController.

(** ** Vocabulary of the properties *)

Module Spec.

(** A populated cart line whose product is missing or not active. *)
Definition unavailable (line : PopulatedCartItem) : Prop :=
  match pci_product line with
  | None => True
  | Some p => Product.status p <> Product.active
  end.

(** A populated cart line that asks for more than the stock. *)
Definition short (line : PopulatedCartItem) : Prop :=
  exists p, pci_product line = Some p /\ Product.stock p < pci_quantity line.

(** A populated cart line that checkout can serve. *)
Definition servable (line : PopulatedCartItem) : Prop :=
  exists p, pci_product line = Some p /\
            Product.status p = Product.active /\
            pci_quantity line <= Product.stock p.

(** The reasons checkout gives for turning a cart down. *)
Inductive rejection (items : list PopulatedCartItem) : Message -> Prop :=
| rejectEmpty :
    items = [] -> rejection items (Text "Cart is empty")
| rejectUnavailable line :
    In line items -> unavailable line ->
    rejection items (ProductNotAvailable (pci_product line))
| rejectShort line p :
    In line items -> pci_product line = Some p ->
    Product.stock p < pci_quantity line ->
    rejection items (InsufficientStock (Product.name p) (Product.stock p)).

(** The cart of a user as checkout reads it: populated, or nothing. *)
Definition cartLines (user : User.t) (db : DB) : list PopulatedCartItem :=
  match carts db !! User._id user with
  | Some cart => populateCart db cart
  | None => []
  end.

(** Sum of price times quantity over the populated lines. *)
Definition lineTotal (line : PopulatedCartItem) : Q :=
  match pci_product line with
  | Some p => Product.price p * pci_quantity line
  | None => 0
  end.

Fixpoint sumQ (l : list Q) : Q :=
  match l with
  | [] => 0
  | x :: l' => x + sumQ l'
  end.

Definition subtotalOf (items : list PopulatedCartItem) : Q :=
  sumQ (map lineTotal items).

End Spec.

(** Further vocabulary: the store is keyed by [_id], and the order line
    that a cart line becomes. *)
Module Store.

(** Every product document sits under its own [_id]. *)
Definition keyed (db : DB) : Prop :=
  forall id p, products db !! id = Some p -> Product._id p = id.

(** The snapshot [{ product, quantity, price }] of a populated line. *)
Definition snapshot (line : PopulatedCartItem) : OrderItem.t :=
  match pci_product line with
  | Some p => OrderItem.mk (Product._id p) (pci_quantity line) (Product.price p)
  | None => OrderItem.mk 0%N (pci_quantity line) 0
  end.

(** The update that checkout issues for a cart line of quantity [q] whose
    product is [p]. *)
Definition opFor (p : Product.t) (q : Q) : OrderController.BulkOp :=
  OrderController.mkOp (Product._id p) (- q) q
    (if Num.leb (Product.stock p - q) 0
     then Product.out_of_stock else Product.active).

(** The order that checkout creates from a subtotal and its lines. *)
Definition orderOf (env : Env) (user : User.t) (subtotal : Q)
    (orderItems : list OrderItem.t) : Order.t :=
  Order.mk (newId env) (User._id user) orderItems subtotal
           (CartUtils.calculateDeliveryFee subtotal)
           (subtotal + CartUtils.calculateDeliveryFee subtotal)
           "placed" (now env).

End Store.

(** ** Sample documents *)

Module Sample.

Definition buyer : User.t := User.mk 1%N "asha" "buyer".
Definition farmer : User.t := User.mk 2%N "ravi" "farmer".
Definition admin : User.t := User.mk 3%N "meera" "admin".
Definition neighbour : User.t := User.mk 4%N "kiran" "buyer".

Definition people : gmap ObjectId User.t :=
  {[ 1%N := buyer; 2%N := farmer; 3%N := admin; 4%N := neighbour ]}.

(** A product as [Product.create] stores it: price 100, stock 5. *)
Definition tomato : Product.t :=
  Product.preSave (Product.mk 10%N "Tomato" 100 5 Product.active 2%N 0 0).

Definition env : Env := mkEnv 100%N 1000%N.

(** A store in which the buyer's cart holds the given lines. *)
Definition store (lines : list CartItem.t) : DB :=
  mkDB {[ 10%N := tomato ]} people {[ 1%N := Cart.mk 1%N lines ]} [].

(** One line of two tomatoes; and the same product on two lines, as two
    requests that spell its id differently leave it. *)
(** The id of the tomato product as a client sends it. *)
Definition tomatoId : string := "00000000000000000000000a".

Definition single : list CartItem.t := [CartItem.mk 10 2].
Definition doubled : list CartItem.t := [CartItem.mk 10 3; CartItem.mk 10 3].

(** A store in which the buyer has no cart. *)
Definition storeNoCart : DB := mkDB {[ 10%N := tomato ]} people ∅ [].

(** The store after the buyer has checked out the single line: it holds
    order 100, owned by the buyer, on the farmer's tomatoes. *)
Definition afterCheckout : DB :=
  snd (OrderController.checkout env buyer (store single)).

End Sample.

(** What [addToCart] does to the lines of a cart. *)
Module Added.

Definition named (productId : string) (line : CartItem.t) : Prop :=
  ObjectIdText.toString (CartItem.product line) = productId.

(** Either the first line that prints as [productId] has its quantity
    raised by [q], or no line does and a line of quantity [q] is appended. *)
Inductive lineAdded (productId : string) (pid : ObjectId) (q : Q)
  : list CartItem.t -> list CartItem.t -> Prop :=
| raisedExisting before line after :
    Forall (fun l => ~ named productId l) before ->
    named productId line ->
    lineAdded productId pid q
      (before ++ line :: after)
      (before ++ CartItem.mk (CartItem.product line)
                             (CartItem.quantity line + q) :: after)
| appendedNew items :
    Forall (fun l => ~ named productId l) items ->
    lineAdded productId pid q items (items ++ [CartItem.mk pid q]).

(** The cart that [findOneAndUpdate] with [upsert] returns. *)
Definition cartOf (user : User.t) (db : DB) : Cart.t :=
  match carts db !! User._id user with
  | Some c => c
  | None => Cart.mk (User._id user) []
  end.

(** The lines that [addToCart] is about to save. *)
Definition linesAfter (productId : string) (pid : ObjectId) (q : Q)
    (items : list CartItem.t) : list CartItem.t :=
  match CartController.increaseExisting productId q items with
  | Some items' => items'
  | None => items ++ [CartItem.mk pid q]
  end.

(** Every stored cart satisfies the cart schema. *)
Definition cartsValid (db : DB) : Prop :=
  forall u c, carts db !! u = Some c -> Cart.valid c = true.

End Added.

(** * Vocabulary of the further properties *)

Module CartLines.

(** The test of [removeFromCart]'s filter: the line does not print as
    [productId]. *)
Definition unnamed (productId : string) (item : CartItem.t) : bool :=
  negb (String.eqb (ObjectIdText.toString (CartItem.product item)) productId).

End CartLines.

Module Accounting.

(** Every stored product has a price that passes the product schema. *)
Definition pricesValid (db : DB) : Prop :=
  forall id p, products db !! id = Some p -> 0 <= Product.price p.

(** No stored product has a negative stock. *)
Definition stocksValid (db : DB) : Prop :=
  forall id p, products db !! id = Some p -> 0 <= Product.stock p.

(** The quantity of product [id] that the lines ask for, over all the
    lines that name it. *)
Definition ordered (id : ObjectId) (items : list CartItem.t) : Q :=
  Spec.sumQ (map CartItem.quantity
               (List.filter (fun l => (CartItem.product l =? id)%N) items)).

(** The updates of a bulk write, applied in order to one document. *)
Definition applyAll (ops : list OrderController.BulkOp) (p : Product.t)
  : Product.t :=
  fold_left (fun p op => OrderController.applyUpdate op p) ops p.

(** The update issued for a line addresses the line's product, lowers the
    stock by the line's quantity and raises [totalSold] by it. *)
Definition lineOp (line : CartItem.t) (op : OrderController.BulkOp) : Prop :=
  OrderController.filter_id op = CartItem.product line /\
  OrderController.inc_stock op = - CartItem.quantity line /\
  OrderController.inc_totalSold op = CartItem.quantity line.

End Accounting.

(** ** controllers/orderController.ts, continued *)

Module OrderQueries.

(** An order after [populate('items.product')] alone: the order as
    stored, with the product document, or [null], of each line. *)
Record OrderView := mkView {
  view_order : Order.t;
  view_items : list PopulatedOrderItem
}.

Definition viewOf (db : DB) (o : Order.t) : OrderView :=
  mkView o (map (OrderController.populateOrderItem db) (Order.items o)).

(** [getMyOrders]: the requester's orders, newest first, answered with the
    default status 200. *)
Definition getMyOrders (requester : User.t) (db : DB)
  : nat * list OrderView :=
  (200%nat,
   map (viewOf db)
       (OrderController.sortNewestFirst
          (List.filter (fun o => (Order.user o =? User._id requester)%N)
                       (orders db)))).

(** Newest first: no later element is newer than an earlier one. *)
Definition newestFirst {A} (createdAt : A -> N) (l : list A) : Prop :=
  StronglySorted (fun a b => (createdAt b <= createdAt a)%N) l.

(** Every product shown in a populated order is the farmer's. *)
Definition onlyProductsOf (farmer : ObjectId) (o : PopulatedOrder) : Prop :=
  Forall (fun item =>
            match poi_product item with
            | Some p => Product.farmer p = farmer
            | None => True
            end)
         (po_items o).

End OrderQueries.

(** ** controllers/adminOrderController.ts, continued *)

Module AdminOrderQueries.

(** The query string of [GET /admin/orders], each parameter absent or a
    text. *)
Record Query := mkQuery {
  status : option string;
  user : option string;
  from : option string;
  to : option string
}.

(** A JavaScript [Date]: its time value, or [None] for Invalid Date. *)
Definition Date := option N.

(** The find object: [createdAt], when present, holds an optional [$gte]
    and an optional [$lte]. *)
Record Filter := mkFilter {
  f_status : option string;
  f_user : option string;
  f_createdAt : option (option Date * option Date)
}.

Definition recognised : list string :=
  ["placed"; "processing"; "in_transit"; "delivered"; "cancelled"; "shipped"]%string.

(** The status that a recognised query value selects. *)
Definition canonical (s : string) : string :=
  if String.eqb s "shipped" then "in_transit"%string else s.

(** An order view of the admin listing: the order, its user document and,
    for each line, the product document with its farmer's id and name. *)
Record AdminOrderView := mkAdminView {
  av_order : Order.t;
  av_user : option User.t;
  av_lines : list (option (Product.t * option (ObjectId * string)))
}.

Inductive AdminBody :=
| Success (results : nat) (orders : list AdminOrderView)
  (** [{ status: 'error', message }] *)
| Failure (message : string).

Definition populateAdmin (db : DB) (o : Order.t) : AdminOrderView :=
  mkAdminView o (users db !! Order.user o)
    (map (fun i =>
            match products db !! OrderItem.product i with
            | Some p =>
                Some (p, match users db !! Product.farmer p with
                         | Some f => Some (User._id f, User.name f)
                         | None => None
                         end)
            | None => None
            end)
         (Order.items o)).

Section Driver.

(** Outside the repository: [new Date(text)], [date.setHours(23, 59, 59,
    999)] in the server's time zone, and the cast of a textual id in a
    query ([None] when the cast throws). *)
Variable parseDate : string -> Date.
Variable endOfDay : N -> N.
Variable castObjectId : string -> option ObjectId.

Definition buildFilter (query : Query) : Filter :=
  let fstatus :=
    match CartController.truthy (status query) with
    | Some s => if Order.includes recognised s then Some (canonical s) else None
    | None => None
    end in
  let fuser := CartController.truthy (user query) in
  let fcreatedAt :=
    match CartController.truthy (from query), CartController.truthy (to query) with
    | None, None => None
    | f, t =>
        Some (option_map parseDate f,
              option_map (fun s => option_map endOfDay (parseDate s)) t)
    end in
  mkFilter fstatus fuser fcreatedAt.

(** [Order.find(filter)] casts the filter to the schema first: the user to
    an id, the bounds to valid dates. *)
Record CastFilter := mkCast {
  c_status : option string;
  c_user : option ObjectId;
  c_gte : option N;
  c_lte : option N
}.

Definition castBound (b : option Date) : option (option N) :=
  match b with
  | None => Some None
  | Some None => None
  | Some (Some t) => Some (Some t)
  end.

Definition castFilter (f : Filter) : option CastFilter :=
  match (match f_user f with
         | None => Some None
         | Some raw => option_map Some (castObjectId raw)
         end) with
  | None => None
  | Some u =>
      match f_createdAt f with
      | None => Some (mkCast (f_status f) u None None)
      | Some (gte, lte) =>
          match castBound gte, castBound lte with
          | Some g, Some l => Some (mkCast (f_status f) u g l)
          | _, _ => None
          end
      end
  end.

Definition holds {A} (restriction : option A) (test : A -> bool) : bool :=
  match restriction with Some a => test a | None => true end.

Definition matches (c : CastFilter) (o : Order.t) : bool :=
  holds (c_status c) (String.eqb (Order.status o))
  && holds (c_user c) (N.eqb (Order.user o))
  && holds (c_gte c) (fun t => (t <=? Order.createdAt o)%N)
  && holds (c_lte c) (fun t => (Order.createdAt o <=? t)%N).

Definition getAllOrders (query : Query) (db : DB) : nat * AdminBody :=
  match castFilter (buildFilter query) with
  | None => (500%nat, Failure "Failed to fetch orders")
  | Some c =>
      let orders :=
        map (populateAdmin db)
            (OrderController.sortNewestFirst
               (List.filter (matches c) (orders db))) in
      (200%nat, Success (length orders) orders)
  end.

(** What a query asks of an order, restriction by restriction. *)
Definition selected (query : Query) (o : Order.t) : Prop :=
  (forall s, CartController.truthy (status query) = Some s ->
     Order.includes recognised s = true ->
     Order.status o = canonical s) /\
  (forall raw u, CartController.truthy (user query) = Some raw ->
     castObjectId raw = Some u -> Order.user o = u) /\
  (forall raw t, CartController.truthy (from query) = Some raw ->
     parseDate raw = Some t -> (t <= Order.createdAt o)%N) /\
  (forall raw t, CartController.truthy (to query) = Some raw ->
     parseDate raw = Some t -> (Order.createdAt o <= endOfDay t)%N).

(** The parameters of a query that [Order.find] has to cast can be cast:
    the user, when given, is the text of an id, and each date, when given,
    is a valid one. *)
Definition castable (query : Query) : Prop :=
  (forall raw, CartController.truthy (user query) = Some raw ->
     is_Some (castObjectId raw)) /\
  (forall raw, CartController.truthy (from query) = Some raw ->
     is_Some (parseDate raw)) /\
  (forall raw, CartController.truthy (to query) = Some raw ->
     is_Some (parseDate raw)).

End Driver.

End AdminOrderQueries.

(** ** middleware/authMiddleware.ts and the routers *)

Module Auth.

(** What a middleware hands to [next(err)]: a [CustomError] with its
    message and status code, or any other error that was thrown. *)
Inductive Failure :=
| CustomError (message : string) (statusCode : nat)
| Thrown (name : string).

(** [jwt.verify]: the decoded [id], or the error it throws. *)
Inductive JwtResult :=
| Decoded (id : string)
| TokenExpiredError
| OtherJwtError (name : string).

Record Request := mkRequest {
  authorization : option string;     (* req.headers.authorization *)
  cookieJwt : option string          (* req.cookies?.jwt *)
}.

(** [s.split(sep)] for a one-character separator. *)
Fixpoint split (sep : ascii) (s : string) : list string :=
  match s with
  | EmptyString => [EmptyString]
  | String c s' =>
      if Ascii.eqb c sep then EmptyString :: split sep s'
      else match split sep s' with
           | h :: t => String c h :: t
           | [] => [String c EmptyString]
           end
  end.

(** The token that [protect] reads: from the header when it starts with
    "Bearer", and only otherwise from the cookie. *)
Definition readToken (req : Request) : option string :=
  match CartController.truthy (authorization req) with
  | Some header =>
      if String.prefix "Bearer" header
      then nth_error (split " " header) 1
      else CartController.truthy (cookieJwt req)
  | None => CartController.truthy (cookieJwt req)
  end.

(** What one middleware or handler of a chain does: call [next()], call
    [next(err)], send the answer, or return having done neither. *)
Inductive Step (A : Type) :=
| Next (reqUser : option User.t)
| NextError (f : Failure)
| Send (a : A) (db' : DB)
| Return.

Arguments Next {A} reqUser.
Arguments NextError {A} f.
Arguments Send {A} a db'.
Arguments Return {A}.

(** A middleware sees the request, [req.user] as set so far, and the
    store. *)
Definition Middleware (A : Type) : Type :=
  Request -> option User.t -> DB -> Step A.

(** How a request ends in a router: a handler answered, an error went to
    the error handler, the chain stopped with no answer, or every
    middleware called [next()] and the request left the router. *)
Inductive Outcome (A : Type) :=
| Answered (a : A)
| Failed (f : Failure)
| Unanswered
| PassedOn.

Arguments Answered {A} a.
Arguments Failed {A} f.
Arguments Unanswered {A}.
Arguments PassedOn {A}.

Section Driver.

(** Outside the repository: the verification of a token, and the cast of
    a textual id by [findById]. *)
Variable jwtVerify : string -> JwtResult.
Variable castObjectId : string -> option ObjectId.

(** [protect]: the current user, or the error passed to [next]. *)
Definition protect (req : Request) (db : DB) : Failure + User.t :=
  match CartController.truthy (readToken req) with
  | None =>
      inl (CustomError "You are not logged in! Please log in to get access." 401)
  | Some token =>
      match jwtVerify token with
      | Decoded id =>
          match castObjectId id with
          | None => inl (Thrown "CastError")
          | Some uid =>
              match users db !! uid with
              | None =>
                  inl (CustomError
                         "The user belonging to this token no longer exists." 401)
              | Some currentUser => inr currentUser
              end
          end
      | TokenExpiredError =>
          inl (CustomError "Token expired. Please log in again." 401)
      | OtherJwtError name => inl (Thrown name)
      end
  end.

(** The user that the token of a request names: the token that [protect]
    reads verifies, the id it carries casts, and the user is the one stored
    under that id. *)
Definition names (req : Request) (db : DB) (u : User.t) : Prop :=
  exists token id uid,
    CartController.truthy (readToken req) = Some token /\
    jwtVerify token = Decoded id /\
    castObjectId id = Some uid /\
    users db !! uid = Some u.

(** [restrictTo(...roles)] after [protect]. *)
Definition restrictTo (roles : list string) (reqUser : option User.t)
  : option Failure :=
  match reqUser with
  | Some u =>
      if Order.includes roles (User.role u) then None
      else Some (CustomError
                   "You do not have permission to perform this action" 403)
  | None =>
      Some (CustomError "You do not have permission to perform this action" 403)
  end.

(** Express runs the functions of a chain in order. *)
Fixpoint runChain {A} (chain : list (Middleware A)) (req : Request)
    (reqUser : option User.t) (db : DB) : Outcome A * DB :=
  match chain with
  | [] => (PassedOn, db)
  | m :: rest =>
      match m req reqUser db with
      | Next reqUser' => runChain rest req reqUser' db
      | NextError f => (Failed f, db)
      | Send a db' => (Answered a, db')
      | Return => (Unanswered, db)
      end
  end.

Definition protectMw {A} : Middleware A :=
  fun req _ db =>
    match protect req db with
    | inl f => NextError f
    | inr currentUser => Next (Some currentUser)
    end.

Definition restrictToMw {A} (roles : list string) : Middleware A :=
  fun _ reqUser _ =>
    match restrictTo roles reqUser with
    | Some f => NextError f
    | None => Next reqUser
    end.

(** A handler that reads [req.user] as it is. *)
Definition handle {A} (handler : option User.t -> DB -> A * DB) : Middleware A :=
  fun _ reqUser db => let '(a, db') := handler reqUser db in Send a db'.

(** A handler of orderController.ts: it dereferences [req.user] inside its
    [try], so a request without a user ends in its 500 answer. *)
Definition handleAs {A} (handler : User.t -> DB -> A * DB) (onThrow : A)
  : Middleware A :=
  fun _ reqUser db =>
    match reqUser with
    | Some u => let '(a, db') := handler u db in Send a db'
    | None => Send onThrow db
    end.

(** routes/cartRoutes.ts: [router.use(protect, restrictTo('buyer'))], then
    the route's handler. *)
Definition cartRouter (handler : option User.t -> DB -> Response * DB)
  : list (Middleware Response) :=
  [protectMw; restrictToMw ["buyer"%string]; handle handler].

Definition cartGet (req : Request) (db : DB) : Outcome Response * DB :=
  runChain (cartRouter (fun u db => (CartController.getCart u db, db)))
           req None db.

Definition cartPost (isValid : string -> bool) (body : CartController.AddBody)
    (req : Request) (db : DB) : Outcome Response * DB :=
  runChain (cartRouter (fun u db =>
                          CartController.addToCart isValid castObjectId u body db))
           req None db.

Definition cartDelete (productId : string) (req : Request) (db : DB)
  : Outcome Response * DB :=
  runChain (cartRouter (fun u db =>
                          CartController.removeFromCart u productId db))
           req None db.

(** routes/orderRoutes.ts:
    [router.post('/checkout', protect, restrictTo('buyer'), checkout)] and
    [router.get('/farmer', protect, restrictTo('farmer'), getFarmerOrders)]. *)
Definition ordersCheckout (env : Env) (req : Request) (db : DB)
  : Outcome Response * DB :=
  runChain [protectMw; restrictToMw ["buyer"%string];
            handleAs (OrderController.checkout env) serverError]
           req None db.

Definition ordersFarmer (req : Request) (db : DB) : Outcome Response * DB :=
  runChain [protectMw; restrictToMw ["farmer"%string];
            handleAs (fun u db => (OrderController.getFarmerOrders u db, db))
                     serverError]
           req None db.

(** routes/adminOrderRoutes.ts: the middleware between [protect] and
    [restrictTo('admin')]; its body is [return;] followed by code that is
    never reached. *)
Definition returnsAtOnce {A} : Middleware A := fun _ _ _ => Return.

(** [router.use(protect, (req, res, next) => { return; ... },
    restrictTo('admin'))], then the route's handler. *)
Definition adminOrderRouter {A} (handler : Middleware A) : list (Middleware A) :=
  [protectMw; returnsAtOnce; restrictToMw ["admin"%string]; handler].

Definition adminOrdersPatchStatus (id : ObjectId) (status : string)
    (req : Request) (db : DB) : Outcome Response * DB :=
  runChain (adminOrderRouter
              (handle (fun _ db =>
                         AdminOrderController.updateOrderStatus id status db)))
           req None db.

End Driver.

End Auth.

(** ** controllers/adminProductController.ts and deleteProduct *)

Module ProductAdmin.

(** The [enum] of [productSchema.status], as the validators read a status
    given as text. *)
Definition statusOfString (s : string) : option Product.Status :=
  if String.eqb s "draft" then Some Product.draft
  else if String.eqb s "active" then Some Product.active
  else if String.eqb s "inactive" then Some Product.inactive
  else if String.eqb s "out_of_stock" then Some Product.out_of_stock
  else None.

Definition stringOfStatus (s : Product.Status) : string :=
  match s with
  | Product.draft => "draft"
  | Product.active => "active"
  | Product.inactive => "inactive"
  | Product.out_of_stock => "out_of_stock"
  end.

Inductive ProductBody :=
  (** [{ status: 'success', message, data: { product } }] *)
| ProductData (message : string) (product : option Product.t)
  (** [{ status, message }] *)
| ProductMessage (status message : string)
  (** [{ status: 'success', data: null }] *)
| NoData.

Definition setStatus (s : Product.Status) (p : Product.t) : Product.t :=
  Product.mk (Product._id p) (Product.name p) (Product.price p)
             (Product.stock p) s (Product.farmer p) (Product.totalSold p)
             (Product.totalValue p).

(** [Product.findByIdAndUpdate(id, { status }, { new: true, runValidators:
    true })], the update's other field not being in the schema: the update
    validators check the status against the enum and throw, before any
    write, when it is not in it; no [save] middleware runs. [None] is the
    thrown error; otherwise the store and the updated document, [null] when
    there is none with this id. *)
Definition findByIdAndUpdateStatus (id : ObjectId) (status : string) (db : DB)
  : option (DB * option Product.t) :=
  match statusOfString status with
  | None => None
  | Some s =>
      Some (set_products (alter (setStatus s) id (products db)) db,
            setStatus s <$> products db !! id)
  end.

Section Driver.

(** The cast of [req.params.id]; [None] when it throws. *)
Variable castObjectId : string -> option ObjectId.

Definition approveProduct (id : string) (db : DB) : (nat * ProductBody) * DB :=
  let failed := ((500%nat, ProductMessage "error" "Failed to approve product"), db) in
  match castObjectId id with
  | None => failed
  | Some pid =>
      match findByIdAndUpdateStatus pid "active" db with
      | None => failed
      | Some (db', None) =>
          ((404%nat, ProductMessage "error" "Product not found"), db')
      | Some (db', Some product) =>
          ((200%nat, ProductData "Product approved successfully" (Some product)),
           db')
      end
  end.

Definition rejectProduct (id : string) (reason : option string) (db : DB)
  : (nat * ProductBody) * DB :=
  let failed := ((500%nat, ProductMessage "error" "Failed to reject product"), db) in
  match CartController.truthy reason with
  | None => ((400%nat, ProductMessage "error" "Rejection reason is required"), db)
  | Some _ =>
      match castObjectId id with
      | None => failed
      | Some pid =>
          match findByIdAndUpdateStatus pid "rejected" db with
          | None => failed
          | Some (db', None) =>
              ((404%nat, ProductMessage "error" "Product not found"), db')
          | Some (db', Some product) =>
              ((200%nat,
                ProductData "Product rejected successfully" (Some product)),
               db')
          end
      end
  end.

Definition toggleProductStatus (id : string) (db : DB)
  : (nat * ProductBody) * DB :=
  let failed :=
    ((500%nat, ProductMessage "error" "Failed to toggle product status"), db) in
  match castObjectId id with
  | None => failed
  | Some pid =>
      match products db !! pid with
      | None => ((404%nat, ProductMessage "error" "Product not found"), db)
      | Some product =>
          let newStatus :=
            if Product.status_eqb (Product.status product) Product.active
            then "inactive"%string else "active"%string in
          match findByIdAndUpdateStatus pid newStatus db with
          | None => failed
          | Some (db', updatedProduct) =>
              ((200%nat,
                ProductData ("Product " ++ newStatus ++ " successfully")
                            updatedProduct),
               db')
          end
      end
  end.

(** productController.ts, [deleteProduct]. *)
Definition deleteProduct (requester : User.t) (id : string) (db : DB)
  : (nat * ProductBody) * DB :=
  match castObjectId id with
  | None => ((500%nat, ProductMessage "error" "Failed to delete product"), db)
  | Some pid =>
      match products db !! pid with
      | None => ((404%nat, ProductMessage "fail" "Product not found"), db)
      | Some product =>
          if negb (String.eqb (ObjectIdText.toString (Product.farmer product))
                              (ObjectIdText.toString (User._id requester)))
          then ((403%nat,
                 ProductMessage "error" "Not authorized to delete this product"),
                db)
          else ((204%nat, NoData),
                set_products (delete pid (products db)) db)
      end
  end.

End Driver.

End ProductAdmin.

(** ** controllers/orderController.ts: [getOrderById] from the route *)

Module OrderRequest.

Section Driver.

(** The cast that [Order.findById] applies to [req.params.id] ([None] when
    it throws a CastError). *)
Variable castObjectId : string -> option ObjectId.

(** [GET /api/orders/:id]: the id arrives as the text of the path; when it
    does not cast, [findById] throws and the handler's [catch] answers
    500. *)
Definition getOrderById (requester : User.t) (id : string) (db : DB)
  : Response :=
  match castObjectId id with
  | None => serverError
  | Some oid => OrderController.getOrderById requester oid db
  end.

End Driver.

End OrderRequest.

(** * The pricing path in double precision

    JavaScript computes [*] and [+] on binary64 values: the exact result,
    rounded to the nearest binary64 value, a tie going to the value with an
    even last bit. [Ieee.round] is that rounding on the rationals, and the
    fee and the cart summary are given here with it applied wherever the
    source multiplies or adds. Overflow to the infinities is left out, as
    the infinities are. *)

Module Ieee.

(** The integer nearest to [n / d], for [d > 0]; a tie goes to the even
    one. *)
Definition nearestEven (n d : Z) : Z :=
  let q := (n / d)%Z in
  match (2 * (n mod d) ?= d)%Z with
  | Lt => q
  | Gt => (q + 1)%Z
  | Eq => if Z.even q then q else (q + 1)%Z
  end.

(** [floor (log2 (n / d))], for positive [n] and [d]. *)
Definition floorLog2 (n d : Z) : Z :=
  let k := (Z.log2 n - Z.log2 d)%Z in
  if (0 <=? k)%Z
  then if (d * 2 ^ k <=? n)%Z then k else (k - 1)%Z
  else if (d <=? n * 2 ^ (- k))%Z then k else (k - 1)%Z.

(** The binary64 value nearest to [n / d], for positive [n] and [d]: 53
    significant bits, the last of them of weight [2 ^ e] with [e] no lower
    than -1074 (the subnormal range). *)
Definition roundPos (n d : Z) : Q :=
  let e := Z.max (floorLog2 n d - 52) (-1074) in
  if (0 <=? e)%Z
  then inject_Z (nearestEven n (d * 2 ^ e) * 2 ^ e)
  else Qmake (nearestEven (n * 2 ^ (- e)) d) (Z.to_pos (2 ^ (- e))).

(** Rounding to binary64, to nearest and ties to even; the result is
    given in lowest terms. *)
Definition round (x : Q) : Q :=
  let r := Qred x in
  Qred match Qnum r with
       | Z0 => 0
       | Zpos n => roundPos (Zpos n) (Zpos (Qden r))
       | Zneg n => - roundPos (Zpos n) (Zpos (Qden r))
       end.

(** [a * b] and [a + b] on numbers. *)
Definition mul (a b : Q) : Q := round (a * b).
Definition add (a b : Q) : Q := round (a + b).

(** The literal [0.1]: the binary64 value nearest to one tenth,
    3602879701896397 / 2^55. *)
Definition tenth : Q := Eval vm_compute in round (1 # 10).

(** utils/cartUtils.ts, [calculateDeliveryFee(subtotal)]. *)
Definition calculateDeliveryFee (subtotal : Q) : Q :=
  if Num.geb subtotal 500 then 0
  else
    let fee := Qfloor (mul subtotal tenth) in
    inject_Z (Z.min 50 (Z.max 10 fee)).

(** models/productModel.ts, [productSchema.pre('save')]. *)
Definition preSave (this : Product.t) : Product.t :=
  let totalValue' := mul (Product.price this) (Product.stock this) in
  let status' :=
    if Num.leb (Product.stock this) 0 then Product.out_of_stock
    else if Product.status_eqb (Product.status this) Product.out_of_stock
            && Num.ltb 0 (Product.stock this)
         then Product.active
         else Product.status this in
  Product.mk (Product._id this) (Product.name this) (Product.price this)
             (Product.stock this) status' (Product.farmer this)
             (Product.totalSold this) totalValue'.

(** The [reduce] of [getCart]. *)
Fixpoint reduceSubtotal (items : list PopulatedCartItem) (sum : Q) : option Q :=
  match items with
  | [] => Some sum
  | item :: rest =>
      match pci_product item with
      | None => None
      | Some product =>
          let productPrice := Num.or_zero (Product.price product) in
          reduceSubtotal rest (add sum (mul productPrice (pci_quantity item)))
      end
  end.

(** controllers/cartController.ts, [getCart]. *)
Definition getCart (reqUser : option User.t) (db : DB) : Response :=
  match reqUser with
  | None => mkResponse 401 (JMessage (Text "Not authenticated"))
  | Some user =>
      match carts db !! User._id user with
      | None => mkResponse 200 (JCartSummary [] 0 0 0)
      | Some cart =>
          let items := populateCart db cart in
          match reduceSubtotal items 0 with
          | None => serverError
          | Some subtotal =>
              let deliveryFee := calculateDeliveryFee subtotal in
              let total := add subtotal deliveryFee in
              mkResponse 200 (JCartSummary items subtotal deliveryFee total)
          end
      end
  end.

(** The price of a line as the summary reads it: [price || 0] of the
    product, and 0 for a line with no product. *)
Definition priceOf (line : PopulatedCartItem) : Q :=
  match pci_product line with
  | Some p => Num.or_zero (Product.price p)
  | None => 0
  end.

(** The sum over the lines of price times quantity as binary64 gives it:
    line after line from 0, each product and each sum rounded. *)
Definition subtotalOf (items : list PopulatedCartItem) : Q :=
  fold_left (fun sum line => add sum (mul (priceOf line) (pci_quantity line)))
            items 0.

(** The test that the rounded tenth of the whole number [k], rounded
    down, is the integer quotient of [k] by 10. *)
Definition tenthExact (k : nat) : bool :=
  (Qfloor (mul (inject_Z (Z.of_nat k)) tenth) =? Z.of_nat k / 10)%Z.

(** A line whose price and quantity are whole numbers, not negative. *)
Definition wholeLine (line : PopulatedCartItem) : Prop :=
  exists p (a b : Z),
    pci_product line = Some p /\
    (0 <= a)%Z /\ (0 <= b)%Z /\
    Product.price p == inject_Z a /\ pci_quantity line == inject_Z b.

(** The whole numbers that binary64 holds exactly lie below [2 ^ 53]. *)
Definition safe : Q := inject_Z (2 ^ 53).

(** 499.99999999999994, the binary64 value just below 500. *)
Definition below500 : Q := 500 - (1 # 17592186044416).

(** A cart of 200 units at a price of 1.15. *)
Definition priced : DB :=
  mkDB {[ 10%N := Product.mk 10%N "Tomato" (round (115 # 100)) 500
                    Product.active 2%N 0 0 ]}
       Sample.people {[ 1%N := Cart.mk 1%N [CartItem.mk 10 200] ]} [].

End Ieee.
(** * Properties *)

Module ProductStatus.

Lemma status_eqb_eq a b : Product.status_eqb a b = true <-> a = b.
Proof. destruct a, b; simpl; split; congruence. Qed.

End ProductStatus.

(** ** Numbers *)

Module NumFacts.
Import Num.

Lemma geb_true a b : geb a b = true <-> b <= a.
Proof. unfold geb. apply Qle_bool_iff. Qed.

Lemma geb_false a b : geb a b = false <-> a < b.
Proof.
  unfold geb. split; intros H.
  - apply Qnot_le_lt. intros Hle. apply Qle_bool_iff in Hle. congruence.
  - destruct (Qle_bool b a) eqn:E; [|reflexivity].
    apply Qle_bool_iff in E. exfalso. exact (Qlt_not_le _ _ H E).
Qed.

Lemma ltb_true a b : ltb a b = true <-> a < b.
Proof.
  unfold ltb. rewrite <- geb_false. unfold geb.
  destruct (Qle_bool b a); simpl; split; congruence.
Qed.

Lemma ltb_false a b : ltb a b = false <-> b <= a.
Proof.
  unfold ltb. rewrite <- geb_true. unfold geb.
  destruct (Qle_bool b a); simpl; split; congruence.
Qed.

Lemma leb_true a b : leb a b = true <-> a <= b.
Proof. unfold leb. apply Qle_bool_iff. Qed.

Lemma or_zero_eq x : or_zero x == x.
Proof.
  unfold or_zero. destruct (Qeq_bool x 0) eqn:E; [|reflexivity].
  apply Qeq_bool_iff in E. symmetry. exact E.
Qed.

End NumFacts.

(** ** The delivery fee *)

Module FeeFacts.
Import CartUtils.

Lemma fee_free subtotal :
  500 <= subtotal -> calculateDeliveryFee subtotal = 0.
Proof.
  intros H. unfold calculateDeliveryFee.
  apply NumFacts.geb_true in H. rewrite H. reflexivity.
Qed.

Lemma fee_variable subtotal :
  subtotal < 500 ->
  calculateDeliveryFee subtotal
  = inject_Z (Z.min 50 (Z.max 10 (Qfloor (subtotal * (1 # 10))))).
Proof.
  intros H. unfold calculateDeliveryFee.
  apply NumFacts.geb_false in H. rewrite H. reflexivity.
Qed.

(** The fee depends on the value of the subtotal only, not on the fraction
    that represents it. *)
Lemma fee_compat s s' :
  s == s' -> calculateDeliveryFee s = calculateDeliveryFee s'.
Proof.
  intros E. unfold calculateDeliveryFee, Num.geb.
  assert (Hb : Qle_bool 500 s = Qle_bool 500 s').
  { destruct (Qle_bool 500 s) eqn:A, (Qle_bool 500 s') eqn:B; try reflexivity.
    - apply Qle_bool_iff in A. rewrite E in A. apply Qle_bool_iff in A. congruence.
    - apply Qle_bool_iff in B. rewrite <- E in B. apply Qle_bool_iff in B. congruence. }
  rewrite Hb. destruct (Qle_bool 500 s'); [reflexivity|].
  assert (Hf : Qfloor (s * (1 # 10)) = Qfloor (s' * (1 # 10))).
  { apply Qfloor_comp. rewrite E. reflexivity. }
  rewrite Hf. reflexivity.
Qed.

(** On whole amounts the tenth is the integer quotient. *)
Lemma floor_tenth (n : Z) : Qfloor (inject_Z n * (1 # 10)) = (n / 10)%Z.
Proof.
  unfold Qfloor, Qmult, inject_Z. simpl.
  rewrite Z.mul_1_r. reflexivity.
Qed.

Lemma fee_whole (n : Z) :
  (0 <= n < 500)%Z ->
  calculateDeliveryFee (inject_Z n) = inject_Z (Z.min 50 (Z.max 10 (n / 10))).
Proof.
  intros [_ H]. rewrite fee_variable.
  - rewrite floor_tenth. reflexivity.
  - change 500 with (inject_Z 500). rewrite <- Zlt_Qlt. exact H.
Qed.

(** The fee is never negative and never above 50. *)
Lemma fee_range subtotal : 0 <= calculateDeliveryFee subtotal <= 50.
Proof.
  unfold calculateDeliveryFee. destruct (Num.geb subtotal 500).
  - split; [apply Qle_refl | discriminate].
  - change 0 with (inject_Z 0). change 50 with (inject_Z 50).
    rewrite <- !Zle_Qle. lia.
Qed.

End FeeFacts.

(** ** Binary64 rounding *)

Module IeeeFacts.
Import Ieee.

(** Rounding depends on the value only, not on the fraction that
    represents it. *)
Lemma round_compat x y : x == y -> round x = round y.
Proof. intros E. unfold round. rewrite (Qred_complete _ _ E). reflexivity. Qed.

Lemma nearestEven_one m : nearestEven m 1 = m.
Proof. unfold nearestEven. rewrite Z.mod_1_r, Z.div_1_r. reflexivity. Qed.

Lemma floorLog2_whole n : (0 < n)%Z -> floorLog2 n 1 = Z.log2 n.
Proof.
  intros Hn. unfold floorLog2. change (Z.log2 1) with 0%Z. rewrite Z.sub_0_r.
  pose proof (Z.log2_nonneg n) as Hk.
  destruct (0 <=? Z.log2 n)%Z eqn:E; [|apply Z.leb_gt in E; lia].
  rewrite Z.mul_1_l.
  destruct (Z.log2_spec n Hn) as [Hlo _].
  apply Z.leb_le in Hlo. rewrite Hlo. reflexivity.
Qed.

Lemma roundPos_whole n : (0 < n < 2 ^ 53)%Z -> roundPos n 1 == inject_Z n.
Proof.
  intros [Hn Hlt]. unfold roundPos. rewrite (floorLog2_whole n Hn).
  assert (Hk : (0 <= Z.log2 n < 53)%Z).
  { split; [apply Z.log2_nonneg|]. apply Z.log2_lt_pow2; [exact Hn|exact Hlt]. }
  rewrite Z.max_l by lia.
  destruct (0 <=? Z.log2 n - 52)%Z eqn:E.
  - apply Z.leb_le in E. assert (He : (Z.log2 n - 52 = 0)%Z) by lia.
    rewrite He. change (2 ^ 0)%Z with 1%Z. rewrite Z.mul_1_r, Z.mul_1_r.
    rewrite nearestEven_one. reflexivity.
  - apply Z.leb_gt in E. rewrite nearestEven_one.
    unfold Qeq. cbn [Qnum Qden inject_Z].
    rewrite Z2Pos.id by (apply Z.pow_pos_nonneg; lia).
    lia.
Qed.

Lemma Qred_whole n : Qred (inject_Z n) = inject_Z n.
Proof.
  unfold Qred, inject_Z.
  pose proof (Z.ggcd_gcd n 1) as Hg.
  pose proof (Z.ggcd_correct_divisors n 1) as Hd.
  destruct (Z.ggcd n 1) as [g [a b]]. cbn [fst snd] in *.
  rewrite Z.gcd_1_r in Hg. subst g. destruct Hd as [Ha Hb].
  rewrite Z.mul_1_l in Ha, Hb. subst a b. reflexivity.
Qed.

(** A whole number below 2^53 is a binary64 value: rounding leaves it as
    it is. *)
Lemma round_whole n : (0 <= n < 2 ^ 53)%Z -> round (inject_Z n) = inject_Z n.
Proof.
  intros [Hn Hlt]. unfold round. rewrite Qred_whole.
  cbn [Qnum Qden inject_Z].
  destruct n as [|p|p]; [reflexivity| |lia].
  rewrite <- (Qred_whole (Z.pos p)). apply Qred_complete.
  apply roundPos_whole. lia.
Qed.

Lemma round_whole_eq x n :
  x == inject_Z n -> (0 <= n < 2 ^ 53)%Z -> round x = inject_Z n.
Proof.
  intros E H. rewrite (round_compat _ _ E). apply round_whole. exact H.
Qed.

(** For each whole number from 0 to 499 the rounded product with 0.1,
    rounded down, is the integer quotient by 10: by running through
    them. *)
Lemma tenth_table : forallb tenthExact (seq 0 500) = true.
Proof. vm_compute. reflexivity. Qed.

Lemma floor_tenth_whole n :
  (0 <= n < 500)%Z -> Qfloor (mul (inject_Z n) tenth) = (n / 10)%Z.
Proof.
  intros H. pose proof tenth_table as T. rewrite forallb_forall in T.
  specialize (T (Z.to_nat n)).
  assert (Hin : In (Z.to_nat n) (seq 0 500)) by (apply in_seq; lia).
  apply T in Hin. unfold tenthExact in Hin. rewrite Z2Nat.id in Hin by lia.
  apply Z.eqb_eq in Hin. exact Hin.
Qed.

Lemma double_fee_free subtotal :
  500 <= subtotal -> calculateDeliveryFee subtotal = 0.
Proof.
  intros H. unfold calculateDeliveryFee.
  apply NumFacts.geb_true in H. rewrite H. reflexivity.
Qed.

Lemma double_fee_variable subtotal :
  subtotal < 500 ->
  calculateDeliveryFee subtotal
  = inject_Z (Z.min 50 (Z.max 10 (Qfloor (round (subtotal * tenth))))).
Proof.
  intros H. unfold calculateDeliveryFee.
  apply NumFacts.geb_false in H. rewrite H. reflexivity.
Qed.

Lemma double_fee_compat s s' :
  s == s' -> calculateDeliveryFee s = calculateDeliveryFee s'.
Proof.
  intros E. unfold calculateDeliveryFee, Num.geb.
  assert (Hb : Qle_bool 500 s = Qle_bool 500 s').
  { destruct (Qle_bool 500 s) eqn:A, (Qle_bool 500 s') eqn:B; try reflexivity.
    - apply Qle_bool_iff in A. rewrite E in A. apply Qle_bool_iff in A. congruence.
    - apply Qle_bool_iff in B. rewrite <- E in B. apply Qle_bool_iff in B. congruence. }
  rewrite Hb. destruct (Qle_bool 500 s'); [reflexivity|].
  unfold mul. rewrite (round_compat (s * tenth) (s' * tenth)); [reflexivity|].
  rewrite E. reflexivity.
Qed.

(** On a whole subtotal the fee is the one of exact arithmetic. *)
Lemma double_fee_whole s n :
  s == inject_Z n -> (0 <= n)%Z ->
  calculateDeliveryFee s = CartUtils.calculateDeliveryFee s.
Proof.
  intros E Hn.
  rewrite (double_fee_compat _ _ E), (FeeFacts.fee_compat _ _ E).
  destruct (Z_lt_le_dec n 500) as [Hlt | Hge].
  - rewrite FeeFacts.fee_whole by lia.
    rewrite double_fee_variable by (change 500 with (inject_Z 500);
                             rewrite <- Zlt_Qlt; exact Hlt).
    change (round (inject_Z n * tenth)) with (mul (inject_Z n) tenth).
    rewrite floor_tenth_whole by lia. reflexivity.
  - assert (H : 500 <= inject_Z n).
    { change 500 with (inject_Z 500). rewrite <- Zle_Qle. exact Hge. }
    rewrite double_fee_free by exact H. rewrite FeeFacts.fee_free by exact H.
    reflexivity.
Qed.

End IeeeFacts.

(** C3, as stated, fails at 499.99999999999994, the number just below 500:
    the engine's product with 0.1 is rounded up to 50 and the fee is 50,
    while min(50, max(10, floor(subtotal * 0.1))) is 49. *)
Lemma calculateDeliveryFee_just_below_500 :
  0 <= Ieee.below500 /\ Ieee.below500 < 500 /\
  Ieee.round Ieee.below500 == Ieee.below500 /\
  Ieee.calculateDeliveryFee Ieee.below500 = 50 /\
  inject_Z (Z.min 50 (Z.max 10 (Qfloor (Ieee.below500 * (1 # 10))))) = 49 /\
  Ieee.calculateDeliveryFee Ieee.below500
  <> inject_Z (Z.min 50 (Z.max 10 (Qfloor (Ieee.below500 * (1 # 10))))).
Proof.
  split; [vm_compute; discriminate|].
  split; [vm_compute; reflexivity|].
  split; [vm_compute; reflexivity|].
  split; [vm_compute; reflexivity|].
  split; [vm_compute; reflexivity|].
  vm_compute. discriminate.
Qed.

(** The same at 109.99999999999999 and at 229.99999999999997, which is
    1.15 * 200: the fees are 11 and 23, one above floor(subtotal * 0.1). *)
Example calculateDeliveryFee_rounds_up :
  Ieee.calculateDeliveryFee (Ieee.round (10999999999999999 # 100000000000000))
  = 11 /\
  Ieee.mul (Ieee.round (115 # 100)) 200
  = Ieee.round (22999999999999997 # 100000000000000) /\
  Ieee.calculateDeliveryFee (Ieee.mul (Ieee.round (115 # 100)) 200) = 23.
Proof. repeat split; vm_compute; reflexivity. Qed.

(** C3 (amended): for every non-negative subtotal, the delivery fee is 0
    from 500 on, and below 500 it is min(50, max(10, floor(p))) where p is
    the product of the subtotal and 0.1 rounded to binary64; for a whole
    subtotal below 500 that is min(50, max(10, floor(subtotal * 0.1))) with
    the exact product. It is 10 at 80, 30 at 300 and 0 at 500, and it is a
    function of the subtotal's value alone. *)
Theorem calculateDeliveryFee_double_policy (subtotal : Q)
    (Hnonneg : 0 <= subtotal) :
  (500 <= subtotal -> Ieee.calculateDeliveryFee subtotal = 0) /\
  (subtotal < 500 ->
   Ieee.calculateDeliveryFee subtotal
   = inject_Z (Z.min 50 (Z.max 10
                 (Qfloor (Ieee.round (subtotal * Ieee.tenth)))))) /\
  (forall n : Z, subtotal == inject_Z n -> subtotal < 500 ->
   Ieee.calculateDeliveryFee subtotal
   = inject_Z (Z.min 50 (Z.max 10 (Qfloor (subtotal * (1 # 10)))))) /\
  Ieee.calculateDeliveryFee 80 = 10 /\
  Ieee.calculateDeliveryFee 300 = 30 /\
  Ieee.calculateDeliveryFee 500 = 0 /\
  (forall s', subtotal == s' ->
     Ieee.calculateDeliveryFee subtotal = Ieee.calculateDeliveryFee s').
Proof.
  split; [apply IeeeFacts.double_fee_free|].
  split; [apply IeeeFacts.double_fee_variable|].
  split.
  { intros n E Hlt.
    assert (Hn : (0 <= n)%Z).
    { rewrite E in Hnonneg. change 0 with (inject_Z 0) in Hnonneg.
      rewrite <- Zle_Qle in Hnonneg. exact Hnonneg. }
    rewrite (IeeeFacts.double_fee_whole _ _ E Hn).
    apply FeeFacts.fee_variable. exact Hlt. }
  split; [vm_compute; reflexivity|].
  split; [vm_compute; reflexivity|].
  split; [vm_compute; reflexivity|].
  intros s'. apply IeeeFacts.double_fee_compat.
Qed.

Lemma calculateDeliveryFee_double_policy_witness :
  0 <= 80 /\ Ieee.calculateDeliveryFee 80 = 10.
Proof.
  split; [discriminate|].
  exact (proj1 (proj2 (proj2 (proj2
           (calculateDeliveryFee_double_policy 80 ltac:(discriminate)))))).
Defined.


(** ** Checkout: validation *)

Module CheckoutFacts.
Import OrderController Spec.

Lemma rejection_cons line items m :
  rejection items m -> items <> [] -> rejection (line :: items) m.
Proof.
  intros R Hne. destruct R as [E | l In_l U | l p In_l Hp Hlt].
  - contradiction.
  - apply rejectUnavailable; [right; exact In_l | exact U].
  - apply (rejectShort _ l p); [right; exact In_l | exact Hp | exact Hlt].
Qed.

(** A servable line passes the two tests of the loop. *)
Lemma servable_tests line :
  servable line ->
  exists p, pci_product line = Some p /\
    Product.status_eqb (Product.status p) Product.active = true /\
    Num.ltb (Product.stock p) (pci_quantity line) = false.
Proof.
  intros (p & Hp & Hs & Hq). exists p. split; [exact Hp|]. split.
  - apply ProductStatus.status_eqb_eq. exact Hs.
  - apply NumFacts.ltb_false. exact Hq.
Qed.

Lemma servable_or_not line : servable line \/ unavailable line \/ short line.
Proof.
  unfold servable, unavailable, short.
  destruct (pci_product line) as [p|]; [|right; left; exact I].
  destruct (Product.status_eqb (Product.status p) Product.active) eqn:Es.
  - apply ProductStatus.status_eqb_eq in Es.
    destruct (Num.ltb (Product.stock p) (pci_quantity line)) eqn:El.
    + apply NumFacts.ltb_true in El. right; right. exists p. auto.
    + apply NumFacts.ltb_false in El. left. exists p. auto.
  - right; left. intros E. apply ProductStatus.status_eqb_eq in E. congruence.
Qed.

(** The loop stops at the first line that cannot be served, with that
    line's reason. *)
Lemma buildOrderItems_rejects items :
  Exists (fun line => unavailable line \/ short line) items ->
  forall subtotal orderItems,
  exists m, buildOrderItems items subtotal orderItems = inl m /\
            rejection items m.
Proof.
  induction items as [|line rest IH]; intros Hex subtotal orderItems.
  - inversion Hex.
  - simpl. destruct (pci_product line) as [p|] eqn:Hp.
    + destruct (Product.status_eqb (Product.status p) Product.active) eqn:Es; simpl.
      * destruct (Num.ltb (Product.stock p) (pci_quantity line)) eqn:El.
        -- eexists. split; [reflexivity|].
           apply (rejectShort _ line p); [left; reflexivity | exact Hp |].
           apply NumFacts.ltb_true. exact El.
        -- assert (Hrest : Exists (fun l => unavailable l \/ short l) rest).
           { inversion Hex as [? ? Hbad | ? ? Hr]; subst; [|exact Hr].
             exfalso. destruct Hbad as [U | (p' & Hp' & Hlt)].
             - unfold unavailable in U. rewrite Hp in U.
               apply U. apply ProductStatus.status_eqb_eq. exact Es.
             - rewrite Hp in Hp'. injection Hp' as <-.
               apply NumFacts.ltb_false in El.
               exact (Qlt_not_le _ _ Hlt El). }
           destruct (IH Hrest
                       (subtotal + Product.price p * pci_quantity line)
                       (orderItems ++ [OrderItem.mk (Product._id p)
                                         (pci_quantity line)
                                         (Product.price p)]))
             as (m & Hm & R).
           exists m. split; [exact Hm|].
           apply rejection_cons; [exact R|].
           intros ->. inversion Hrest.
      * eexists. split; [reflexivity|].
        rewrite <- Hp. apply rejectUnavailable; [left; reflexivity|].
        unfold unavailable. rewrite Hp. intros E.
        apply ProductStatus.status_eqb_eq in E. congruence.
    + eexists. split; [reflexivity|].
      rewrite <- Hp. apply rejectUnavailable; [left; reflexivity|].
      unfold unavailable. rewrite Hp. exact I.
Qed.

End CheckoutFacts.

(** C1: when the user's cart is missing or has no lines, or some line's
    product is missing or not active, or some line asks for more than the
    stock, checkout answers 400 with the reason (empty cart, product
    unavailable, or insufficient stock with the product's name and stock)
    and writes nothing: the store it returns is the store it was given, so
    no order is created, no product changes and the cart is as it was. *)
Theorem checkout_rejects_without_write (env : Env) (user : User.t) (db : DB) :
  (carts db !! User._id user = None \/
   exists cart,
     carts db !! User._id user = Some cart /\
     (Cart.items cart = [] \/
      Exists (fun line => Spec.unavailable line \/ Spec.short line)
             (populateCart db cart))) ->
  exists m,
    OrderController.checkout env user db = (mkResponse 400 (JMessage m), db) /\
    Spec.rejection (Spec.cartLines user db) m /\
    orders (snd (OrderController.checkout env user db)) = orders db /\
    products (snd (OrderController.checkout env user db)) = products db /\
    carts (snd (OrderController.checkout env user db)) = carts db.
Proof.
  intros H.
  assert (Hmain : exists m,
    OrderController.checkout env user db = (mkResponse 400 (JMessage m), db) /\
    Spec.rejection (Spec.cartLines user db) m).
  { unfold OrderController.checkout, Spec.cartLines.
    destruct H as [Hc | (cart & Hc & H)]; rewrite Hc.
    - exists (Text "Cart is empty"). split; [reflexivity|].
      apply Spec.rejectEmpty. reflexivity.
    - destruct (populateCart db cart) as [|line rest] eqn:Hitems.
      + exists (Text "Cart is empty"). split; [reflexivity|].
        apply Spec.rejectEmpty. reflexivity.
      + destruct H as [H | H].
        { unfold populateCart in Hitems. rewrite H in Hitems. discriminate. }
        destruct (CheckoutFacts.buildOrderItems_rejects _ H 0 [])
          as (m & Hm & R).
        exists m. cbn [length Nat.eqb]. rewrite Hm.
        split; [reflexivity | exact R]. }
  destruct Hmain as (m & Hm & R). exists m. rewrite Hm. cbn [snd].
  repeat split; auto.
Qed.

Lemma checkout_rejects_without_write_witness :
  exists m,
    OrderController.checkout Sample.env Sample.buyer
      (Sample.store [CartItem.mk 10 7])
    = (mkResponse 400 (JMessage m), Sample.store [CartItem.mk 10 7]) /\
    m = InsufficientStock "Tomato" 5.
Proof.
  assert (H : carts (Sample.store [CartItem.mk 10 7]) !! User._id Sample.buyer
              = None \/
              exists cart,
                carts (Sample.store [CartItem.mk 10 7]) !! User._id Sample.buyer
                = Some cart /\
                (Cart.items cart = [] \/
                 Exists (fun line => Spec.unavailable line \/ Spec.short line)
                   (populateCart (Sample.store [CartItem.mk 10 7]) cart))).
  { right. exists (Cart.mk 1 [CartItem.mk 10 7]).
    split; [vm_compute; reflexivity|]. right.
    constructor. right.
    exists Sample.tomato. split; [vm_compute; reflexivity|].
    vm_compute. reflexivity. }
  destruct (checkout_rejects_without_write Sample.env Sample.buyer
              (Sample.store [CartItem.mk 10 7]) H) as (m & Hrun & _).
  exists m. split; [exact Hrun|].
  vm_compute in Hrun. injection Hrun as <-. reflexivity.
Defined.

(** ** Checkout: the writes *)

Module CheckoutEffect.
Import OrderController Spec Store.

Lemma sumQ_app l1 l2 : sumQ (l1 ++ l2) == sumQ l1 + sumQ l2.
Proof.
  induction l1 as [|x l1 IH]; simpl.
  - rewrite Qplus_0_l. reflexivity.
  - rewrite IH. rewrite Qplus_assoc. reflexivity.
Qed.

(** When the loop runs to its end, every line was servable, the subtotal
    grew by the lines' prices times quantities, and one snapshot per line
    was appended. *)
Lemma buildOrderItems_accepts items :
  forall subtotal orderItems subtotal' orderItems',
  buildOrderItems items subtotal orderItems = inr (subtotal', orderItems') ->
  Forall servable items /\
  subtotal' == subtotal + subtotalOf items /\
  orderItems' = orderItems ++ map snapshot items.
Proof.
  induction items as [|line rest IH]; intros s ois s' ois' H; simpl in H.
  - injection H as <- <-. split; [constructor|]. split.
    + unfold subtotalOf. simpl. rewrite Qplus_0_r. reflexivity.
    + simpl. rewrite app_nil_r. reflexivity.
  - destruct (pci_product line) as [p|] eqn:Hp; [|discriminate].
    destruct (Product.status_eqb (Product.status p) Product.active) eqn:Es;
      simpl in H; [|discriminate].
    destruct (Num.ltb (Product.stock p) (pci_quantity line)) eqn:El;
      [discriminate|].
    apply IH in H. destruct H as (Hall & Hsum & Hois).
    split; [|split].
    + constructor; [|exact Hall]. exists p.
      split; [exact Hp|]. split.
      * apply ProductStatus.status_eqb_eq. exact Es.
      * apply NumFacts.ltb_false. exact El.
    + rewrite Hsum. unfold subtotalOf. simpl. unfold lineTotal at 2.
      rewrite Hp. rewrite Qplus_assoc. reflexivity.
    + rewrite Hois. rewrite <- app_assoc. simpl.
      unfold snapshot at 2. rewrite Hp. reflexivity.
Qed.

(** Conversely the loop accepts every cart of servable lines. *)
Lemma buildOrderItems_total items :
  Forall servable items ->
  forall subtotal orderItems,
  exists subtotal',
    buildOrderItems items subtotal orderItems
    = inr (subtotal', orderItems ++ map snapshot items).
Proof.
  induction 1 as [|line rest Hline _ IH]; intros s ois; simpl.
  - exists s. rewrite app_nil_r. reflexivity.
  - destruct (CheckoutFacts.servable_tests _ Hline) as (p & Hp & Es & El).
    rewrite Hp, Es, El. simpl.
    destruct (IH (s + Product.price p * pci_quantity line)
                 (ois ++ [OrderItem.mk (Product._id p) (pci_quantity line)
                            (Product.price p)])) as (s' & Hs').
    exists s'. rewrite Hs'. rewrite <- app_assoc. simpl.
    unfold snapshot at 2. rewrite Hp. reflexivity.
Qed.

Lemma bulkOps_servable db (items : list CartItem.t) :
  keyed db ->
  Forall servable (map (populateCartItem db) items) ->
  exists ops,
    mapM bulkOp (map (populateCartItem db) items) = Some ops /\
    map filter_id ops = map CartItem.product items /\
    (forall line p, In line items ->
       products db !! CartItem.product line = Some p ->
       In (opFor p (CartItem.quantity line)) ops).
Proof.
  intros Hk. induction items as [|line rest IH]; intros Hall.
  - exists []. repeat split. intros ? ? [].
  - inversion Hall as [|? ? Hline Hrest]; subst.
    destruct (IH Hrest) as (ops & Hops & Hids & Hin).
    destruct Hline as (p & Hp & _ & _). simpl in Hp.
    exists (opFor p (CartItem.quantity line) :: ops).
    split; [|split].
    + change (map (populateCartItem db) (line :: rest))
        with (populateCartItem db line :: map (populateCartItem db) rest).
      rewrite mapM_Some. constructor.
      * unfold bulkOp. simpl. rewrite Hp. reflexivity.
      * apply mapM_Some. exact Hops.
    + simpl. rewrite Hids. f_equal. apply Hk. exact Hp.
    + intros l p' [<- | Hl] Hp'.
      * rewrite Hp in Hp'. injection Hp' as <-. left. reflexivity.
      * right. apply (Hin l p' Hl Hp').
Qed.

Lemma bulkWrite_other ops :
  forall ps id, id ∉ map filter_id ops ->
  bulkWrite ops ps !! id = ps !! id.
Proof.
  induction ops as [|op rest IH]; intros ps id Hid; [reflexivity|].
  unfold bulkWrite in *. simpl. simpl in Hid.
  apply not_elem_of_cons in Hid as [Hne Hid].
  rewrite IH by exact Hid.
  apply lookup_alter_ne. congruence.
Qed.

(** With one update per product, each product receives exactly its own. *)
Lemma bulkWrite_own ops :
  NoDup (map filter_id ops) ->
  forall ps op, In op ops ->
  bulkWrite ops ps !! filter_id op = applyUpdate op <$> ps !! filter_id op.
Proof.
  induction ops as [|o rest IH]; intros Hnd ps op Hin; [destruct Hin|].
  simpl in Hnd. apply NoDup_cons in Hnd as [Hfresh Hrest].
  unfold bulkWrite in *. simpl. destruct Hin as [-> | Hin].
  - fold (bulkWrite rest (alter (applyUpdate op) (filter_id op) ps)).
    rewrite bulkWrite_other by exact Hfresh.
    apply lookup_alter_eq.
  - rewrite (IH Hrest _ op Hin).
    rewrite lookup_alter_ne; [reflexivity|].
    intros E. apply Hfresh. rewrite E.
    apply list_elem_of_In. apply in_map. exact Hin.
Qed.

End CheckoutEffect.

Module CheckoutRun.
Import OrderController Spec Store.

(** A checkout that answers 201 went through every step: the cart was
    found, the loop accepted it, the order passed validation, and the three
    writes were made. *)
Lemma checkout_created env user db :
  code (fst (checkout env user db)) = 201%nat ->
  exists cart subtotal orderItems ops,
    carts db !! User._id user = Some cart /\
    Cart.items cart <> [] /\
    buildOrderItems (populateCart db cart) 0 [] = inr (subtotal, orderItems) /\
    Order.valid (orderOf env user subtotal orderItems) = true /\
    mapM bulkOp (populateCart db cart) = Some ops /\
    checkout env user db
    = (mkResponse 201 (JOrder (orderOf env user subtotal orderItems)),
       mkDB (bulkWrite ops (products db)) (users db)
            (<[User._id user := Cart.mk (Cart.user cart) []]> (carts db))
            (orders db ++ [orderOf env user subtotal orderItems])).
Proof.
  unfold checkout. intros H.
  destruct (carts db !! User._id user) as [cart|] eqn:Hc; [|discriminate H].
  destruct (populateCart db cart) as [|l0 ls] eqn:Hitems; [discriminate H|].
  cbn [length Nat.eqb] in *.
  destruct (buildOrderItems (l0 :: ls) 0 []) as [m|[subtotal orderItems]] eqn:Hb;
    [discriminate H|].
  fold (orderOf env user subtotal orderItems) in *.
  destruct (Order.valid (orderOf env user subtotal orderItems)) eqn:Hv;
    [|discriminate H].
  cbn [negb] in *.
  destruct (mapM bulkOp (l0 :: ls)) as [ops|] eqn:Hm; [|discriminate H].
  exists cart, subtotal, orderItems, ops. rewrite Hitems.
  split; [reflexivity|]. split.
  { intros E. unfold populateCart in Hitems. rewrite E in Hitems. discriminate. }
  split; [exact Hb|]. split; [exact Hv|]. split; [exact Hm|].
  destruct ops as [|op ops]; [|reflexivity].
  apply mapM_Some in Hm. inversion Hm.
Qed.

(** Servable lines with order-schema quantities and prices are enough for
    checkout to answer 201. *)
Lemma checkout_succeeds env user db cart :
  keyed db ->
  carts db !! User._id user = Some cart ->
  Cart.items cart <> [] ->
  Forall servable (populateCart db cart) ->
  Forall (fun line => OrderItem.valid (snapshot line) = true)
         (populateCart db cart) ->
  code (fst (checkout env user db)) = 201%nat.
Proof.
  intros Hk Hc Hne Hall Hvalid. unfold checkout. rewrite Hc.
  destruct (populateCart db cart) as [|l0 ls] eqn:Hitems.
  { unfold populateCart in Hitems.
    destruct (Cart.items cart); [contradiction | discriminate Hitems]. }
  cbn [length Nat.eqb].
  destruct (CheckoutEffect.buildOrderItems_total _ Hall 0 []) as (s' & Hs').
  rewrite Hs'. rewrite app_nil_l.
  assert (Hv : Order.valid
                 (Order.mk (newId env) (User._id user) (map snapshot (l0 :: ls))
                    s' (CartUtils.calculateDeliveryFee s')
                    (s' + CartUtils.calculateDeliveryFee s') "placed" (now env))
               = true).
  { unfold Order.valid. cbn [Order.items Order.status].
    apply andb_true_intro. split; [|reflexivity].
    apply forallb_forall. intros oi Hoi. apply in_map_iff in Hoi.
    destruct Hoi as (line & <- & Hline).
    rewrite Forall_forall in Hvalid. apply Hvalid.
    apply list_elem_of_In. exact Hline. }
  rewrite Hv. cbn [negb].
  rewrite <- Hitems in Hall. unfold populateCart in Hall.
  destruct (CheckoutEffect.bulkOps_servable db _ Hk Hall) as (ops & Hops & _).
  unfold populateCart in Hitems. rewrite Hitems in Hops. rewrite Hops.
  reflexivity.
Qed.

End CheckoutRun.


Module SampleFacts.

Lemma store_keyed lines : Store.keyed (Sample.store lines).
Proof.
  intros id p H. cbn in H.
  apply lookup_singleton_Some in H as [<- <-]. reflexivity.
Qed.

Lemma store_cart lines :
  carts (Sample.store lines) !! User._id Sample.buyer
  = Some (Cart.mk 1%N lines).
Proof. cbn. apply lookup_singleton_eq. Qed.

End SampleFacts.


(** One product comes to sit on two lines when its id is spelled in
    capitals the second time: the id is valid and casts to the same
    product, and its text differs from the stored line's lowercase one. *)
Example addToCart_respelled_id_doubles_line :
  carts
    (snd (CartController.addToCart ObjectIdText.isHex24 ObjectIdText.ofHex
            (Some Sample.buyer)
            (CartController.mkAddBody
               (CartController.PidString "00000000000000000000000A") (Some 3))
            (snd (CartController.addToCart
                    ObjectIdText.isHex24 ObjectIdText.ofHex
                    (Some Sample.buyer)
                    (CartController.mkAddBody
                       (CartController.PidString Sample.tomatoId) (Some 3))
                    Sample.storeNoCart))))
  !! 1%N
  = Some (Cart.mk 1 Sample.doubled).
Proof. vm_compute. reflexivity. Qed.

(** C2 fails on the code for a cart that names one product on two lines,
    3 and 3 of a stock of 5: every line has an active product with stock at
    least its quantity and the checkout answers 201, but the product's
    stock falls by 6, not by the 3 of a line, to -1, below the schema's
    minimum of 0; its [totalSold] rises by 6; and its status is set to
    active although the resulting stock is below 0. *)
Theorem checkout_doubled_line_oversells :
  Forall Spec.servable
    (Spec.cartLines Sample.buyer (Sample.store Sample.doubled)) /\
  map pci_quantity (Spec.cartLines Sample.buyer (Sample.store Sample.doubled))
  = [3; 3] /\
  products (Sample.store Sample.doubled) !! 10%N = Some Sample.tomato /\
  Product.stock Sample.tomato = 5 /\
  Product.totalSold Sample.tomato = 0 /\
  code (fst (OrderController.checkout Sample.env Sample.buyer
               (Sample.store Sample.doubled))) = 201%nat /\
  exists after,
    products (snd (OrderController.checkout Sample.env Sample.buyer
                     (Sample.store Sample.doubled))) !! 10%N = Some after /\
    Product.stock after = -1 /\
    Product.totalSold after = 6 /\
    Product.status after = Product.active.
Proof.
  split.
  { assert (Hs : Spec.servable
                   (populateCartItem (Sample.store Sample.doubled)
                      (CartItem.mk 10 3))).
    { exists Sample.tomato. split; [vm_compute; reflexivity|].
      split; [reflexivity|]. vm_compute. discriminate. }
    unfold Spec.cartLines. rewrite SampleFacts.store_cart.
    cbn. repeat constructor; exact Hs. }
  split; [vm_compute; reflexivity|].
  split; [vm_compute; reflexivity|].
  split; [reflexivity|]. split; [reflexivity|].
  split; [vm_compute; reflexivity|].
  eexists. split; [vm_compute; reflexivity|].
  repeat split.
Qed.

(** ** The cart summary *)

Module CartFacts.
Import CartController Spec.


Lemma reduceSubtotal_null items :
  Exists (fun line => pci_product line = None) items ->
  forall sum, reduceSubtotal items sum = None.
Proof.
  induction items as [|line rest IH]; intros Hex sum.
  - inversion Hex.
  - simpl. destruct (pci_product line) as [p|] eqn:Hp; [|reflexivity].
    apply IH. inversion Hex as [? ? Hnull | ? ? Hrest]; subst;
      [congruence | exact Hrest].
Qed.

End CartFacts.

(** C9: for a user with no cart document, [getCart] answers 200 with
    exactly [{ items: [], subtotal: 0, deliveryFee: 0, total: 0 }]. *)
Theorem getCart_without_cart (user : User.t) (db : DB) :
  carts db !! User._id user = None ->
  CartController.getCart (Some user) db
  = mkResponse 200 (JCartSummary [] 0 0 0).
Proof.
  intros H. unfold CartController.getCart. rewrite H. reflexivity.
Qed.

Lemma getCart_without_cart_witness :
  CartController.getCart (Some Sample.buyer) Sample.storeNoCart
  = mkResponse 200 (JCartSummary [] 0 0 0).
Proof.
  apply (getCart_without_cart Sample.buyer Sample.storeNoCart).
  vm_compute. reflexivity.
Defined.

(** C4, as stated, fails for a user with no cart document: the answer has
    subtotal 0 and total 0, while 0 + calculateDeliveryFee(0) is 10. *)
Lemma getCart_without_cart_charges_no_fee :
  exists items subtotal deliveryFee total,
    CartController.getCart (Some Sample.buyer) Sample.storeNoCart
    = mkResponse 200 (JCartSummary items subtotal deliveryFee total) /\
    subtotal == Spec.subtotalOf (Spec.cartLines Sample.buyer Sample.storeNoCart) /\
    ~ total == subtotal + CartUtils.calculateDeliveryFee subtotal.
Proof.
  exists [], 0, 0, 0. split; [vm_compute; reflexivity|].
  split; [vm_compute; reflexivity|].
  vm_compute. discriminate.
Qed.

(** ** The cart summary in double precision *)

Module IeeeCart.
Import Ieee Spec.

(** The [reduce] of [getCart] is the rounded sum, as long as every product
    is there to read the price from. *)
Lemma reduceSubtotal_fold items :
  Forall (fun line => pci_product line <> None) items ->
  forall sum,
    reduceSubtotal items sum
    = Some (fold_left
              (fun sum line => add sum (mul (priceOf line) (pci_quantity line)))
              items sum).
Proof.
  induction 1 as [|line rest Hline _ IH]; intros sum; [reflexivity|].
  cbn [reduceSubtotal fold_left]. unfold priceOf at 2.
  destruct (pci_product line) as [p|]; [|contradiction].
  apply IH.
Qed.

Lemma wholeLine_there line : wholeLine line -> pci_product line <> None.
Proof. intros (p & a & b & Hp & _). rewrite Hp. discriminate. Qed.

(** The amount of a whole line is a whole number, in exact arithmetic and
    as [getCart] reads it. *)
Lemma wholeLine_total line :
  wholeLine line ->
  exists z, (0 <= z)%Z /\
    lineTotal line == inject_Z z /\
    priceOf line * pci_quantity line == inject_Z z.
Proof.
  intros (p & a & b & Hp & Ha & Hb & Hprice & Hq).
  exists (a * b)%Z. split; [lia|].
  unfold lineTotal, priceOf. rewrite Hp.
  rewrite NumFacts.or_zero_eq, Hprice, Hq, inject_Z_mult.
  split; reflexivity.
Qed.

Lemma subtotalOf_cons line rest :
  subtotalOf (line :: rest) = lineTotal line + subtotalOf rest.
Proof. reflexivity. Qed.

Lemma subtotalOf_nonneg items :
  Forall wholeLine items -> 0 <= subtotalOf items.
Proof.
  induction 1 as [|line rest Hline _ IH]; [apply Qle_refl|].
  rewrite subtotalOf_cons.
  destruct (wholeLine_total line Hline) as (z & Hz & Ht & _).
  rewrite Ht. apply (Qle_trans _ (inject_Z z + 0)).
  - rewrite Qplus_0_r. change 0 with (inject_Z 0). rewrite <- Zle_Qle. exact Hz.
  - apply Qplus_le_r. exact IH.
Qed.

(** On whole lines, and while the sum stays below 2^53, no product and no
    sum is rounded: the rounded sum is the exact one. *)
Lemma fold_whole items :
  Forall wholeLine items ->
  forall sum a,
    sum = inject_Z a -> (0 <= a)%Z ->
    sum + subtotalOf items < safe ->
    exists z, (0 <= z)%Z /\
      fold_left
        (fun sum line => add sum (mul (priceOf line) (pci_quantity line)))
        items sum = inject_Z z /\
      inject_Z z == sum + subtotalOf items.
Proof.
  induction 1 as [|line rest Hline Hrest IH]; intros sum a Hsum Ha Hlt.
  - exists a. split; [exact Ha|]. split; [exact Hsum|].
    rewrite Hsum. unfold subtotalOf. cbn. rewrite Qplus_0_r. reflexivity.
  - destruct (wholeLine_total line Hline) as (z1 & Hz1 & Ht & Hp).
    pose proof (subtotalOf_nonneg rest Hrest) as Hnn.
    rewrite subtotalOf_cons, Ht, Hsum in Hlt.
    assert (Hz : (a + z1 < 2 ^ 53)%Z).
    { rewrite Zlt_Qlt, inject_Z_plus. fold safe.
      apply (Qle_lt_trans _ (inject_Z a + (inject_Z z1 + subtotalOf rest)));
        [|exact Hlt].
      apply Qplus_le_r. rewrite <- (Qplus_0_r (inject_Z z1)) at 1.
      apply Qplus_le_r. exact Hnn. }
    assert (Hm : mul (priceOf line) (pci_quantity line) = inject_Z z1).
    { unfold mul. apply IeeeFacts.round_whole_eq; [exact Hp | lia]. }
    assert (Hadd : add sum (mul (priceOf line) (pci_quantity line))
                   = inject_Z (a + z1)).
    { rewrite Hm. unfold add. apply IeeeFacts.round_whole_eq; [|lia].
      rewrite Hsum, inject_Z_plus. reflexivity. }
    cbn [fold_left]. rewrite Hadd.
    destruct (IH (inject_Z (a + z1)) (a + z1)%Z eq_refl ltac:(lia))
      as (z & Hz0 & Hfold & Hval).
    { rewrite inject_Z_plus, <- Qplus_assoc. exact Hlt. }
    exists z. split; [exact Hz0|]. split; [exact Hfold|].
    rewrite Hval, subtotalOf_cons, Ht, Hsum, inject_Z_plus, Qplus_assoc.
    reflexivity.
Qed.

End IeeeCart.

(** C4 (amended): when the user's cart document exists and every line
    resolves to a product, [getCart] answers 200 with
    total = subtotal + calculateDeliveryFee(subtotal), the subtotal being
    the sum over the lines, in their order, of the product's current price
    times the quantity, where every product and every sum is the binary64
    one; when the prices and quantities are whole and the sum with the
    highest fee stays below 2^53, the subtotal is the exact sum, the fee
    the exact fee and the total their exact sum. When no cart document
    exists it answers subtotal, fee and total all 0, so that no delivery
    fee is added. *)
Theorem getCart_total_double (user : User.t) (db : DB) :
  Forall (fun line => pci_product line <> None) (Spec.cartLines user db) ->
  exists items subtotal deliveryFee total,
    Ieee.getCart (Some user) db
    = mkResponse 200 (JCartSummary items subtotal deliveryFee total) /\
    items = Spec.cartLines user db /\
    subtotal = Ieee.subtotalOf (Spec.cartLines user db) /\
    (is_Some (carts db !! User._id user) ->
       deliveryFee = Ieee.calculateDeliveryFee subtotal /\
       total = Ieee.add subtotal (Ieee.calculateDeliveryFee subtotal)) /\
    (carts db !! User._id user = None ->
       subtotal = 0 /\ deliveryFee = 0 /\ total = 0) /\
    (Forall Ieee.wholeLine (Spec.cartLines user db) ->
     Spec.subtotalOf (Spec.cartLines user db) + 50 < Ieee.safe ->
       subtotal == Spec.subtotalOf (Spec.cartLines user db) /\
       (is_Some (carts db !! User._id user) ->
          deliveryFee = CartUtils.calculateDeliveryFee subtotal /\
          total == subtotal + deliveryFee)).
Proof.
  intros Hall.
  assert (Hwhole :
    Forall Ieee.wholeLine (Spec.cartLines user db) ->
    Spec.subtotalOf (Spec.cartLines user db) + 50 < Ieee.safe ->
    exists z, (0 <= z)%Z /\
      Ieee.subtotalOf (Spec.cartLines user db) = inject_Z z /\
      inject_Z z == Spec.subtotalOf (Spec.cartLines user db) /\
      (z + 50 < 2 ^ 53)%Z).
  { intros Hw Hlt.
    destruct (IeeeCart.fold_whole _ Hw 0 0%Z eq_refl ltac:(lia))
      as (z & Hz & Hfold & Hval).
    { rewrite Qplus_0_l. apply (Qle_lt_trans _ (Spec.subtotalOf
        (Spec.cartLines user db) + 50)); [|exact Hlt].
      rewrite <- (Qplus_0_r (Spec.subtotalOf _)) at 1.
      apply Qplus_le_r. discriminate. }
    rewrite Qplus_0_l in Hval.
    exists z. split; [exact Hz|]. split; [exact Hfold|]. split; [exact Hval|].
    rewrite Zlt_Qlt, inject_Z_plus, Hval. exact Hlt. }
  revert Hall Hwhole.
  unfold Spec.cartLines, Ieee.getCart.
  destruct (carts db !! User._id user) as [cart|] eqn:Hc; intros Hall Hwhole.
  - rewrite (IeeeCart.reduceSubtotal_fold _ Hall 0).
    fold (Ieee.subtotalOf (populateCart db cart)).
    eexists _, _, _, _. split; [reflexivity|]. split; [reflexivity|].
    split; [reflexivity|]. split; [intros _; split; reflexivity|].
    split; [discriminate|].
    intros Hw Hlt. destruct (Hwhole Hw Hlt) as (z & Hz & Hs & Hval & Hb).
    rewrite Hs. split; [exact Hval|]. intros _.
    assert (Hfee : Ieee.calculateDeliveryFee (inject_Z z)
                   = CartUtils.calculateDeliveryFee (inject_Z z)).
    { apply (IeeeFacts.double_fee_whole _ z); [reflexivity | exact Hz]. }
    split; [exact Hfee|]. rewrite Hfee.
    destruct (Z_lt_le_dec z 500) as [Hlo | Hhi].
    + rewrite FeeFacts.fee_whole by lia. unfold Ieee.add.
      rewrite <- inject_Z_plus.
      rewrite IeeeFacts.round_whole; [reflexivity | lia].
    + rewrite FeeFacts.fee_free
        by (change 500 with (inject_Z 500); rewrite <- Zle_Qle; exact Hhi).
      unfold Ieee.add. change 0 with (inject_Z 0). rewrite <- inject_Z_plus.
      rewrite IeeeFacts.round_whole; [reflexivity | lia].
  - exists [], 0, 0, 0. split; [reflexivity|]. split; [reflexivity|].
    split; [reflexivity|]. split; [intros [? ?]; discriminate|].
    split; [intros _; repeat split|].
    intros _ _. split; [reflexivity|]. intros [? ?]. discriminate.
Qed.

Lemma getCart_total_double_witness :
  exists items,
    Ieee.getCart (Some Sample.buyer) (Sample.store Sample.single)
    = mkResponse 200 (JCartSummary items 200 20 220).
Proof.
  assert (Hall : Forall (fun line => pci_product line <> None)
                   (Spec.cartLines Sample.buyer (Sample.store Sample.single))).
  { vm_compute. repeat constructor. discriminate. }
  destruct (getCart_total_double Sample.buyer (Sample.store Sample.single) Hall)
    as (items & s & f & t & Hrun & _).
  exists items. rewrite Hrun. vm_compute in Hrun.
  injection Hrun as _ <- <- <-. reflexivity.
Defined.

(** At a price of 1.15 and a quantity of 200 the summary shows
    229.99999999999997, a fee of 23 and 252.99999999999997. *)
Example getCart_fractional_price :
  exists items,
    Ieee.getCart (Some Sample.buyer) Ieee.priced
    = mkResponse 200
        (JCartSummary items
           (Ieee.round (22999999999999997 # 100000000000000)) 23
           (Ieee.round (25299999999999997 # 100000000000000))).
Proof. eexists. vm_compute. reflexivity. Qed.

(** ** Product totals *)

Module ProductFacts.

(** The [save] middleware makes [totalValue] the price times the stock. *)
Lemma preSave_totalValue p :
  Product.totalValue (Product.preSave p)
  = Product.price (Product.preSave p) * Product.stock (Product.preSave p).
Proof. reflexivity. Qed.

(** An update of the bulk write moves the stock and leaves [totalValue]
    as it was. *)
Lemma applyUpdate_totalValue op p :
  Product.totalValue (OrderController.applyUpdate op p) = Product.totalValue p.
Proof. reflexivity. Qed.

End ProductFacts.

(** C5 fails on the code: the tomato product is stored by [save] with
    price 100, stock 5 and totalValue 500; after the checkout of two units
    its stock is 3 and its totalValue is still 500, not 300. *)
Theorem checkout_leaves_totalValue_stale :
  Product.totalValue Sample.tomato
  == Product.price Sample.tomato * Product.stock Sample.tomato /\
  exists p',
    products Sample.afterCheckout !! 10%N = Some p' /\
    Product.price p' = 100 /\ Product.stock p' = 3 /\
    Product.totalValue p' = 500 /\
    ~ Product.totalValue p' == Product.price p' * Product.stock p'.
Proof.
  split; [vm_compute; reflexivity|].
  eexists. split; [vm_compute; reflexivity|].
  cbn. repeat split. vm_compute. discriminate.
Qed.

(** ** Order queries *)

Module OrderFacts.
Import OrderController ObjectIdText.

Lemma hexDigit_not_brace n : hexDigit n <> "{"%char.
Proof.
  unfold hexDigit. destruct n as [|p]; [discriminate|].
  do 4 (try destruct p as [p|p|]); discriminate.
Qed.

Lemma hexDigits_head k : forall n acc,
  exists d rest, hexDigits (S k) n acc = String (hexDigit d) rest.
Proof.
  induction k as [|k IH]; intros n acc.
  - simpl. eauto.
  - change (hexDigits (S (S k)) n acc)
      with (hexDigits (S k) (n / 16)%N (String (hexDigit (n mod 16)%N) acc)).
    apply IH.
Qed.

(** A printed document is never the text of an id. *)
Lemma inspectUser_not_id owner id :
  String.eqb (inspectUser owner) (toString id) = false.
Proof.
  unfold toString. destruct (hexDigits_head 23 id EmptyString) as (d & rest & ->).
  apply String.eqb_neq. unfold inspectUser. cbn [String.append].
  intros E. injection E as E _.
  exact (hexDigit_not_brace d (eq_sym E)).
Qed.

Lemma role_eqb_admin r : String.eqb r "admin" = true <-> r = "admin"%string.
Proof. apply String.eqb_eq. Qed.

(** What [getOrderById] does for an order whose user document exists: the
    owner test never passes, so the role alone decides. *)
Lemma getOrderById_by_role requester id db o owner :
  findById id (orders db) = Some o ->
  users db !! Order.user o = Some owner ->
  getOrderById requester id db
  = if String.eqb (User.role requester) "admin"
    then mkResponse 200 (JPopulatedOrder (populateOrder db o))
    else mkResponse 403 (JMessage (Text "Not authorized to view this order")).
Proof.
  intros Hf Hu. unfold getOrderById. rewrite Hf. cbn [po_user populateOrder].
  rewrite Hu. rewrite inspectUser_not_id. cbn [negb andb].
  destruct (String.eqb (User.role requester) "admin"); reflexivity.
Qed.

End OrderFacts.

(** C6 fails on the code: the buyer asks for order 100, which is their
    own; [order.user] is populated, its printed form is not the
    requester's id, and the buyer not being an admin the answer is 403
    where the claim, and the handler's own comment, give the owner 200. *)
Theorem getOrderById_owner_forbidden :
  (exists o, OrderController.findById 100 (orders Sample.afterCheckout) = Some o /\
             Order.user o = User._id Sample.buyer) /\
  OrderController.getOrderById Sample.buyer 100 Sample.afterCheckout
  = mkResponse 403 (JMessage (Text "Not authorized to view this order")).
Proof.
  split.
  - eexists. split; [vm_compute; reflexivity | reflexivity].
  - vm_compute. reflexivity.
Qed.

Module FarmerFacts.
Import OrderController.

Lemma insertNewest_In x o sorted :
  In x (insertNewest o sorted) <-> x = o \/ In x sorted.
Proof.
  induction sorted as [|o' rest IH]; simpl.
  - split; intros [H | H]; auto.
  - destruct (Order.createdAt o' <=? Order.createdAt o)%N; simpl.
    + split; intros [H | H]; auto.
    + rewrite IH. split; intros H; intuition auto.
Qed.

(** Sorting moves orders around and neither adds nor drops any. *)
Lemma sortNewestFirst_In x os : In x (sortNewestFirst os) <-> In x os.
Proof.
  induction os as [|o rest IH]; simpl; [reflexivity|].
  rewrite insertNewest_In, IH. split; intros [H | H]; auto.
Qed.



End FarmerFacts.



(** ** Order status *)

Module StatusFacts.
Import AdminOrderController.

(** A status outside the allowed four is refused and nothing is stored. *)
Lemma updateOrderStatus_refuses id status db :
  Order.includes allowedStatuses status = false ->
  updateOrderStatus id status db
  = (mkResponse 400 (JMessage (Text "Invalid status")), db).
Proof. intros H. unfold updateOrderStatus. rewrite H. reflexivity. Qed.

(** The allowed statuses that the schema knows are stored. *)
Lemma updateOrderStatus_stores id status db order :
  status = "delivered"%string \/ status = "cancelled"%string ->
  OrderController.findById id (orders db) = Some order ->
  forallb OrderItem.valid (Order.items order) = true ->
  updateOrderStatus id status db
  = (mkResponse 200 (JOrderData (Order.set_status status order)),
     set_orders (saveOrder (Order.set_status status order) (orders db)) db).
Proof.
  intros Hs Hf Hv. unfold updateOrderStatus. rewrite Hf.
  unfold Order.valid. cbn [Order.items Order.status Order.set_status].
  rewrite Hv. destruct Hs as [-> | ->]; reflexivity.
Qed.

(** The allowed statuses that the schema does not know fail at [save]. *)
Lemma updateOrderStatus_unknown_to_schema id status db order :
  status = "processing"%string \/ status = "in_transit"%string ->
  OrderController.findById id (orders db) = Some order ->
  updateOrderStatus id status db
  = (mkResponse 500 (JError (Text "Failed to update order")), db).
Proof.
  intros Hs Hf. unfold updateOrderStatus. rewrite Hf.
  unfold Order.valid. cbn [Order.items Order.status Order.set_status].
  destruct Hs as [-> | ->]; cbn; rewrite andb_false_r; reflexivity.
Qed.

End StatusFacts.

(** C8 fails on the code: [processing] is among the handler's allowed
    statuses and not in the schema's enum, so for the stored order 100 the
    save is rejected, the answer is 500 and the order stays placed, where
    the claim has the status stored and the answer 200. *)
Theorem updateOrderStatus_processing_rejected :
  Order.includes AdminOrderController.allowedStatuses "processing" = true /\
  (exists o, OrderController.findById 100 (orders Sample.afterCheckout) = Some o /\
             Order.status o = "placed"%string) /\
  AdminOrderController.updateOrderStatus 100 "processing" Sample.afterCheckout
  = (mkResponse 500 (JError (Text "Failed to update order")),
     Sample.afterCheckout).
Proof.
  split; [reflexivity|]. split.
  - eexists. split; [vm_compute; reflexivity | reflexivity].
  - unfold AdminOrderController.updateOrderStatus.
    vm_compute. reflexivity.
Qed.

(** ** Adding to the cart *)

Module AddFacts.
Import CartController Added.

Lemma increaseExisting_found productId q items items' :
  increaseExisting productId q items = Some items' ->
  forall pid, lineAdded productId pid q items items'.
Proof.
  revert items'. induction items as [|line rest IH]; intros items' H pid.
  - discriminate H.
  - cbn [increaseExisting] in H.
    destruct (String.eqb (ObjectIdText.toString (CartItem.product line))
                         productId) eqn:E.
    + injection H as <-. apply String.eqb_eq in E.
      apply (raisedExisting productId pid q [] line rest); [constructor | exact E].
    + destruct (increaseExisting productId q rest) as [rest'|] eqn:Hr;
        [|discriminate H].
      injection H as <-. apply String.eqb_neq in E.
      specialize (IH rest' eq_refl pid).
      inversion IH as [before l after Hb Hl Hitems Hitems' | ? Hall Hitems Hitems'].
      * apply (raisedExisting productId pid q (line :: before) l after);
          [constructor; assumption | exact Hl].
      * exfalso. subst rest'.
        assert (Hlen : length (rest ++ [CartItem.mk pid q]) = length rest).
        { clear - Hr. revert Hr. generalize (rest ++ [CartItem.mk pid q]).
          induction rest as [|x r IHr]; intros l Hr; [discriminate Hr|].
          cbn [increaseExisting] in Hr.
          destruct (String.eqb (ObjectIdText.toString (CartItem.product x))
                               productId).
          - injection Hr as <-. reflexivity.
          - destruct (increaseExisting productId q r) as [r'|] eqn:Hr';
              [|discriminate Hr].
            injection Hr as <-. simpl. f_equal. apply IHr. reflexivity. }
        rewrite length_app in Hlen. simpl in Hlen. lia.
Qed.

Lemma increaseExisting_none productId q items :
  increaseExisting productId q items = None ->
  Forall (fun l => ~ named productId l) items.
Proof.
  induction items as [|line rest IH]; intros H; [constructor|].
  cbn [increaseExisting] in H.
  destruct (String.eqb (ObjectIdText.toString (CartItem.product line))
                       productId) eqn:E; [discriminate H|].
  apply String.eqb_neq in E.
  destruct (increaseExisting productId q rest); [discriminate H|].
  constructor; [exact E | apply IH; reflexivity].
Qed.

Lemma linesAfter_added productId pid q items :
  lineAdded productId pid q items (linesAfter productId pid q items).
Proof.
  unfold linesAfter.
  destruct (increaseExisting productId q items) as [items'|] eqn:H.
  - apply increaseExisting_found. exact H.
  - apply appendedNew. apply increaseExisting_none with (q := q). exact H.
Qed.

(** Once the product is found active, the request turns on the schema
    validation of the cart alone. *)
Lemma addToCart_run isValid castObjectId user body db productId pid product :
  normalizeProductId (CartController.productId body) = Some productId ->
  isValid productId = true ->
  castObjectId productId = Some pid ->
  products db !! pid = Some product ->
  Product.status product = Product.active ->
  addToCart isValid castObjectId (Some user) body db
  = let q := match quantity body with Some q => q | None => 1 end in
    let cart := cartOf user db in
    let db1 := set_carts (<[User._id user := cart]> (carts db)) db in
    let cart' :=
      Cart.mk (Cart.user cart) (linesAfter productId pid q (Cart.items cart)) in
    if Cart.valid cart'
    then (mkResponse 200 (JCart cart'),
          set_carts (<[User._id user := cart']> (carts db1)) db1)
    else (serverError, db1).
Proof.
  intros Hn Hv Hc Hp Hs. unfold addToCart.
  rewrite Hn, Hv, Hc, Hp, Hs. cbn [negb Product.status_eqb].
  fold (cartOf user db). unfold linesAfter.
  destruct (Cart.valid _); reflexivity.
Qed.

End AddFacts.

Module AddInvariant.
Import CartController Added.






End AddInvariant.




(** A quantity need not be whole: one and a half is stored as it is. *)
Example addToCart_accepts_fraction :
  CartController.addToCart ObjectIdText.isHex24 ObjectIdText.ofHex
    (Some Sample.buyer)
    (CartController.mkAddBody (CartController.PidString Sample.tomatoId)
                              (Some (3 # 2)))
    Sample.storeNoCart
  = (mkResponse 200 (JCart (Cart.mk 1 [CartItem.mk 10 (3 # 2)])),
     Sample.store [CartItem.mk 10 (3 # 2)]).
Proof. vm_compute. reflexivity. Qed.

(** ** The scenario of the specification *)

(** A buyer adds two units of a product of price 100 and stock 5: the cart
    shows subtotal 200, fee 20, total 220; checkout creates an order of
    total 220, leaves the stock at 3 and the cart without lines. *)
Example end_to_end_scenario :
  let added :=
    snd (CartController.addToCart ObjectIdText.isHex24 ObjectIdText.ofHex
           (Some Sample.buyer)
           (CartController.mkAddBody
              (CartController.PidString Sample.tomatoId) (Some 2))
           Sample.storeNoCart) in
  let done := OrderController.checkout Sample.env Sample.buyer added in
  added = Sample.store Sample.single /\
  (exists items,
     CartController.getCart (Some Sample.buyer) added
     = mkResponse 200 (JCartSummary items 200 20 220)) /\
  (exists order,
     fst done = mkResponse 201 (JOrder order) /\ Order.total order = 220) /\
  (Product.stock <$> products (snd done) !! 10%N) = Some 3 /\
  (Cart.items <$> carts (snd done) !! 1%N) = Some [].
Proof.
  cbv zeta. split; [vm_compute; reflexivity|].
  split; [eexists; vm_compute; reflexivity|].
  split; [eexists; split; vm_compute; reflexivity|].
  split; vm_compute; reflexivity.
Qed.

(** * Further properties of the code *)

(** ** The delivery fee *)

Module FeeOrder.


End FeeOrder.







(** ** The product's save middleware *)


(** ** The cart handlers *)

Module CartMore.
Import CartController Added CartLines.

Lemma lineAdded_distinct productId pid q items items' :
  lineAdded productId pid q items items' ->
  ObjectIdText.toString pid = productId ->
  NoDup (map CartItem.product items) ->
  NoDup (map CartItem.product items').
Proof.
  intros Hadd Hcanon Hnd.
  destruct Hadd as [before line after _ _ | items Hnone].
  - rewrite map_app in *. exact Hnd.
  - rewrite map_app. cbn [map]. apply NoDup_app. split; [exact Hnd|].
    split; [|apply NoDup_singleton].
    intros x Hx Hx'. apply list_elem_of_singleton in Hx'. subst x.
    apply list_elem_of_In, in_map_iff in Hx. destruct Hx as (l & Hl & Hin).
    rewrite Forall_forall in Hnone. apply (Hnone l).
    + apply list_elem_of_In. exact Hin.
    + unfold named. rewrite Hl. exact Hcanon.
Qed.

Lemma unnamed_true productId item :
  unnamed productId item = true <-> ~ named productId item.
Proof.
  unfold unnamed, named. rewrite negb_true_iff. apply String.eqb_neq.
Qed.

Lemma filter_valid f items :
  forallb CartItem.valid items = true ->
  forallb CartItem.valid (List.filter f items) = true.
Proof.
  intros H. apply forallb_forall. intros x Hx. apply filter_In in Hx.
  rewrite forallb_forall in H. apply H, Hx.
Qed.

Lemma filter_twice {A} (f : A -> bool) l :
  List.filter f (List.filter f l) = List.filter f l.
Proof.
  induction l as [|x l IH]; [reflexivity|]. simpl.
  destruct (f x) eqn:E; [|exact IH]. simpl. rewrite E, IH. reflexivity.
Qed.

Lemma filter_all {A} (f : A -> bool) l :
  Forall (fun x => f x = true) l -> List.filter f l = l.
Proof.
  induction 1 as [|x l Hx _ IH]; [reflexivity|]. simpl. rewrite Hx, IH.
  reflexivity.
Qed.

Lemma filter_app_last {A} (f : A -> bool) l x :
  f x = false -> List.filter f (l ++ [x]) = List.filter f l.
Proof.
  intros Hx. rewrite List.filter_app. simpl. rewrite Hx. apply app_nil_r.
Qed.

Lemma increaseExisting_absent productId q items :
  Forall (fun l => ~ named productId l) items ->
  increaseExisting productId q items = None.
Proof.
  induction 1 as [|line rest Hline _ IH]; [reflexivity|].
  cbn [increaseExisting]. apply String.eqb_neq in Hline.
  rewrite Hline, IH. reflexivity.
Qed.

(** What [removeFromCart] does when the user has a cart. *)
Lemma removeFromCart_run user productId db cart :
  carts db !! User._id user = Some cart ->
  removeFromCart (Some user) productId db
  = let cart' :=
      Cart.mk (Cart.user cart) (List.filter (unnamed productId) (Cart.items cart)) in
    if Cart.valid cart'
    then (mkResponse 200 (JCart cart'),
          set_carts (<[User._id user := cart']> (carts db)) db)
    else (serverError, db).
Proof.
  intros Hc. unfold removeFromCart. rewrite Hc. cbv zeta.
  fold (unnamed productId).
  destruct (Cart.valid _); reflexivity.
Qed.

End CartMore.

(** [addToCart] writes to the requester's cart and to nothing else: the
    products, users and orders are as before, every other user's cart is
    as before, and a request answered 400, 401 or 404 leaves the whole
    store as it was. *)
Theorem addToCart_frame
    (isValid : string -> bool) (castObjectId : string -> option ObjectId)
    (reqUser : option User.t) (body : CartController.AddBody) (db : DB) :
  let run := CartController.addToCart isValid castObjectId reqUser body db in
  products (snd run) = products db /\
  users (snd run) = users db /\
  orders (snd run) = orders db /\
  (forall u, Some u <> (User._id <$> reqUser) ->
     carts (snd run) !! u = carts db !! u) /\
  (code (fst run) <> 200%nat -> code (fst run) <> 500%nat -> snd run = db).
Proof.
  cbv zeta. unfold CartController.addToCart.
  destruct reqUser as [user|]; [|cbn; tauto].
  destruct (CartController.normalizeProductId _) as [pidText|]; [|cbn; tauto].
  destruct (isValid pidText); cbn [negb]; [|cbn; tauto].
  destruct (castObjectId pidText) as [pid|]; [|cbn; tauto].
  destruct (products db !! pid) as [product|]; [|cbn; tauto].
  destruct (Product.status_eqb _ _); cbn [negb]; [|cbn; tauto].
  destruct (Cart.valid _); cbn [negb fst snd code serverError products users
    orders carts set_carts fmap option_fmap option_map].
  - repeat split; try reflexivity; try congruence.
    intros u Hu. rewrite !lookup_insert_ne by congruence. reflexivity.
  - repeat split; try reflexivity; try congruence.
    intros u Hu. rewrite lookup_insert_ne by congruence. reflexivity.
Qed.

(** A request that names the product by its id as stored keeps the cart's
    lines on distinct products. *)
Theorem addToCart_keeps_lines_distinct
    (isValid : string -> bool) (castObjectId : string -> option ObjectId)
    (user : User.t) (body : CartController.AddBody) (db : DB)
    (productId : string) (pid : ObjectId) (product : Product.t) :
  CartController.normalizeProductId (CartController.productId body)
  = Some productId ->
  isValid productId = true ->
  castObjectId productId = Some pid ->
  ObjectIdText.toString pid = productId ->
  products db !! pid = Some product ->
  Product.status product = Product.active ->
  NoDup (map CartItem.product (Cart.items (Added.cartOf user db))) ->
  forall cart',
    carts (snd (CartController.addToCart isValid castObjectId (Some user)
                  body db)) !! User._id user = Some cart' ->
    NoDup (map CartItem.product (Cart.items cart')).
Proof.
  intros Hn Hv Hc Hcanon Hp Hs Hnd cart' Hcart'.
  rewrite (AddFacts.addToCart_run isValid castObjectId user body db
             productId pid product Hn Hv Hc Hp Hs) in Hcart'.
  cbv zeta in Hcart'.
  destruct (Cart.valid _) in Hcart'; cbn [snd carts set_carts] in Hcart';
    rewrite lookup_insert_eq in Hcart'; injection Hcart' as <-.
  - cbn [Cart.items].
    eapply CartMore.lineAdded_distinct;
      [apply AddFacts.linesAfter_added | exact Hcanon | exact Hnd].
  - exact Hnd.
Qed.

Lemma addToCart_keeps_lines_distinct_witness :
  exists cart',
    carts (snd (CartController.addToCart ObjectIdText.isHex24 ObjectIdText.ofHex
                  (Some Sample.buyer)
                  (CartController.mkAddBody
                     (CartController.PidString Sample.tomatoId) (Some 3))
                  (Sample.store Sample.single))) !! User._id Sample.buyer
    = Some cart' /\
    NoDup (map CartItem.product (Cart.items cart')).
Proof.
  eexists. split; [vm_compute; reflexivity|].
  apply (addToCart_keeps_lines_distinct ObjectIdText.isHex24 ObjectIdText.ofHex
           Sample.buyer
           (CartController.mkAddBody
              (CartController.PidString Sample.tomatoId) (Some 3))
           (Sample.store Sample.single)
           Sample.tomatoId 10%N Sample.tomato
           eq_refl eq_refl eq_refl eq_refl eq_refl eq_refl).
  - cbn. apply NoDup_singleton.
  - vm_compute. reflexivity.
Defined.

(** [removeFromCart] on a stored cart that passes the schema answers 200
    and stores the cart without the lines that print as [productId]: the
    other lines stay, in their order, and a product that was not in the
    cart leaves the lines as they were. Without a cart the answer is 404
    and nothing is written. *)
Theorem removeFromCart_drops_named_lines
    (user : User.t) (productId : string) (db : DB) :
  (carts db !! User._id user = None ->
   CartController.removeFromCart (Some user) productId db
   = (mkResponse 404 (JMessage (Text "Cart not found")), db)) /\
  (forall cart,
     carts db !! User._id user = Some cart ->
     Cart.valid cart = true ->
     exists lines',
       CartController.removeFromCart (Some user) productId db
       = (mkResponse 200 (JCart (Cart.mk (Cart.user cart) lines')),
          set_carts (<[User._id user := Cart.mk (Cart.user cart) lines']>
                       (carts db)) db) /\
       lines' = List.filter (CartLines.unnamed productId) (Cart.items cart) /\
       Forall (fun l => ~ Added.named productId l) lines' /\
       (forall l, ~ Added.named productId l ->
          (In l lines' <-> In l (Cart.items cart))) /\
       (Forall (fun l => ~ Added.named productId l) (Cart.items cart) ->
        lines' = Cart.items cart)).
Proof.
  split.
  - intros Hc. unfold CartController.removeFromCart. rewrite Hc. reflexivity.
  - intros cart Hc Hv.
    exists (List.filter (CartLines.unnamed productId) (Cart.items cart)).
    rewrite (CartMore.removeFromCart_run user productId db cart Hc). cbv zeta.
    assert (Hv' : Cart.valid
                    (Cart.mk (Cart.user cart)
                       (List.filter (CartLines.unnamed productId)
                                    (Cart.items cart))) = true).
    { apply CartMore.filter_valid. exact Hv. }
    rewrite Hv'. split; [reflexivity|]. split; [reflexivity|].
    split; [|split].
    + apply Forall_forall. intros l Hl.
      apply list_elem_of_In, filter_In in Hl.
      apply CartMore.unnamed_true, Hl.
    + intros l Hl. rewrite filter_In. split; [tauto|].
      intros Hin. split; [exact Hin | apply CartMore.unnamed_true, Hl].
    + intros Hall. apply CartMore.filter_all.
      eapply Forall_impl; [exact Hall|].
      intros l Hl. apply CartMore.unnamed_true, Hl.
Qed.

Lemma removeFromCart_drops_named_lines_witness :
  exists lines',
    CartController.removeFromCart (Some Sample.buyer) Sample.tomatoId
      (Sample.store Sample.single)
    = (mkResponse 200 (JCart (Cart.mk 1 lines')),
       set_carts (<[1%N := Cart.mk 1 lines']>
                    (carts (Sample.store Sample.single)))
                 (Sample.store Sample.single)) /\
    Forall (fun l => ~ Added.named Sample.tomatoId l) lines'.
Proof.
  destruct (proj2 (removeFromCart_drops_named_lines Sample.buyer
                     Sample.tomatoId (Sample.store Sample.single))
              (Cart.mk 1 Sample.single) eq_refl eq_refl)
    as (lines' & Hrun & _ & Hnone & _).
  exists lines'. split; [exact Hrun | exact Hnone].
Defined.

(** Removing the same product a second time changes nothing more. *)
Theorem removeFromCart_twice
    (reqUser : option User.t) (productId : string) (db : DB) :
  snd (CartController.removeFromCart reqUser productId
         (snd (CartController.removeFromCart reqUser productId db)))
  = snd (CartController.removeFromCart reqUser productId db).
Proof.
  destruct reqUser as [user|]; [|reflexivity].
  destruct (carts db !! User._id user) as [cart|] eqn:Hc.
  - rewrite (CartMore.removeFromCart_run user productId db cart Hc). cbv zeta.
    destruct (Cart.valid _) eqn:Hv; cbn [snd].
    + erewrite CartMore.removeFromCart_run
        by (cbn [carts set_carts]; apply lookup_insert_eq).
      cbv zeta. cbn [Cart.items Cart.user].
      rewrite CartMore.filter_twice, Hv. cbn [snd carts set_carts].
      unfold set_carts. cbn [products users carts orders].
      rewrite insert_insert_eq. reflexivity.
    + rewrite (CartMore.removeFromCart_run user productId db cart Hc). cbv zeta.
      rewrite Hv. reflexivity.
  - unfold CartController.removeFromCart. rewrite Hc. cbn [snd]. rewrite Hc.
    reflexivity.
Qed.

(** Adding a product that the cart does not hold, by its id as stored, and
    then removing it gives back the lines the cart had. *)
Theorem addToCart_then_removeFromCart
    (isValid : string -> bool) (castObjectId : string -> option ObjectId)
    (user : User.t) (body : CartController.AddBody) (db : DB)
    (productId : string) (pid : ObjectId) (product : Product.t) :
  CartController.normalizeProductId (CartController.productId body)
  = Some productId ->
  isValid productId = true ->
  castObjectId productId = Some pid ->
  ObjectIdText.toString pid = productId ->
  products db !! pid = Some product ->
  Product.status product = Product.active ->
  Cart.valid (Added.cartOf user db) = true ->
  Forall (fun l => ~ Added.named productId l)
         (Cart.items (Added.cartOf user db)) ->
  1 <= match CartController.quantity body with Some q => q | None => 1 end ->
  let added :=
    CartController.addToCart isValid castObjectId (Some user) body db in
  let removed :=
    CartController.removeFromCart (Some user) productId (snd added) in
  code (fst added) = 200%nat /\
  code (fst removed) = 200%nat /\
  carts (snd removed) !! User._id user = Some (Added.cartOf user db).
Proof.
  intros Hn Hv Hc Hcanon Hp Hs Hvalid Hnone Hq added removed.
  subst added removed.
  rewrite (AddFacts.addToCart_run isValid castObjectId user body db
             productId pid product Hn Hv Hc Hp Hs).
  cbv zeta.
  set (q := match CartController.quantity body with Some q => q | None => 1 end)
    in *.
  assert (Hlines : Added.linesAfter productId pid q
                     (Cart.items (Added.cartOf user db))
                   = Cart.items (Added.cartOf user db) ++ [CartItem.mk pid q]).
  { unfold Added.linesAfter.
    rewrite (CartMore.increaseExisting_absent _ q _ Hnone). reflexivity. }
  rewrite Hlines.
  assert (Hv1 : Cart.valid
                  (Cart.mk (Cart.user (Added.cartOf user db))
                     (Cart.items (Added.cartOf user db) ++ [CartItem.mk pid q]))
                = true).
  { unfold Cart.valid in *. cbn [Cart.items]. rewrite forallb_app, Hvalid.
    cbn. rewrite andb_true_r. apply NumFacts.geb_true. exact Hq. }
  rewrite Hv1. cbn [fst snd code]. split; [reflexivity|].
  erewrite CartMore.removeFromCart_run
    by (cbn [carts set_carts]; apply lookup_insert_eq).
  cbv zeta. cbn [Cart.items Cart.user].
  rewrite CartMore.filter_app_last.
  2:{ unfold CartLines.unnamed. cbn [CartItem.product]. rewrite Hcanon.
      rewrite String.eqb_refl. reflexivity. }
  rewrite CartMore.filter_all.
  2:{ eapply Forall_impl; [exact Hnone|].
      intros l Hl. apply CartMore.unnamed_true, Hl. }
  assert (Hsame : Cart.mk (Cart.user (Added.cartOf user db))
                          (Cart.items (Added.cartOf user db))
                  = Added.cartOf user db).
  { destruct (Added.cartOf user db). reflexivity. }
  rewrite Hsame, Hvalid. cbn [fst snd code carts set_carts].
  split; [reflexivity | apply lookup_insert_eq].
Qed.

Lemma addToCart_then_removeFromCart_witness :
  carts (snd (CartController.removeFromCart (Some Sample.buyer) Sample.tomatoId
                (snd (CartController.addToCart
                        ObjectIdText.isHex24 ObjectIdText.ofHex
                        (Some Sample.buyer)
                        (CartController.mkAddBody
                           (CartController.PidString Sample.tomatoId) (Some 2))
                        Sample.storeNoCart))))
    !! User._id Sample.buyer
  = Some (Added.cartOf Sample.buyer Sample.storeNoCart).
Proof.
  refine (proj2 (proj2
    (addToCart_then_removeFromCart ObjectIdText.isHex24 ObjectIdText.ofHex
       Sample.buyer
       (CartController.mkAddBody
          (CartController.PidString Sample.tomatoId) (Some 2))
       Sample.storeNoCart Sample.tomatoId 10%N Sample.tomato
       eq_refl eq_refl eq_refl eq_refl eq_refl eq_refl eq_refl _ _))).
  - constructor.
  - discriminate.
Defined.

Module CartDangling.

Lemma getCart_dangling user db cart :
  carts db !! User._id user = Some cart ->
  Exists (fun line => products db !! CartItem.product line = None)
         (Cart.items cart) ->
  CartController.getCart (Some user) db = serverError.
Proof.
  intros Hc Hex. unfold CartController.getCart. rewrite Hc.
  rewrite CartFacts.reduceSubtotal_null; [reflexivity|].
  unfold populateCart. apply Exists_exists in Hex. destruct Hex as (l & Hl & Hnone).
  apply Exists_exists. exists (populateCartItem db l). split.
  - apply list_elem_of_In, in_map, list_elem_of_In, Hl.
  - exact Hnone.
Qed.

End CartDangling.

(** A cart line whose product no longer exists makes [getCart] fail: the
    answer is 500 whatever the other lines are. *)
Theorem getCart_dangling_line (user : User.t) (db : DB) (cart : Cart.t) :
  carts db !! User._id user = Some cart ->
  Exists (fun line => products db !! CartItem.product line = None)
         (Cart.items cart) ->
  CartController.getCart (Some user) db = serverError.
Proof. apply CartDangling.getCart_dangling. Qed.

Lemma getCart_dangling_line_witness :
  CartController.getCart (Some Sample.buyer)
    (Sample.store [CartItem.mk 10 1; CartItem.mk 11 1])
  = serverError.
Proof.
  apply (getCart_dangling_line Sample.buyer
           (Sample.store [CartItem.mk 10 1; CartItem.mk 11 1])
           (Cart.mk 1 [CartItem.mk 10 1; CartItem.mk 11 1]) eq_refl).
  right. left. reflexivity.
Defined.

(** After a checkout that answered 201 the buyer's cart shows no lines,
    subtotal 0 and, the cart document being kept, the minimum fee: total
    10. *)
Theorem getCart_after_checkout (env : Env) (user : User.t) (db : DB) :
  code (fst (OrderController.checkout env user db)) = 201%nat ->
  CartController.getCart (Some user)
    (snd (OrderController.checkout env user db))
  = mkResponse 200 (JCartSummary [] 0 10 10).
Proof.
  intros H201.
  destruct (CheckoutRun.checkout_created env user db H201)
    as (cart & subtotal & orderItems & ops & _ & _ & _ & _ & _ & Hrun).
  rewrite Hrun. cbn [snd]. unfold CartController.getCart. cbn [carts].
  rewrite lookup_insert_eq. reflexivity.
Qed.

Lemma getCart_after_checkout_witness :
  CartController.getCart (Some Sample.buyer) Sample.afterCheckout
  = mkResponse 200 (JCartSummary [] 0 10 10).
Proof.
  apply (getCart_after_checkout Sample.env Sample.buyer
           (Sample.store Sample.single)).
  vm_compute. reflexivity.
Defined.

(** ** Checkout *)

Module CheckoutMore.
Import OrderController Spec Store Added Accounting.

Lemma servable_all_or_not items :
  Forall servable items \/
  Exists (fun line => unavailable line \/ short line) items.
Proof.
  induction items as [|line rest IH]; [left; constructor|].
  destruct (CheckoutFacts.servable_or_not line) as [Hs | Hbad].
  - destruct IH as [IH | IH]; [left; constructor; assumption | right].
    apply Exists_cons_tl. exact IH.
  - right. apply Exists_cons_hd. exact Hbad.
Qed.

(** A store whose carts and prices pass their schemas gives order lines
    that pass the order schema. *)
Lemma snapshots_valid db cart :
  Cart.valid cart = true -> pricesValid db ->
  Forall servable (populateCart db cart) ->
  Forall (fun line => OrderItem.valid (snapshot line) = true)
         (populateCart db cart).
Proof.
  intros Hv Hp Hall. unfold populateCart in *.
  apply Forall_forall. intros pl Hpl.
  apply list_elem_of_In, in_map_iff in Hpl. destruct Hpl as (l & <- & Hl).
  rewrite Forall_forall in Hall.
  destruct (Hall (populateCartItem db l)) as (p & Hlook & _ & _).
  { apply list_elem_of_In, in_map. exact Hl. }
  cbn in Hlook. unfold snapshot. cbn [pci_product populateCartItem].
  rewrite Hlook. unfold OrderItem.valid. cbn.
  apply andb_true_intro. split.
  - unfold Cart.valid in Hv. rewrite forallb_forall in Hv. apply Hv, Hl.
  - apply NumFacts.geb_true. exact (Hp _ _ Hlook).
Qed.

(** Everything but a 201 is a 400 on such a store, and leaves it alone. *)
Lemma checkout_not_servable env user db :
  (carts db !! User._id user = None \/
   exists cart, carts db !! User._id user = Some cart /\
     (Cart.items cart = [] \/
      Exists (fun line => unavailable line \/ short line)
             (populateCart db cart))) ->
  exists m, checkout env user db = (mkResponse 400 (JMessage m), db).
Proof.
  unfold checkout. intros [Hc | (cart & Hc & H)]; rewrite Hc.
  - eexists. reflexivity.
  - destruct (populateCart db cart) as [|line rest] eqn:Hitems.
    + eexists. reflexivity.
    + destruct H as [H | H].
      { unfold populateCart in Hitems. rewrite H in Hitems. discriminate. }
      destruct (CheckoutFacts.buildOrderItems_rejects _ H 0 []) as (m & Hm & _).
      exists m. cbn [length Nat.eqb]. rewrite Hm. reflexivity.
Qed.

End CheckoutMore.

(** On a store keyed by id whose carts and prices pass their schemas,
    checkout answers 201 exactly when the user has a cart with at least one
    line and every line can be served; it answers 400 otherwise, and never
    500. *)
Theorem checkout_answer (env : Env) (user : User.t) (db : DB) :
  Store.keyed db -> Added.cartsValid db -> Accounting.pricesValid db ->
  (code (fst (OrderController.checkout env user db)) = 201%nat <->
   exists cart,
     carts db !! User._id user = Some cart /\
     Cart.items cart <> [] /\
     Forall Spec.servable (populateCart db cart)) /\
  (code (fst (OrderController.checkout env user db)) = 201%nat \/
   code (fst (OrderController.checkout env user db)) = 400%nat).
Proof.
  intros Hk Hcv Hpv.
  assert (Hyes : forall cart,
            carts db !! User._id user = Some cart ->
            Cart.items cart <> [] ->
            Forall Spec.servable (populateCart db cart) ->
            code (fst (OrderController.checkout env user db)) = 201%nat).
  { intros cart Hc Hne Hall.
    apply (CheckoutRun.checkout_succeeds env user db cart Hk Hc Hne Hall).
    apply CheckoutMore.snapshots_valid; [exact (Hcv _ _ Hc) | exact Hpv | exact Hall]. }
  split.
  - split.
    + intros H201.
      destruct (CheckoutRun.checkout_created env user db H201)
        as (cart & s & ois & ops & Hc & Hne & Hb & _).
      exists cart. split; [exact Hc|]. split; [exact Hne|].
      exact (proj1 (CheckoutEffect.buildOrderItems_accepts _ _ _ _ _ Hb)).
    + intros (cart & Hc & Hne & Hall). exact (Hyes cart Hc Hne Hall).
  - destruct (carts db !! User._id user) as [cart|] eqn:Hc.
    + destruct (Cart.items cart) as [|l0 ls] eqn:Hitems.
      * right.
        destruct (CheckoutMore.checkout_not_servable env user db) as (m & ->);
          [|reflexivity].
        right. exists cart. auto.
      * destruct (CheckoutMore.servable_all_or_not (populateCart db cart))
          as [Hall | Hbad].
        -- left. apply (Hyes cart eq_refl); [rewrite Hitems; discriminate | exact Hall].
        -- right.
           destruct (CheckoutMore.checkout_not_servable env user db) as (m & ->);
             [|reflexivity].
           right. exists cart. auto.
    + right.
      destruct (CheckoutMore.checkout_not_servable env user db) as (m & ->);
        [|reflexivity].
      left. exact Hc.
Qed.

Lemma checkout_answer_witness :
  code (fst (OrderController.checkout Sample.env Sample.buyer
               (Sample.store Sample.single))) = 201%nat \/
  code (fst (OrderController.checkout Sample.env Sample.buyer
               (Sample.store Sample.single))) = 400%nat.
Proof.
  refine (proj2 (checkout_answer Sample.env Sample.buyer
                   (Sample.store Sample.single)
                   (SampleFacts.store_keyed _) _ _)).
  - intros u c H. cbn in H. apply lookup_singleton_Some in H as [_ <-].
    reflexivity.
  - intros id p H. cbn in H. apply lookup_singleton_Some in H as [_ <-].
    discriminate.
Defined.

(** A second checkout right after a successful one finds the cart without
    lines: it answers 400 "Cart is empty" and writes nothing. *)
Theorem checkout_twice (env env' : Env) (user : User.t) (db : DB) :
  code (fst (OrderController.checkout env user db)) = 201%nat ->
  OrderController.checkout env' user
    (snd (OrderController.checkout env user db))
  = (mkResponse 400 (JMessage (Text "Cart is empty")),
     snd (OrderController.checkout env user db)).
Proof.
  intros H201.
  destruct (CheckoutRun.checkout_created env user db H201)
    as (cart & subtotal & orderItems & ops & _ & _ & _ & _ & _ & Hrun).
  rewrite Hrun. cbn [snd]. unfold OrderController.checkout at 1. cbn [carts].
  rewrite lookup_insert_eq. reflexivity.
Qed.

Lemma checkout_twice_witness :
  OrderController.checkout (mkEnv 101 2000) Sample.buyer Sample.afterCheckout
  = (mkResponse 400 (JMessage (Text "Cart is empty")), Sample.afterCheckout).
Proof.
  apply (checkout_twice Sample.env (mkEnv 101 2000) Sample.buyer
           (Sample.store Sample.single)).
  vm_compute. reflexivity.
Defined.

Module BulkFacts.
Import OrderController Spec Store Accounting.

(** The bulk write gives each document the updates addressed to it, in
    order, and no others. *)
Lemma bulkWrite_lookup ops :
  forall ps id,
  bulkWrite ops ps !! id
  = applyAll (List.filter (fun op => (filter_id op =? id)%N) ops) <$> ps !! id.
Proof.
  induction ops as [|o rest IH]; intros ps id.
  - cbn. destruct (ps !! id); reflexivity.
  - change (bulkWrite (o :: rest) ps)
      with (bulkWrite rest (alter (applyUpdate o) (filter_id o) ps)).
    rewrite IH. cbn [List.filter].
    destruct (filter_id o =? id)%N eqn:E.
    + apply N.eqb_eq in E. subst id. rewrite lookup_alter_eq.
      rewrite <- option_fmap_compose. reflexivity.
    + apply N.eqb_neq in E. rewrite lookup_alter_ne by exact E. reflexivity.
Qed.

Lemma applyAll_fields ops :
  forall p,
  Product.stock (applyAll ops p)
  == Product.stock p + sumQ (map inc_stock ops) /\
  Product.totalSold (applyAll ops p)
  == Product.totalSold p + sumQ (map inc_totalSold ops) /\
  Product._id (applyAll ops p) = Product._id p /\
  Product.name (applyAll ops p) = Product.name p /\
  Product.price (applyAll ops p) = Product.price p /\
  Product.farmer (applyAll ops p) = Product.farmer p /\
  Product.totalValue (applyAll ops p) = Product.totalValue p.
Proof.
  induction ops as [|o rest IH]; intros p.
  - cbn. rewrite !Qplus_0_r. repeat split; reflexivity.
  - change (applyAll (o :: rest) p) with (applyAll rest (applyUpdate o p)).
    destruct (IH (applyUpdate o p)) as (Hs & Ht & Hi & Hn & Hp & Hf & Hv).
    cbn [map sumQ]. cbn in Hs, Ht, Hi, Hn, Hp, Hf, Hv.
    rewrite Hs, Ht, !Qplus_assoc. repeat split; try reflexivity; assumption.
Qed.

Lemma ops_of_lines db items :
  keyed db ->
  forall ops,
  mapM bulkOp (map (populateCartItem db) items) = Some ops ->
  Forall2 lineOp items ops.
Proof.
  intros Hk ops H. apply mapM_Some in H. apply Forall2_fmap_l in H.
  eapply Forall2_impl; [exact H|]. clear H.
  intros line op Hop. unfold bulkOp in Hop. cbn in Hop.
  destruct (products db !! CartItem.product line) as [p|] eqn:Hp;
    [|discriminate Hop].
  injection Hop as <-. unfold lineOp. cbn.
  split; [exact (Hk _ _ Hp)|]. split; reflexivity.
Qed.

Lemma sums_of_lines id items ops :
  Forall2 lineOp items ops ->
  sumQ (map inc_stock (List.filter (fun op => (filter_id op =? id)%N) ops))
  == - ordered id items /\
  sumQ (map inc_totalSold (List.filter (fun op => (filter_id op =? id)%N) ops))
  == ordered id items.
Proof.
  unfold ordered. induction 1 as [|line op items ops (Hid & Hs & Ht) _ IH].
  - cbn. split; reflexivity.
  - cbn [List.filter]. rewrite Hid.
    destruct (CartItem.product line =? id)%N; [|exact IH].
    cbn [map sumQ]. destruct IH as [IHs IHt].
    rewrite IHs, IHt, Hs, Ht. split; [|reflexivity].
    rewrite Qopp_plus. reflexivity.
Qed.

End BulkFacts.

Module CheckoutProducts.
Import OrderController Spec Store Accounting.

(** The products after a checkout that answered 201: each document has
    received the updates of the lines that name it. *)
Lemma checkout_products env user db cart :
  keyed db ->
  carts db !! User._id user = Some cart ->
  code (fst (checkout env user db)) = 201%nat ->
  Forall servable (populateCart db cart) /\
  users (snd (checkout env user db)) = users db /\
  (forall u, u <> User._id user ->
     carts (snd (checkout env user db)) !! u = carts db !! u) /\
  forall id, exists ops,
    products (snd (checkout env user db)) !! id
    = applyAll ops <$> products db !! id /\
    sumQ (map inc_stock ops) == - ordered id (Cart.items cart) /\
    sumQ (map inc_totalSold ops) == ordered id (Cart.items cart).
Proof.
  intros Hk Hc H201.
  destruct (CheckoutRun.checkout_created env user db H201)
    as (cart0 & subtotal & orderItems & ops & Hc0 & _ & Hb & _ & Hops & Hrun).
  rewrite Hc in Hc0. injection Hc0 as <-.
  rewrite Hrun. cbn [snd products users carts].
  split; [exact (proj1 (CheckoutEffect.buildOrderItems_accepts _ _ _ _ _ Hb))|].
  split; [reflexivity|]. split.
  - intros u Hu. apply lookup_insert_ne. congruence.
  - intros id.
    exists (List.filter (fun op => (filter_id op =? id)%N) ops).
    split; [apply BulkFacts.bulkWrite_lookup|].
    apply BulkFacts.sums_of_lines.
    apply (BulkFacts.ops_of_lines db (Cart.items cart) Hk ops Hops).
Qed.

(** Among lines on distinct products at most one names a given product. *)
Lemma ordered_distinct id items :
  NoDup (map CartItem.product items) ->
  ordered id items = 0 \/
  exists line, In line items /\ CartItem.product line = id /\
               ordered id items = CartItem.quantity line + 0.
Proof.
  unfold ordered. induction items as [|l rest IH]; intros Hnd; [left; reflexivity|].
  cbn [map] in Hnd. apply NoDup_cons in Hnd as [Hfresh Hnd].
  cbn [List.filter]. destruct (CartItem.product l =? id)%N eqn:E.
  - apply N.eqb_eq in E. right. exists l. split; [left; reflexivity|].
    split; [exact E|].
    assert (Hnone : List.filter (fun l0 => (CartItem.product l0 =? id)%N) rest = []).
    { destruct (List.filter _ rest) as [|x r] eqn:Hf; [reflexivity|].
      exfalso. apply Hfresh.
      assert (Hx : In x (List.filter
                           (fun l0 => (CartItem.product l0 =? id)%N) rest)).
      { rewrite Hf. left. reflexivity. }
      apply filter_In in Hx as [Hx Hid]. apply N.eqb_eq in Hid.
      rewrite E, <- Hid. apply list_elem_of_In, in_map, Hx. }
    rewrite Hnone. reflexivity.
  - destruct (IH Hnd) as [H0 | (line & Hin & Hid & Hq)]; [left; exact H0|].
    right. exists line. split; [right; exact Hin|]. split; assumption.
Qed.

End CheckoutProducts.



(** With lines on distinct products, a checkout that answered 201 leaves no
    stock below zero if none was. *)
Theorem checkout_no_oversell
    (env : Env) (user : User.t) (db : DB) (cart : Cart.t) :
  Store.keyed db ->
  Accounting.stocksValid db ->
  carts db !! User._id user = Some cart ->
  NoDup (map CartItem.product (Cart.items cart)) ->
  code (fst (OrderController.checkout env user db)) = 201%nat ->
  Accounting.stocksValid (snd (OrderController.checkout env user db)).
Proof.
  intros Hk Hsv Hc Hnd H201 id p' Hp'.
  destruct (CheckoutProducts.checkout_products env user db cart Hk Hc H201)
    as (Hall & _ & _ & Hprod).
  destruct (Hprod id) as (ops & Hlook & Hs & _).
  rewrite Hp' in Hlook.
  destruct (products db !! id) as [p|] eqn:Hp; [|discriminate Hlook].
  injection Hlook as ->.
  destruct (BulkFacts.applyAll_fields ops p) as (Hs' & _).
  rewrite Hs', Hs.
  destruct (CheckoutProducts.ordered_distinct id (Cart.items cart) Hnd)
    as [-> | (line & Hin & Hid & ->)].
  - rewrite Qplus_0_r. exact (Hsv _ _ Hp).
  - rewrite Forall_forall in Hall.
    destruct (Hall (populateCartItem db line)) as (q & Hq & _ & Hle).
    { apply list_elem_of_In. unfold populateCart. apply in_map. exact Hin. }
    cbn in Hq, Hle. rewrite Hid, Hp in Hq. injection Hq as <-.
    rewrite Qplus_0_r. rewrite <- Qle_minus_iff. exact Hle.
Qed.

Lemma checkout_no_oversell_witness :
  Accounting.stocksValid Sample.afterCheckout.
Proof.
  apply (checkout_no_oversell Sample.env Sample.buyer
           (Sample.store Sample.single) (Cart.mk 1 Sample.single)
           (SampleFacts.store_keyed _)).
  - intros id p H. cbn in H. apply lookup_singleton_Some in H as [_ <-].
    discriminate.
  - apply SampleFacts.store_cart.
  - cbn. apply NoDup_singleton.
  - vm_compute. reflexivity.
Defined.

(** ** Order queries, continued *)

Module SortFacts.
Import OrderController OrderQueries.

Lemma insertNewest_perm o sorted : Permutation (insertNewest o sorted) (o :: sorted).
Proof.
  induction sorted as [|o' rest IH]; [reflexivity|]. simpl.
  destruct (Order.createdAt o' <=? Order.createdAt o)%N; [reflexivity|].
  rewrite IH. apply perm_swap.
Qed.

Lemma sortNewestFirst_perm os : Permutation (sortNewestFirst os) os.
Proof.
  induction os as [|o rest IH]; [reflexivity|]. simpl.
  rewrite insertNewest_perm. constructor. exact IH.
Qed.

Lemma insertNewest_sorted o sorted :
  newestFirst Order.createdAt sorted ->
  newestFirst Order.createdAt (insertNewest o sorted).
Proof.
  unfold newestFirst. induction 1 as [|o' rest Hrest IH Hall].
  - repeat constructor.
  - simpl. destruct (Order.createdAt o' <=? Order.createdAt o)%N eqn:E.
    + apply N.leb_le in E. constructor; [constructor; assumption|].
      constructor; [exact E|].
      eapply Forall_impl; [exact Hall|]. intros x Hx. cbn in Hx. lia.
    + apply N.leb_gt in E. constructor; [exact IH|].
      apply Forall_forall. intros x Hx.
      apply list_elem_of_In, FarmerFacts.insertNewest_In in Hx.
      destruct Hx as [-> | Hx]; [lia|].
      rewrite Forall_forall in Hall. apply Hall, list_elem_of_In, Hx.
Qed.

Lemma sortNewestFirst_sorted os : newestFirst Order.createdAt (sortNewestFirst os).
Proof.
  induction os as [|o rest IH]; [constructor|].
  simpl. apply insertNewest_sorted, IH.
Qed.

Lemma newestFirst_map {A B} (f : A -> B) (ca : A -> N) (cb : B -> N) l :
  (forall a, cb (f a) = ca a) ->
  newestFirst ca l -> newestFirst cb (map f l).
Proof.
  intros Hf. unfold newestFirst. induction 1 as [|a l _ IH Hall]; [constructor|].
  cbn [map]. constructor; [exact IH|].
  apply Forall_forall. intros b Hb.
  apply list_elem_of_In, in_map_iff in Hb. destruct Hb as (a' & <- & Ha').
  rewrite !Hf. rewrite Forall_forall in Hall. apply Hall, list_elem_of_In, Ha'.
Qed.

Lemma newestFirst_filter {A} (ca : A -> N) (f : A -> bool) l :
  newestFirst ca l -> newestFirst ca (List.filter f l).
Proof.
  unfold newestFirst. induction 1 as [|a l _ IH Hall]; [constructor|].
  cbn [List.filter]. destruct (f a); [|exact IH].
  constructor; [exact IH|].
  apply Forall_forall. intros b Hb. apply list_elem_of_In, filter_In in Hb.
  rewrite Forall_forall in Hall. apply Hall, list_elem_of_In, Hb.
Qed.

End SortFacts.

(** [getMyOrders] lists the requester's stored orders, all of them and no
    others, each once per stored copy, newest first, with the products of
    the lines resolved. *)
Theorem getMyOrders_own_newest_first (requester : User.t) (db : DB) :
  let listed := snd (OrderQueries.getMyOrders requester db) in
  fst (OrderQueries.getMyOrders requester db) = 200%nat /\
  Permutation (map OrderQueries.view_order listed)
    (List.filter (fun o => (Order.user o =? User._id requester)%N) (orders db)) /\
  (forall o, In o (map OrderQueries.view_order listed) <->
             In o (orders db) /\ Order.user o = User._id requester) /\
  OrderQueries.newestFirst
    (fun v => Order.createdAt (OrderQueries.view_order v)) listed /\
  Forall (fun v => v = OrderQueries.viewOf db (OrderQueries.view_order v)) listed.
Proof.
  cbv zeta. unfold OrderQueries.getMyOrders. cbn [fst snd].
  set (mine := List.filter _ (orders db)).
  assert (Hmap : map OrderQueries.view_order
                   (map (OrderQueries.viewOf db)
                        (OrderController.sortNewestFirst mine))
                 = OrderController.sortNewestFirst mine).
  { rewrite map_map. cbn. apply map_id. }
  split; [reflexivity|]. rewrite Hmap.
  split; [apply SortFacts.sortNewestFirst_perm|]. split; [|split].
  - intros o. rewrite FarmerFacts.sortNewestFirst_In. subst mine.
    rewrite filter_In, N.eqb_eq. reflexivity.
  - apply (SortFacts.newestFirst_map _ Order.createdAt); [reflexivity|].
    apply SortFacts.sortNewestFirst_sorted.
  - apply Forall_forall. intros v Hv.
    apply list_elem_of_In, in_map_iff in Hv. destruct Hv as (o & <- & _).
    reflexivity.
Qed.

(** In the answer of [getFarmerOrders] every product shown is the
    farmer's own, the lines on other farmers' products showing [null], and
    the orders come newest first. *)
Theorem getFarmerOrders_own_products_newest_first (farmer : User.t) (db : DB) :
  exists listed,
    OrderController.getFarmerOrders farmer db
    = mkResponse 200 (JPopulatedOrders listed) /\
    Forall (OrderQueries.onlyProductsOf (User._id farmer)) listed /\
    OrderQueries.newestFirst po_createdAt listed.
Proof.
  eexists. split; [reflexivity|]. split.
  - apply Forall_forall. intros po Hpo.
    apply list_elem_of_In, filter_In in Hpo. destruct Hpo as [Hpo _].
    apply in_map_iff in Hpo. destruct Hpo as (o & <- & _).
    unfold OrderQueries.onlyProductsOf.
    cbn [po_items OrderController.populateOrderMatching].
    apply Forall_forall. intros item Hitem.
    apply list_elem_of_In, in_map_iff in Hitem. destruct Hitem as (i & <- & _).
    unfold OrderController.populateOrderItemMatching. cbn [poi_product].
    destruct (products db !! OrderItem.product i) as [p|]; [|exact I].
    destruct (Product.farmer p =? User._id farmer)%N eqn:E; [|exact I].
    apply N.eqb_eq. exact E.
  - apply SortFacts.newestFirst_filter.
    apply (SortFacts.newestFirst_map _ Order.createdAt); [reflexivity|].
    apply SortFacts.sortNewestFirst_sorted.
Qed.

(** [GET /api/orders/:id] answers 500 for an id that does not cast, 404
    for an id that casts and that no stored order has, 500 when the order's
    user document no longer exists, whoever asks, and otherwise by the
    requester's role alone: 200 with the populated order for an admin, 403
    for everyone else. *)
Theorem getOrderById_answers
    (castObjectId : string -> option ObjectId)
    (requester : User.t) (id : string) (db : DB) :
  (castObjectId id = None ->
   OrderRequest.getOrderById castObjectId requester id db = serverError) /\
  (forall oid, castObjectId id = Some oid ->
     (OrderController.findById oid (orders db) = None ->
      OrderRequest.getOrderById castObjectId requester id db
      = mkResponse 404 (JMessage (Text "Order not found"))) /\
     (forall o,
        OrderController.findById oid (orders db) = Some o ->
        (users db !! Order.user o = None ->
         OrderRequest.getOrderById castObjectId requester id db = serverError) /\
        (is_Some (users db !! Order.user o) ->
         OrderRequest.getOrderById castObjectId requester id db
         = if String.eqb (User.role requester) "admin"
           then mkResponse 200
                  (JPopulatedOrder (OrderController.populateOrder db o))
           else mkResponse 403
                  (JMessage (Text "Not authorized to view this order"))))).
Proof.
  unfold OrderRequest.getOrderById. split.
  - intros ->. reflexivity.
  - intros oid ->. split.
    + intros H. unfold OrderController.getOrderById. rewrite H. reflexivity.
    + intros o Ho. split.
      * intros Hu. unfold OrderController.getOrderById. rewrite Ho.
        cbn [po_user OrderController.populateOrder]. rewrite Hu. reflexivity.
      * intros [owner Hu].
        exact (OrderFacts.getOrderById_by_role requester oid db o owner Ho Hu).
Qed.

(** With the driver's cast of 24 hexadecimal digits: a path that is no id
    is answered 500, the id of no order 404, and order 100 is shown to the
    admin. *)
Example getOrderById_by_path :
  OrderRequest.getOrderById ObjectIdText.ofHex Sample.admin "latest"
    Sample.afterCheckout = serverError /\
  code (OrderRequest.getOrderById ObjectIdText.ofHex Sample.admin
          "000000000000000000000065" Sample.afterCheckout) = 404%nat /\
  code (OrderRequest.getOrderById ObjectIdText.ofHex Sample.admin
          "000000000000000000000064" Sample.afterCheckout) = 200%nat.
Proof. repeat split; vm_compute; reflexivity. Qed.

(** ** Order status, continued *)

Module StatusMore.
Import AdminOrderController.

(** The statuses that both the handler and the schema accept. *)
Lemma allowed_and_known s :
  Order.includes allowedStatuses s = true ->
  Order.includes Order.statusEnum s = true ->
  s = "delivered"%string \/ s = "cancelled"%string.
Proof.
  unfold Order.includes, allowedStatuses, Order.statusEnum. cbn [existsb].
  destruct (String.eqb_spec s "delivered") as [->|Hd]; [auto|].
  destruct (String.eqb_spec s "cancelled") as [->|Hc]; [auto|].
  destruct (String.eqb_spec s "processing") as [->|Hp]; [cbn; discriminate|].
  destruct (String.eqb_spec s "in_transit") as [->|Ht]; [cbn; discriminate|].
  cbn. discriminate.
Qed.

Lemma findById_id id os o :
  OrderController.findById id os = Some o -> Order._id o = id.
Proof.
  unfold OrderController.findById. intros H.
  apply find_some in H as [_ H]. apply N.eqb_eq. exact H.
Qed.

(** Saving replaces the found order and leaves every other one. *)
Lemma saveOrder_others id s os o :
  OrderController.findById id os = Some o ->
  Forall2 (fun a b => b = a \/ (a = o /\ b = Order.set_status s o))
          os (saveOrder (Order.set_status s o) os).
Proof.
  unfold OrderController.findById.
  induction os as [|o' rest IH]; intros H; [constructor|].
  cbn [find] in H. cbn [saveOrder Order._id Order.set_status].
  destruct (Order._id o' =? id)%N eqn:E.
  - injection H as ->. rewrite N.eqb_refl. constructor.
    + right. auto.
    + clear. induction rest; constructor; auto.
  - assert (Hid : Order._id o = id).
    { apply find_some in H as [_ H]. apply N.eqb_eq. exact H. }
    rewrite Hid, E. constructor; [left; reflexivity | apply IH, H].
Qed.

End StatusMore.

(** [updateOrderStatus] can only ever store "delivered" or "cancelled": it
    touches nothing but the orders, keeps their number and order, changes
    at most the status of orders with the given id, and then only to one of
    those two; whenever the answer is not 200 the store is as it was. *)
Theorem updateOrderStatus_effect (id : ObjectId) (status : string) (db : DB) :
  let run := AdminOrderController.updateOrderStatus id status db in
  products (snd run) = products db /\
  users (snd run) = users db /\
  carts (snd run) = carts db /\
  Forall2 (fun o o' =>
             o' = o \/
             (o' = Order.set_status status o /\ Order._id o = id /\
              (status = "delivered"%string \/ status = "cancelled"%string)))
          (orders db) (orders (snd run)) /\
  (code (fst run) <> 200%nat -> snd run = db).
Proof.
  cbv zeta. unfold AdminOrderController.updateOrderStatus.
  assert (Hsame : Forall2
            (fun o o' : Order.t =>
               o' = o \/
               (o' = Order.set_status status o /\ Order._id o = id /\
                (status = "delivered"%string \/ status = "cancelled"%string)))
            (orders db) (orders db)).
  { induction (orders db); constructor; auto. }
  destruct (Order.includes AdminOrderController.allowedStatuses status) eqn:Ha;
    cbn [negb]; [|cbn; tauto].
  destruct (OrderController.findById id (orders db)) as [o|] eqn:Hf;
    [|cbn; tauto].
  destruct (Order.valid (Order.set_status status o)) eqn:Hv;
    cbn [negb]; [|cbn; tauto].
  cbn [fst snd code products users carts orders set_orders].
  repeat split; try reflexivity; [|congruence].
  assert (Hs : status = "delivered"%string \/ status = "cancelled"%string).
  { apply StatusMore.allowed_and_known; [exact Ha|].
    unfold Order.valid in Hv. apply andb_true_iff in Hv as [_ Hv]. exact Hv. }
  eapply Forall2_impl; [apply (StatusMore.saveOrder_others id status _ o Hf)|].
  intros a b [-> | [-> ->]]; [left; reflexivity|].
  right. split; [reflexivity|]. split; [|exact Hs].
  exact (StatusMore.findById_id _ _ _ Hf).
Qed.

(** ** The admin listing *)

Module ListingFacts.
Import AdminOrderQueries.

Section Driver.

Variable parseDate : string -> Date.
Variable endOfDay : N -> N.
Variable castObjectId : string -> option ObjectId.

(** The filter that reaches the store, read off the query. *)
Lemma cast_filter query c :
  castFilter castObjectId (buildFilter parseDate endOfDay query) = Some c ->
  c_status c
  = match CartController.truthy (status query) with
    | Some s => if Order.includes recognised s then Some (canonical s) else None
    | None => None
    end /\
  match CartController.truthy (user query) with
  | None => c_user c = None
  | Some raw => exists u, castObjectId raw = Some u /\ c_user c = Some u
  end /\
  match CartController.truthy (from query) with
  | None => c_gte c = None
  | Some raw => exists t, parseDate raw = Some t /\ c_gte c = Some t
  end /\
  match CartController.truthy (to query) with
  | None => c_lte c = None
  | Some raw => exists t, parseDate raw = Some t /\ c_lte c = Some (endOfDay t)
  end.
Proof.
  unfold castFilter, buildFilter. cbn [f_user f_status f_createdAt].
  destruct (CartController.truthy (user query)) as [raw|].
  - destruct (castObjectId raw) as [u|] eqn:Hu; cbn [option_map]; [|discriminate].
    destruct (CartController.truthy (from query)) as [rf|],
             (CartController.truthy (to query)) as [rt|]; cbn [option_map castBound].
    + destruct (parseDate rf) as [tf|] eqn:Hf; [|discriminate].
      destruct (parseDate rt) as [tt|] eqn:Ht; cbn [option_map]; [|discriminate].
      intros [= <-]. cbn. eauto 10.
    + destruct (parseDate rf) as [tf|] eqn:Hf; [|discriminate].
      intros [= <-]. cbn. eauto 10.
    + destruct (parseDate rt) as [tt|] eqn:Ht; cbn [option_map]; [|discriminate].
      intros [= <-]. cbn. eauto 10.
    + intros [= <-]. cbn. eauto 10.
  - destruct (CartController.truthy (from query)) as [rf|],
             (CartController.truthy (to query)) as [rt|]; cbn [option_map castBound].
    + destruct (parseDate rf) as [tf|] eqn:Hf; [|discriminate].
      destruct (parseDate rt) as [tt|] eqn:Ht; cbn [option_map]; [|discriminate].
      intros [= <-]. cbn. eauto 10.
    + destruct (parseDate rf) as [tf|] eqn:Hf; [|discriminate].
      intros [= <-]. cbn. eauto 10.
    + destruct (parseDate rt) as [tt|] eqn:Ht; cbn [option_map]; [|discriminate].
      intros [= <-]. cbn. eauto 10.
    + intros [= <-]. cbn. eauto 10.
Qed.

(** The stored filter selects what the query asks for. *)
Lemma matches_selected query c o :
  castFilter castObjectId (buildFilter parseDate endOfDay query) = Some c ->
  matches c o = true <-> selected parseDate endOfDay castObjectId query o.
Proof.
  intros Hc. destruct (cast_filter query c Hc) as (Hs & Hu & Hf & Ht).
  unfold matches, selected. rewrite !andb_true_iff.
  assert (Es : holds (c_status c) (String.eqb (Order.status o)) = true <->
               forall s, CartController.truthy (status query) = Some s ->
                 Order.includes recognised s = true ->
                 Order.status o = canonical s).
  { rewrite Hs. destruct (CartController.truthy (status query)) as [s|].
    - destruct (Order.includes recognised s) eqn:Hr; cbn [holds].
      + rewrite String.eqb_eq. split.
        * intros H s' [= <-] _. exact H.
        * intros H. apply (H s eq_refl Hr).
      + split; [|reflexivity]. intros _ s' [= <-] Hr'. congruence.
    - cbn [holds]. split; [|reflexivity]. intros _ s' H. discriminate H. }
  assert (Eu : holds (c_user c) (N.eqb (Order.user o)) = true <->
               forall raw u, CartController.truthy (user query) = Some raw ->
                 castObjectId raw = Some u -> Order.user o = u).
  { destruct (CartController.truthy (user query)) as [raw|].
    - destruct Hu as (u & Hcast & ->). cbn [holds]. rewrite N.eqb_eq. split.
      + intros H raw' u' [= <-] Hcast'. congruence.
      + intros H. apply (H raw u eq_refl Hcast).
    - rewrite Hu. cbn [holds]. split; [|reflexivity]. intros _ raw' u' H.
      discriminate H. }
  assert (Ef : holds (c_gte c) (fun t => (t <=? Order.createdAt o)%N) = true <->
               forall raw t, CartController.truthy (from query) = Some raw ->
                 parseDate raw = Some t -> (t <= Order.createdAt o)%N).
  { destruct (CartController.truthy (from query)) as [raw|].
    - destruct Hf as (t & Hp & ->). cbn [holds]. rewrite N.leb_le. split.
      + intros H raw' t' [= <-] Hp'. rewrite Hp in Hp'. injection Hp' as <-.
        exact H.
      + intros H. apply (H raw t eq_refl Hp).
    - rewrite Hf. cbn [holds]. split; [|reflexivity]. intros _ raw' t' H.
      discriminate H. }
  assert (Et : holds (c_lte c) (fun t => (Order.createdAt o <=? t)%N) = true <->
               forall raw t, CartController.truthy (to query) = Some raw ->
                 parseDate raw = Some t -> (Order.createdAt o <= endOfDay t)%N).
  { destruct (CartController.truthy (to query)) as [raw|].
    - destruct Ht as (t & Hp & ->). cbn [holds]. rewrite N.leb_le. split.
      + intros H raw' t' [= <-] Hp'. rewrite Hp in Hp'. injection Hp' as <-.
        exact H.
      + intros H. apply (H raw t eq_refl Hp).
    - rewrite Ht. cbn [holds]. split; [|reflexivity]. intros _ raw' t' H.
      discriminate H. }
  rewrite Es, Eu, Ef, Et. tauto.
Qed.

(** The filter reaches the store exactly when the parameters cast. *)
Lemma castable_cast query :
  castable parseDate castObjectId query <->
  is_Some (castFilter castObjectId (buildFilter parseDate endOfDay query)).
Proof.
  split.
  - intros (Hu & Hf & Ht).
    unfold castFilter, buildFilter. cbn [f_user f_status f_createdAt].
    assert (Hu' : forall raw, CartController.truthy (user query) = Some raw ->
                    exists u, castObjectId raw = Some u).
    { intros raw H. destruct (Hu raw H) as [u E]. eauto. }
    assert (Hf' : forall raw, CartController.truthy (from query) = Some raw ->
                    exists t, parseDate raw = Some t).
    { intros raw H. destruct (Hf raw H) as [t E]. eauto. }
    assert (Ht' : forall raw, CartController.truthy (to query) = Some raw ->
                    exists t, parseDate raw = Some t).
    { intros raw H. destruct (Ht raw H) as [t E]. eauto. }
    clear Hu Hf Ht.
    destruct (CartController.truthy (user query)) as [raw|].
    + destruct (Hu' raw eq_refl) as (u & ->). cbn [option_map].
      destruct (CartController.truthy (from query)) as [rf|],
               (CartController.truthy (to query)) as [rt|];
        cbn [option_map castBound].
      * destruct (Hf' rf eq_refl) as (tf & ->).
        destruct (Ht' rt eq_refl) as (tt & ->). cbn. eauto.
      * destruct (Hf' rf eq_refl) as (tf & ->). cbn. eauto.
      * destruct (Ht' rt eq_refl) as (tt & ->). cbn. eauto.
      * eauto.
    + destruct (CartController.truthy (from query)) as [rf|],
               (CartController.truthy (to query)) as [rt|];
        cbn [option_map castBound].
      * destruct (Hf' rf eq_refl) as (tf & ->).
        destruct (Ht' rt eq_refl) as (tt & ->). cbn. eauto.
      * destruct (Hf' rf eq_refl) as (tf & ->). cbn. eauto.
      * destruct (Ht' rt eq_refl) as (tt & ->). cbn. eauto.
      * eauto.
  - intros [c Hc]. destruct (cast_filter query c Hc) as (_ & Hu & Hf & Ht).
    split; [|split]; intros raw Hraw.
    + rewrite Hraw in Hu. destruct Hu as (u & -> & _). eauto.
    + rewrite Hraw in Hf. destruct Hf as (t & -> & _). eauto.
    + rewrite Hraw in Ht. destruct Ht as (t & -> & _). eauto.
Qed.

End Driver.

(** No order that passes the schema has a status that the shipped,
    in-transit or processing filters select. *)
Lemma valid_status_not_selected o s :
  Order.valid o = true ->
  s = "shipped"%string \/ s = "in_transit"%string \/ s = "processing"%string ->
  Order.status o <> canonical s.
Proof.
  intros Hv Hs E. unfold Order.valid in Hv. apply andb_true_iff in Hv as [_ Hv].
  rewrite E in Hv. destruct Hs as [-> | [-> | ->]]; discriminate Hv.
Qed.

End ListingFacts.

(** When [getAllOrders] answers 200, it lists exactly the stored orders
    that meet every restriction of the query: the status, with "shipped"
    read as "in_transit" and a value outside the six known ones ignored;
    the user; a creation time from the [from] date on and up to the end of
    the [to] day. The orders come newest first, populated, and [results]
    is their number. *)
Theorem getAllOrders_listing
    (parseDate : string -> AdminOrderQueries.Date) (endOfDay : N -> N)
    (castObjectId : string -> option ObjectId)
    (query : AdminOrderQueries.Query) (db : DB)
    (results : nat) (listed : list AdminOrderQueries.AdminOrderView) :
  AdminOrderQueries.getAllOrders parseDate endOfDay castObjectId query db
  = (200%nat, AdminOrderQueries.Success results listed) ->
  results = length listed /\
  (forall o,
     In o (map AdminOrderQueries.av_order listed) <->
     In o (orders db) /\
     AdminOrderQueries.selected parseDate endOfDay castObjectId query o) /\
  OrderQueries.newestFirst
    (fun v => Order.createdAt (AdminOrderQueries.av_order v)) listed /\
  Forall (fun v => v = AdminOrderQueries.populateAdmin db
                         (AdminOrderQueries.av_order v)) listed.
Proof.
  unfold AdminOrderQueries.getAllOrders.
  destruct (AdminOrderQueries.castFilter _ _) as [c|] eqn:Hc; [|discriminate].
  cbv zeta. intros [= <- <-].
  split; [reflexivity|]. split; [|split].
  - intros o. rewrite map_map. cbn [AdminOrderQueries.av_order
      AdminOrderQueries.populateAdmin]. rewrite map_id.
    rewrite FarmerFacts.sortNewestFirst_In, filter_In.
    rewrite (ListingFacts.matches_selected parseDate endOfDay castObjectId
               query c o Hc).
    reflexivity.
  - apply (SortFacts.newestFirst_map _ Order.createdAt); [reflexivity|].
    apply SortFacts.sortNewestFirst_sorted.
  - apply Forall_forall. intros v Hv.
    apply list_elem_of_In, in_map_iff in Hv. destruct Hv as (o & <- & _).
    reflexivity.
Qed.

Lemma getAllOrders_listing_witness :
  exists results listed,
    AdminOrderQueries.getAllOrders (fun _ => None) (fun t => t)
      ObjectIdText.ofHex
      (AdminOrderQueries.mkQuery (Some "placed"%string) None None None)
      Sample.afterCheckout
    = (200%nat, AdminOrderQueries.Success results listed) /\
    results = length listed.
Proof.
  eexists. eexists. split; [vm_compute; reflexivity|].
  eapply proj1.
  eapply (getAllOrders_listing (fun _ => None) (fun t => t) ObjectIdText.ofHex
            (AdminOrderQueries.mkQuery (Some "placed"%string) None None None)
            Sample.afterCheckout).
  vm_compute. reflexivity.
Defined.

(** Filtering by "shipped", "in_transit" or "processing" lists nothing
    from a store whose orders pass the order schema: when the other
    parameters cast (the user is an id, the dates are valid) the answer is
    200 with an empty list, and when one of them does not the answer is
    500. Orders stored as "shipped" are sought as "in_transit". *)
Theorem getAllOrders_in_transit_lists_nothing
    (parseDate : string -> AdminOrderQueries.Date) (endOfDay : N -> N)
    (castObjectId : string -> option ObjectId)
    (query : AdminOrderQueries.Query) (db : DB) (s : string) :
  AdminOrderQueries.status query = Some s ->
  s = "shipped"%string \/ s = "in_transit"%string \/ s = "processing"%string ->
  Forall (fun o => Order.valid o = true) (orders db) ->
  (AdminOrderQueries.castable parseDate castObjectId query ->
   AdminOrderQueries.getAllOrders parseDate endOfDay castObjectId query db
   = (200%nat, AdminOrderQueries.Success 0 [])) /\
  (~ AdminOrderQueries.castable parseDate castObjectId query ->
   AdminOrderQueries.getAllOrders parseDate endOfDay castObjectId query db
   = (500%nat, AdminOrderQueries.Failure "Failed to fetch orders")).
Proof.
  intros Hq Hs Hvalid.
  pose proof (ListingFacts.castable_cast parseDate endOfDay castObjectId query)
    as Hcast.
  unfold AdminOrderQueries.getAllOrders.
  destruct (AdminOrderQueries.castFilter _ _) as [c|] eqn:Hc.
  - split; [intros _ | intros Hn; exfalso; apply Hn, Hcast; eauto].
    assert (Hnone : List.filter (AdminOrderQueries.matches c) (orders db) = []).
    { induction (orders db) as [|o rest IH]; [reflexivity|].
      apply Forall_cons in Hvalid as [Hv Hrest]. cbn [List.filter].
      destruct (AdminOrderQueries.matches c o) eqn:Hm; [|apply IH, Hrest].
      exfalso.
      apply (ListingFacts.matches_selected parseDate endOfDay castObjectId
               query c o Hc) in Hm.
      destruct Hm as (Hst & _).
      apply (ListingFacts.valid_status_not_selected o s Hv Hs).
      apply Hst.
      - rewrite Hq. destruct Hs as [-> | [-> | ->]]; reflexivity.
      - destruct Hs as [-> | [-> | ->]]; reflexivity. }
    cbv zeta. rewrite Hnone. reflexivity.
  - split; [|reflexivity].
    intros Hyes. apply Hcast in Hyes. destruct Hyes as [c Hyes]. discriminate.
Qed.

Lemma getAllOrders_in_transit_lists_nothing_witness :
  AdminOrderQueries.getAllOrders (fun _ => None) (fun t => t)
    ObjectIdText.ofHex
    (AdminOrderQueries.mkQuery (Some "shipped"%string) None None None)
    Sample.afterCheckout
  = (200%nat, AdminOrderQueries.Success 0 []).
Proof.
  apply (getAllOrders_in_transit_lists_nothing (fun _ => None) (fun t => t)
           ObjectIdText.ofHex
           (AdminOrderQueries.mkQuery (Some "shipped"%string) None None None)
           Sample.afterCheckout "shipped" eq_refl (or_introl eq_refl)).
  - vm_compute. repeat constructor.
  - repeat split; intros raw H; discriminate H.
Defined.

(** ** Authentication and the routers *)

Module AuthFacts.
Import Auth.

Section Driver.

Variable jwtVerify : string -> JwtResult.
Variable castObjectId : string -> option ObjectId.

(** The user that [protect] lets through is the one the token names. *)
Lemma protect_names req db u :
  protect jwtVerify castObjectId req db = inr u ->
  names jwtVerify castObjectId req db u.
Proof.
  unfold protect, names.
  destruct (CartController.truthy (readToken req)) as [token|]; [|discriminate].
  destruct (jwtVerify token) as [id| |] eqn:Hj; try discriminate.
  destruct (castObjectId id) as [uid|] eqn:Hc; [|discriminate].
  destruct (users db !! uid) as [cu|] eqn:Hu; [|discriminate].
  intros [= <-]. exists token, id, uid. auto.
Qed.

Lemma includes_one role r : Order.includes [role] r = true <-> r = role.
Proof.
  unfold Order.includes. cbn [existsb]. rewrite orb_false_r. apply String.eqb_eq.
Qed.

(** A chain [protect, restrictTo(role), handler]: either an error and the
    store untouched, or the handler's run for the user that the token
    names, who has that role. *)
Lemma guarded_chain_as {A} role (h : Middleware A) req db :
  (exists f,
     runChain [protectMw jwtVerify castObjectId; restrictToMw [role]; h]
              req None db = (Failed f, db)) \/
  (exists u,
     names jwtVerify castObjectId req db u /\ User.role u = role /\
     runChain [protectMw jwtVerify castObjectId; restrictToMw [role]; h]
              req None db
     = runChain [h] req (Some u) db).
Proof.
  destruct (protect jwtVerify castObjectId req db) as [f|u] eqn:Hp.
  - left. exists f. cbn [runChain]. unfold protectMw. rewrite Hp. reflexivity.
  - destruct (Order.includes [role] (User.role u)) eqn:Hr.
    + right. exists u. split; [apply protect_names; exact Hp|].
      split; [apply includes_one; exact Hr|].
      cbn [runChain]. unfold protectMw. rewrite Hp.
      unfold restrictToMw, restrictTo. rewrite Hr. reflexivity.
    + left. eexists. cbn [runChain]. unfold protectMw. rewrite Hp.
      unfold restrictToMw, restrictTo. rewrite Hr. reflexivity.
Qed.

End Driver.

Lemma run_handle {A} (h : option User.t -> DB -> A * DB) req reqUser db :
  runChain [handle h] req reqUser db
  = (Answered (fst (h reqUser db)), snd (h reqUser db)).
Proof.
  cbn [runChain]. unfold handle. destruct (h reqUser db). reflexivity.
Qed.

Lemma run_handleAs {A} (h : User.t -> DB -> A * DB) onThrow req u db :
  runChain [handleAs h onThrow] req (Some u) db
  = (Answered (fst (h u db)), snd (h u db)).
Proof.
  cbn [runChain]. unfold handleAs. destruct (h u db). reflexivity.
Qed.

End AuthFacts.

(** A request whose Authorization header starts with "Bearer" and carries
    no token after the first space is turned away as not logged in, and a
    jwt cookie sent with it is not looked at. *)
Theorem protect_header_without_token
    (jwtVerify : string -> Auth.JwtResult)
    (castObjectId : string -> option ObjectId)
    (req : Auth.Request) (db : DB) (header : string) :
  Auth.authorization req = Some header ->
  String.prefix "Bearer" header = true ->
  CartController.truthy (nth_error (Auth.split " " header) 1) = None ->
  Auth.protect jwtVerify castObjectId req db
  = inl (Auth.CustomError
           "You are not logged in! Please log in to get access." 401).
Proof.
  intros Ha Hp Ht. unfold Auth.protect, Auth.readToken. rewrite Ha.
  destruct header as [|c rest]; [discriminate Hp|].
  cbn [CartController.truthy]. rewrite Hp, Ht. reflexivity.
Qed.

Lemma protect_header_without_token_witness :
  Auth.protect (fun _ => Auth.Decoded "000000000000000000000001")
    ObjectIdText.ofHex
    (Auth.mkRequest (Some "Bearer"%string) (Some "a.valid.token"%string))
    Sample.afterCheckout
  = inl (Auth.CustomError
           "You are not logged in! Please log in to get access." 401).
Proof.
  apply (protect_header_without_token _ _ _ _ "Bearer"); reflexivity.
Defined.

(** The cart can be changed and a checkout made by a buyer only: a request
    to [POST /cart], [DELETE /cart/:productId] or [POST /orders/checkout]
    either ends in an error with the store untouched, or its token names a
    stored user whose role is "buyer" and the outcome is the handler's own
    answer and store for that very user. The handlers' own answer "Not
    authenticated" is never sent through the routers. *)
Theorem writes_need_a_buyer
    (jwtVerify : string -> Auth.JwtResult)
    (castObjectId : string -> option ObjectId)
    (isValid : string -> bool) (body : CartController.AddBody)
    (productId : string) (env : Env) (req : Auth.Request) (db : DB) :
  let guarded (handler : User.t -> DB -> Response * DB)
              (out : Auth.Outcome Response * DB) :=
    ((exists f, out = (Auth.Failed f, db)) \/
     (exists u,
        Auth.names jwtVerify castObjectId req db u /\
        User.role u = "buyer"%string /\
        out = (Auth.Answered (fst (handler u db)), snd (handler u db)) /\
        code (fst (handler u db)) <> 401%nat)) in
  guarded (fun u => CartController.addToCart isValid castObjectId (Some u) body)
          (Auth.cartPost jwtVerify castObjectId isValid body req db) /\
  guarded (fun u => CartController.removeFromCart (Some u) productId)
          (Auth.cartDelete jwtVerify castObjectId productId req db) /\
  guarded (OrderController.checkout env)
          (Auth.ordersCheckout jwtVerify castObjectId env req db).
Proof.
  cbv zeta. unfold Auth.cartPost, Auth.cartDelete, Auth.ordersCheckout,
    Auth.cartRouter.
  split; [|split].
  - destruct (AuthFacts.guarded_chain_as jwtVerify castObjectId "buyer"
                (Auth.handle (fun u db0 =>
                   CartController.addToCart isValid castObjectId u body db0))
                req db) as [(f & ->) | (u & Hu & Hr & ->)].
    + left. eauto.
    + right. exists u. split; [exact Hu|]. split; [exact Hr|].
      rewrite AuthFacts.run_handle. split; [reflexivity|].
      unfold CartController.addToCart.
      repeat match goal with
             | |- context [match ?x with _ => _ end] => destruct x
             end; cbn; discriminate.
  - destruct (AuthFacts.guarded_chain_as jwtVerify castObjectId "buyer"
                (Auth.handle (fun u db0 =>
                   CartController.removeFromCart u productId db0))
                req db) as [(f & ->) | (u & Hu & Hr & ->)].
    + left. eauto.
    + right. exists u. split; [exact Hu|]. split; [exact Hr|].
      rewrite AuthFacts.run_handle. split; [reflexivity|].
      unfold CartController.removeFromCart.
      repeat match goal with
             | |- context [match ?x with _ => _ end] => destruct x
             end; cbn; discriminate.
  - destruct (AuthFacts.guarded_chain_as jwtVerify castObjectId "buyer"
                (Auth.handleAs (OrderController.checkout env) serverError)
                req db) as [(f & ->) | (u & Hu & Hr & ->)].
    + left. eauto.
    + right. exists u. split; [exact Hu|]. split; [exact Hr|].
      rewrite AuthFacts.run_handleAs. split; [reflexivity|].
      unfold OrderController.checkout.
      repeat match goal with
             | |- context [match ?x with _ => _ end] => destruct x
             end; cbn; discriminate.
Qed.

(** No request to the admin orders router is answered by a handler: it
    ends in the error of [protect], or, once the token is accepted, with no
    answer at all, and the store is untouched. The status of an order can
    therefore not be changed through [PATCH /admin/orders/:id/status]. *)
Theorem adminOrderRouter_never_answers
    (jwtVerify : string -> Auth.JwtResult)
    (castObjectId : string -> option ObjectId)
    {A : Type} (handler : Auth.Middleware A) (req : Auth.Request) (db : DB) :
  (forall u, Auth.protect jwtVerify castObjectId req db = inr u ->
     Auth.runChain (Auth.adminOrderRouter jwtVerify castObjectId handler)
                   req None db = (Auth.Unanswered, db)) /\
  (forall f, Auth.protect jwtVerify castObjectId req db = inl f ->
     Auth.runChain (Auth.adminOrderRouter jwtVerify castObjectId handler)
                   req None db = (Auth.Failed f, db)) /\
  (forall a, fst (Auth.runChain
                    (Auth.adminOrderRouter jwtVerify castObjectId handler)
                    req None db) <> Auth.Answered a) /\
  snd (Auth.runChain (Auth.adminOrderRouter jwtVerify castObjectId handler)
                     req None db) = db.
Proof.
  unfold Auth.adminOrderRouter. cbn [Auth.runChain]. unfold Auth.protectMw at 1 2 3 4.
  destruct (Auth.protect jwtVerify castObjectId req db) as [f|u];
    cbn [Auth.runChain Auth.returnsAtOnce fst snd].
  - repeat split; try discriminate. intros f' [= <-]. reflexivity.
  - repeat split; discriminate.
Qed.

(** ** Product administration *)

Module ProductAdminFacts.
Import ProductAdmin.

Lemma db_eta db : mkDB (products db) (users db) (carts db) (orders db) = db.
Proof. destruct db. reflexivity. Qed.

Lemma setStatus_same p : setStatus (Product.status p) p = p.
Proof. destruct p. reflexivity. Qed.

Lemma setStatus_twice s s' p : setStatus s (setStatus s' p) = setStatus s p.
Proof. reflexivity. Qed.

Lemma alter_absent {A} (f : A -> A) (m : gmap ObjectId A) i :
  m !! i = None -> alter f i m = m.
Proof.
  intros H. apply map_eq. intros j. destruct (decide (i = j)) as [<-|Hne].
  - rewrite lookup_alter_eq, H. reflexivity.
  - apply lookup_alter_ne. exact Hne.
Qed.

Lemma alter_same (m : gmap ObjectId Product.t) i p s :
  m !! i = Some p -> Product.status p = s -> alter (setStatus s) i m = m.
Proof.
  intros H Hs. apply map_eq. intros j. destruct (decide (i = j)) as [<-|Hne].
  - rewrite lookup_alter_eq, H. cbn. rewrite <- Hs, setStatus_same. reflexivity.
  - apply lookup_alter_ne. exact Hne.
Qed.

(** Toggling a stored product: active becomes inactive, every other status
    becomes active. *)
Lemma toggle_run castObjectId id pid p db :
  castObjectId id = Some pid ->
  products db !! pid = Some p ->
  exists message,
    toggleProductStatus castObjectId id db
    = let s := if Product.status_eqb (Product.status p) Product.active
               then Product.inactive else Product.active in
      ((200%nat, ProductData message (Some (setStatus s p))),
       set_products (alter (setStatus s) pid (products db)) db).
Proof.
  intros Hc Hp. unfold toggleProductStatus. rewrite Hc, Hp.
  unfold findByIdAndUpdateStatus.
  destruct (Product.status_eqb (Product.status p) Product.active);
    cbn [statusOfString String.eqb Ascii.eqb Bool.eqb andb]; rewrite Hp;
    eexists; reflexivity.
Qed.

End ProductAdminFacts.

(** [rejectProduct] never rejects a product: "rejected" is not a status of
    the product schema, so with a reason given the update fails validation
    and the answer is 500, without a reason the answer is 400, and in both
    cases the store is untouched. *)
Theorem rejectProduct_never_rejects
    (castObjectId : string -> option ObjectId)
    (id : string) (reason : option string) (db : DB) :
  snd (ProductAdmin.rejectProduct castObjectId id reason db) = db /\
  (CartController.truthy reason = None ->
   fst (ProductAdmin.rejectProduct castObjectId id reason db)
   = (400%nat, ProductAdmin.ProductMessage "error" "Rejection reason is required")) /\
  (CartController.truthy reason <> None ->
   fst (ProductAdmin.rejectProduct castObjectId id reason db)
   = (500%nat, ProductAdmin.ProductMessage "error" "Failed to reject product")).
Proof.
  unfold ProductAdmin.rejectProduct.
  destruct (CartController.truthy reason) as [r|].
  - destruct (castObjectId id) as [pid|]; cbn; repeat split; congruence.
  - cbn. repeat split; congruence.
Qed.

(** Toggling a stored product twice leaves an active product active and
    makes every other product inactive: it gives back the store it started
    from exactly when the product was active or inactive, a draft or
    out-of-stock product having been made active by the first toggle,
    whatever its stock. Nothing but that product's status changes. *)
Theorem toggleProductStatus_twice
    (castObjectId : string -> option ObjectId)
    (id : string) (pid : ObjectId) (p : Product.t) (db : DB) :
  castObjectId id = Some pid ->
  products db !! pid = Some p ->
  let once := snd (ProductAdmin.toggleProductStatus castObjectId id db) in
  let twice := snd (ProductAdmin.toggleProductStatus castObjectId id once) in
  (Product.status p <> Product.active ->
   products once !! pid = Some (ProductAdmin.setStatus Product.active p)) /\
  products twice !! pid
  = Some (ProductAdmin.setStatus
            (if Product.status_eqb (Product.status p) Product.active
             then Product.active else Product.inactive) p) /\
  (forall other, other <> pid -> products twice !! other = products db !! other) /\
  users twice = users db /\ carts twice = carts db /\ orders twice = orders db /\
  (twice = db <->
   Product.status p = Product.active \/ Product.status p = Product.inactive).
Proof.
  intros Hc Hp once twice.
  destruct (ProductAdminFacts.toggle_run castObjectId id pid p db Hc Hp)
    as (m1 & Hrun1).
  cbv zeta in Hrun1.
  set (s1 := if Product.status_eqb (Product.status p) Product.active
             then Product.inactive else Product.active) in *.
  assert (Honce : once = set_products
                           (alter (ProductAdmin.setStatus s1) pid (products db)) db).
  { subst once. rewrite Hrun1. reflexivity. }
  assert (Hp1 : products once !! pid = Some (ProductAdmin.setStatus s1 p)).
  { rewrite Honce. cbn [products set_products]. rewrite lookup_alter_eq, Hp.
    reflexivity. }
  destruct (ProductAdminFacts.toggle_run castObjectId id pid _ once Hc Hp1)
    as (m2 & Hrun2).
  cbv zeta in Hrun2. cbn [Product.status ProductAdmin.setStatus] in Hrun2.
  set (s2 := if Product.status_eqb s1 Product.active
             then Product.inactive else Product.active) in *.
  assert (Htwice : twice = set_products
                             (alter (ProductAdmin.setStatus s2) pid (products once))
                             once).
  { subst twice. rewrite Hrun2. reflexivity. }
  assert (Hs2 : s2 = if Product.status_eqb (Product.status p) Product.active
                     then Product.active else Product.inactive).
  { subst s2 s1.
    destruct (Product.status_eqb (Product.status p) Product.active); reflexivity. }
  assert (Hp2 : products twice !! pid = Some (ProductAdmin.setStatus s2 p)).
  { rewrite Htwice. cbn [products set_products]. rewrite lookup_alter_eq, Hp1.
    reflexivity. }
  split; [|split; [|split; [|split; [|split; [|split]]]]].
  - intros Hna. rewrite Hp1. subst s1.
    destruct (Product.status_eqb (Product.status p) Product.active) eqn:E;
      [|reflexivity].
    apply ProductStatus.status_eqb_eq in E. contradiction.
  - rewrite Hp2, Hs2. reflexivity.
  - intros other Hne. rewrite Htwice, Honce. cbn [products set_products].
    rewrite !lookup_alter_ne by congruence. reflexivity.
  - rewrite Htwice, Honce. reflexivity.
  - rewrite Htwice, Honce. reflexivity.
  - rewrite Htwice, Honce. reflexivity.
  - split.
    + intros Heq. rewrite Heq, Hp in Hp2. injection Hp2 as Hp2.
      assert (Hst : Product.status p = s2) by (rewrite Hp2 at 1; reflexivity).
      rewrite Hs2 in Hst.
      destruct (Product.status_eqb (Product.status p) Product.active) eqn:E; auto.
    + intros Hst. rewrite Htwice, Honce. unfold set_products.
      cbn [products users carts orders].
      rewrite <- (ProductAdminFacts.db_eta db) at 5. f_equal.
      apply map_eq. intros j. destruct (decide (pid = j)) as [<-|Hne].
      * rewrite !lookup_alter_eq, Hp. cbn. f_equal.
        rewrite ProductAdminFacts.setStatus_twice.
        rewrite <- (ProductAdminFacts.setStatus_same p) at 2. f_equal.
        rewrite Hs2. destruct Hst as [-> | ->]; reflexivity.
      * rewrite !lookup_alter_ne by exact Hne. reflexivity.
Qed.

Lemma toggleProductStatus_twice_witness :
  snd (ProductAdmin.toggleProductStatus ObjectIdText.ofHex Sample.tomatoId
         (snd (ProductAdmin.toggleProductStatus ObjectIdText.ofHex
                 Sample.tomatoId (Sample.store Sample.single))))
  = Sample.store Sample.single.
Proof.
  apply (proj2 (proj2 (proj2 (proj2 (proj2 (proj2
           (toggleProductStatus_twice ObjectIdText.ofHex Sample.tomatoId 10%N
              Sample.tomato (Sample.store Sample.single) eq_refl eq_refl))))))).
  left. reflexivity.
Defined.

(** When its farmer deletes a product the answer is 204 and the product is
    gone, the other products, the carts and the orders staying as they
    are; every cart that holds a line on it then makes [getCart] answer 500
    and [checkout] answer 400 without writing. *)
Theorem deleteProduct_breaks_carts
    (castObjectId : string -> option ObjectId)
    (requester : User.t) (id : string) (pid : ObjectId) (p : Product.t) (db : DB) :
  castObjectId id = Some pid ->
  products db !! pid = Some p ->
  Product.farmer p = User._id requester ->
  let run := ProductAdmin.deleteProduct castObjectId requester id db in
  fst run = (204%nat, ProductAdmin.NoData) /\
  products (snd run) !! pid = None /\
  (forall other, other <> pid ->
     products (snd run) !! other = products db !! other) /\
  users (snd run) = users db /\
  carts (snd run) = carts db /\
  orders (snd run) = orders db /\
  (forall user cart,
     carts db !! User._id user = Some cart ->
     In pid (map CartItem.product (Cart.items cart)) ->
     CartController.getCart (Some user) (snd run) = serverError /\
     forall env, exists m,
       OrderController.checkout env user (snd run)
       = (mkResponse 400 (JMessage m), snd run)).
Proof.
  intros Hc Hp Hf run. subst run. unfold ProductAdmin.deleteProduct.
  rewrite Hc, Hp, Hf, String.eqb_refl. cbn [negb fst snd products users carts
    orders set_products].
  split; [reflexivity|]. split; [apply lookup_delete_eq|].
  split; [intros other Hne; apply lookup_delete_ne; congruence|].
  split; [reflexivity|]. split; [reflexivity|]. split; [reflexivity|].
  intros user cart Hcart Hin.
  apply in_map_iff in Hin. destruct Hin as (line & Hline & Hin).
  split.
  - apply (CartDangling.getCart_dangling user _ cart); [exact Hcart|].
    apply Exists_exists. exists line. split; [apply list_elem_of_In, Hin|].
    cbn [products]. rewrite Hline. apply lookup_delete_eq.
  - intros env. apply CheckoutMore.checkout_not_servable.
    right. exists cart. split; [exact Hcart|]. right.
    apply Exists_exists. exists (populateCartItem
      (mkDB (delete pid (products db)) (users db) (carts db) (orders db)) line).
    split.
    + unfold populateCart. apply list_elem_of_In, in_map, Hin.
    + left. unfold Spec.unavailable, populateCartItem. cbn [pci_product products].
      rewrite Hline, lookup_delete_eq. exact I.
Qed.

Lemma deleteProduct_breaks_carts_witness :
  CartController.getCart (Some Sample.buyer)
    (snd (ProductAdmin.deleteProduct ObjectIdText.ofHex Sample.farmer
            Sample.tomatoId (Sample.store Sample.single)))
  = serverError.
Proof.
  refine (proj1 (proj2 (proj2 (proj2 (proj2 (proj2 (proj2
            (deleteProduct_breaks_carts ObjectIdText.ofHex Sample.farmer
               Sample.tomatoId 10%N Sample.tomato (Sample.store Sample.single)
               eq_refl eq_refl eq_refl))))))
            Sample.buyer (Cart.mk 1 Sample.single) eq_refl _)).
  left. reflexivity.
Defined.

(** [approveProduct] makes a stored product active whatever its stock,
    also a product with none, and changes nothing else; approving again
    changes nothing; for an id that no product has, the answer is 404 and
    the store is untouched. *)
Theorem approveProduct_effect
    (castObjectId : string -> option ObjectId)
    (id : string) (pid : ObjectId) (db : DB) :
  castObjectId id = Some pid ->
  let run := ProductAdmin.approveProduct castObjectId id db in
  (products db !! pid = None ->
   run = ((404%nat, ProductAdmin.ProductMessage "error" "Product not found"), db)) /\
  (forall p,
     products db !! pid = Some p ->
     fst run
     = (200%nat,
        ProductAdmin.ProductData "Product approved successfully"
          (Some (ProductAdmin.setStatus Product.active p))) /\
     products (snd run) !! pid = Some (ProductAdmin.setStatus Product.active p) /\
     (forall other, other <> pid ->
        products (snd run) !! other = products db !! other) /\
     users (snd run) = users db /\ carts (snd run) = carts db /\
     orders (snd run) = orders db /\
     snd (ProductAdmin.approveProduct castObjectId id (snd run)) = snd run).
Proof.
  intros Hc run. subst run. unfold ProductAdmin.approveProduct.
  rewrite Hc. unfold ProductAdmin.findByIdAndUpdateStatus.
  cbn [ProductAdmin.statusOfString String.eqb Ascii.eqb Bool.eqb andb].
  split.
  - intros Hp. rewrite Hp. cbn [fmap option_fmap option_map].
    rewrite (ProductAdminFacts.alter_absent _ _ _ Hp).
    unfold set_products. rewrite ProductAdminFacts.db_eta. reflexivity.
  - intros p Hp. rewrite Hp. cbn [fmap option_fmap option_map fst snd products
      users carts orders set_products].
    split; [reflexivity|]. split; [rewrite lookup_alter_eq, Hp; reflexivity|].
    split; [intros other Hne; apply lookup_alter_ne; congruence|].
    split; [reflexivity|]. split; [reflexivity|]. split; [reflexivity|].
    rewrite lookup_alter_eq, Hp.
    cbn [fmap option_fmap option_map snd]. unfold set_products.
    cbn [products users carts orders]. f_equal.
    apply (ProductAdminFacts.alter_same _ pid (ProductAdmin.setStatus Product.active p));
      [rewrite lookup_alter_eq, Hp; reflexivity | reflexivity].
Qed.

Lemma approveProduct_effect_witness :
  ProductAdmin.approveProduct ObjectIdText.ofHex "00000000000000000000000b"
    (Sample.store Sample.single)
  = ((404%nat, ProductAdmin.ProductMessage "error" "Product not found"),
     Sample.store Sample.single).
Proof.
  apply (proj1 (approveProduct_effect ObjectIdText.ofHex
                  "00000000000000000000000b" 11%N (Sample.store Sample.single)
                  eq_refl)).
  reflexivity.
Defined.

(** ** What the cart shows and what checkout charges *)


